(** * upjobs: normalisation, batch metadata, deduplication and keyed sheet sync

    A shallow embedding of the Python sources of the [upjobs] package
    ([processing.py], [cli.py], [connectors/sheets.py], [ai.py]) together
    with the properties its design document states about them.

    Conventions of the embedding.
    - A Python [str] is the [string] of the bytes of its UTF-8 encoding,
      so a character beyond ASCII takes two to four of them.
      [str.strip] removes the white space of Unicode, given here by its
      encodings.  [str.lower] is taken from the runtime, which fixes it
      on ASCII text.  The digits of [re], [str.isdigit] and [int] are
      the ASCII ones: what is stated about file names and numerals is
      stated for ASCII names and for digits of ASCII.
    - A JSON-like Python object is a [value]; a [dict] is an association
      list in insertion order, as CPython keeps it.
    - A function that can raise returns a [result]. *)

From Stdlib Require Import List String Ascii ZArith Lia Bool Arith PeanoNat.
From Stdlib Require Import DecimalString Permutation Finite.
From Stdlib Require DecimalPos.
From Stdlib Require Import PrimFloat FloatOps SpecFloat.
Import ListNotations.

#[local] Set Warnings "-register-all".

Local Open Scope string_scope.
Local Open Scope list_scope.
Local Open Scope nat_scope.

(* ================================================================== *)
(** ** Python values and exceptions *)

Inductive exn : Type :=
| AttributeError
| TypeError
| ValueError
| OverflowError
| IndexError
| KeyError.

Inductive result (A : Type) : Type :=
| Ok (a : A)
| Raise (e : exn).

Arguments Ok {A} a.
Arguments Raise {A} e.

Definition bind {A B : Type} (r : result A) (f : A -> result B) : result B :=
  match r with
  | Ok a => f a
  | Raise e => Raise e
  end.

Declare Scope py_scope.
Delimit Scope py_scope with py.
Notation "x <- r ;; k" := (bind r (fun x => k))
  (at level 61, r at next level, right associativity) : py_scope.

(** [try: r except Exception: h] *)
Definition try_except {A : Type} (r : result A) (h : A) : A :=
  match r with
  | Ok a => a
  | Raise _ => h
  end.

(* ================================================================== *)
(** ** Strings *)

Module Str.

Definition is_digit (c : ascii) : bool :=
  let n := nat_of_ascii c in (48 <=? n) && (n <=? 57).

Definition newline : ascii := ascii_of_nat 10.

(** The white space of [str.isspace] and [str.strip] on the ASCII range:
    TAB, LF, VT, FF, CR, FS, GS, RS, US and the blank. *)
Definition is_space (c : ascii) : bool :=
  let n := nat_of_ascii c in
  ((9 <=? n) && (n <=? 13)) || ((28 <=? n) && (n <=? 32)).

(** The white space beyond ASCII, by its encoding.  Two bytes: U+0085
    (194 133) and U+00A0 (194 160). *)
Definition is_space2 (a b : ascii) : bool :=
  (nat_of_ascii a =? 194) && ((nat_of_ascii b =? 133) || (nat_of_ascii b =? 160)).

(** Three bytes: U+1680 (225 154 128), U+2000 to U+200A (226 128 128 to
    138), U+2028, U+2029 and U+202F (226 128 168, 169 and 175), U+205F
    (226 129 159) and U+3000 (227 128 128). *)
Definition is_space3 (a b c : ascii) : bool :=
  let x := nat_of_ascii a in
  let y := nat_of_ascii b in
  let z := nat_of_ascii c in
  ((x =? 225) && (y =? 154) && (z =? 128))
  || ((x =? 226) && (y =? 128)
      && (((128 <=? z) && (z <=? 138)) || (z =? 168) || (z =? 169) || (z =? 175)))
  || ((x =? 226) && (y =? 129) && (z =? 159))
  || ((x =? 227) && (y =? 128) && (z =? 128)).

(** [str.lower] on ASCII text. *)
Definition lower_char (c : ascii) : ascii :=
  let n := nat_of_ascii c in
  if (65 <=? n) && (n <=? 90) then ascii_of_nat (n + 32) else c.

Fixpoint lower (s : string) : string :=
  match s with
  | EmptyString => EmptyString
  | String c s' => String (lower_char c) (lower s')
  end.

(** [s.lstrip()]: the white space at the start goes, one character of
    one, two or three bytes at a time. *)
Fixpoint lstrip (s : string) : string :=
  match s with
  | EmptyString => EmptyString
  | String a s1 =>
      if is_space a then lstrip s1
      else
        match s1 with
        | EmptyString => s
        | String b s2 =>
            if is_space2 a b then lstrip s2
            else
              match s2 with
              | EmptyString => s
              | String c s3 => if is_space3 a b c then lstrip s3 else s
              end
        end
  end.

(** [s.rstrip()]: the longest tail made of white space goes.  A tail is
    made of white space when [lstrip] leaves nothing of it. *)
Fixpoint rstrip (s : string) : string :=
  match s with
  | EmptyString => EmptyString
  | String a s' =>
      match lstrip s with
      | EmptyString => EmptyString
      | _ => String a (rstrip s')
      end
  end.

Definition strip (s : string) : string := rstrip (lstrip s).

Fixpoint all_chars (p : ascii -> bool) (s : string) : bool :=
  match s with
  | EmptyString => true
  | String c s' => p c && all_chars p s'
  end.

(** A text of ASCII characters only. *)
Definition is_ascii_char (c : ascii) : bool := nat_of_ascii c <? 128.

Definition is_ascii (s : string) : bool := all_chars is_ascii_char s.

(** [str.isdigit]: non-empty and made of digits. *)
Definition isdigit (s : string) : bool :=
  match s with
  | EmptyString => false
  | _ => all_chars is_digit s
  end.

Definition digit_val (c : ascii) : Z := Z.of_nat (nat_of_ascii c) - 48.

Fixpoint int_of_digits_from (acc : Z) (s : string) : Z :=
  match s with
  | EmptyString => acc
  | String c s' => int_of_digits_from (10 * acc + digit_val c) s'
  end.

(** [int(s)] for a string of digits. *)
Definition int_of_digits (s : string) : Z := int_of_digits_from 0 s.

(** [str(n)] for an [int]. *)
Definition of_Z (z : Z) : string := NilZero.string_of_int (Z.to_int z).

Fixpoint repeat_char (c : ascii) (n : nat) : string :=
  match n with
  | O => EmptyString
  | S n' => String c (repeat_char c n')
  end.

(** [format(n, "0<w>d")] for a non-negative [n]. *)
Definition zero_pad (w : nat) (z : Z) : string :=
  let s := of_Z z in
  (repeat_char "0"%char (w - String.length s) ++ s)%string.

(** [sep.join(parts)] *)
Fixpoint join (sep : string) (parts : list string) : string :=
  match parts with
  | [] => EmptyString
  | [p] => p
  | p :: rest => (p ++ sep ++ join sep rest)%string
  end.

(** The first [length s - length rest] characters of [s]: the text a
    matcher consumed when [rest] is what it left. *)
Definition consumed (s rest : string) : string :=
  substring 0 (String.length s - String.length rest) s.

(** [s.rfind(c)], [None] for -1. *)
Fixpoint rfind (c : ascii) (s : string) : option nat :=
  match s with
  | EmptyString => None
  | String a s' =>
      match rfind c s' with
      | Some i => Some (S i)
      | None => if Ascii.eqb a c then Some 0 else None
      end
  end.

(** [s.split(c)] *)
Fixpoint split (c : ascii) (s : string) : list string :=
  match s with
  | EmptyString => [EmptyString]
  | String a s' =>
      if Ascii.eqb a c then EmptyString :: split c s'
      else match split c s' with
           | p :: ps => String a p :: ps
           | [] => [String a EmptyString]
           end
  end.

(** [c in s] *)
Fixpoint contains (c : ascii) (s : string) : bool :=
  match s with
  | EmptyString => false
  | String a s' => Ascii.eqb a c || contains c s'
  end.

End Str.

(** [sys.get_int_max_str_digits()]: a literal with more digits is a
    ValueError. *)
Definition int_max_str_digits : nat := 4300.

(** [int(s)] for a text of digits. *)
Definition int_of_digit_text (s : string) : result Z :=
  if String.length s <=? int_max_str_digits then Ok (Str.int_of_digits s)
  else Raise ValueError.

(* ================================================================== *)
(** ** A backtracking matcher for the regular expressions of the sources

    The fragment of Python's [re] that [processing.py] and
    [datetime.strptime] use: one-character classes, sequence, ordered
    alternation, greedy bounded repetition of a class, the lazy star of a
    class, an optional group, named groups and the end anchor.  Matching
    is by backtracking in the order [re] tries the alternatives; the
    continuation is what remains to be matched. *)

Module Re.

Inductive cls : Type :=
| Digit                      (* \d *)
| Dot                        (* .  : anything but a newline *)
| Chr (a : ascii)
| Rng (lo hi : ascii).       (* [lo-hi] *)

Definition cls_match (c : cls) (a : ascii) : bool :=
  match c with
  | Digit => Str.is_digit a
  | Dot => negb (Ascii.eqb a Str.newline)
  | Chr b => Ascii.eqb a b
  | Rng lo hi =>
      (nat_of_ascii lo <=? nat_of_ascii a) && (nat_of_ascii a <=? nat_of_ascii hi)
  end.

Inductive re : Type :=
| Eps
| One (c : cls)
| Seq (r1 r2 : re)
| Alt (r1 r2 : re)                          (* r1|r2 *)
| Greedy (c : cls) (lo : nat) (hi : option nat)   (* c{lo,hi}; c+ is c{1,} *)
| Lazy (c : cls)                            (* c*? *)
| Opt (r : re)                              (* (?:r)? *)
| Group (name : string) (r : re)            (* (?P<name>r) *)
| Eos.                                      (* $ *)

Definition groupdict : Type := list (string * string).

Fixpoint gd_get (gd : groupdict) (name : string) : option string :=
  match gd with
  | [] => None
  | (n, v) :: gd' => if String.eqb n name then Some v else gd_get gd' name
  end.

Section Matcher.
Variable T : Type.

Definition hi_allows (hi : option nat) : bool :=
  match hi with
  | Some O => false
  | _ => true
  end.

Definition hi_pred (hi : option nat) : option nat :=
  match hi with
  | Some n => Some (pred n)
  | None => None
  end.

(** [c{lo,hi}], greedy: one more character first, the continuation
    when that fails and [lo] characters have been taken. *)
Fixpoint greedy (c : cls) (lo : nat) (hi : option nat) (s : string)
         (k : string -> option T) : option T :=
  let stop := match lo with O => k s | S _ => None end in
  match s with
  | String a s' =>
      if cls_match c a && hi_allows hi then
        match greedy c (pred lo) (hi_pred hi) s' k with
        | Some x => Some x
        | None => stop
        end
      else stop
  | EmptyString => stop
  end.

(** [c*?], lazy: the continuation first, one more character when it
    fails. *)
Fixpoint lazy_star (c : cls) (s : string) (k : string -> option T) : option T :=
  match k s with
  | Some x => Some x
  | None =>
      match s with
      | String a s' => if cls_match c a then lazy_star c s' k else None
      | EmptyString => None
      end
  end.

(** [$] without MULTILINE: at the end, or before a newline that ends the
    string. *)
Definition at_eos (s : string) : bool :=
  match s with
  | EmptyString => true
  | String a EmptyString => Ascii.eqb a Str.newline
  | _ => false
  end.

Fixpoint run (r : re) (s : string) (g : groupdict)
         (k : string -> groupdict -> option T) : option T :=
  match r with
  | Eps => k s g
  | One c =>
      match s with
      | String a s' => if cls_match c a then k s' g else None
      | EmptyString => None
      end
  | Seq r1 r2 => run r1 s g (fun s' g' => run r2 s' g' k)
  | Alt r1 r2 =>
      match run r1 s g k with
      | Some x => Some x
      | None => run r2 s g k
      end
  | Greedy c lo hi => greedy c lo hi s (fun s' => k s' g)
  | Lazy c => lazy_star c s (fun s' => k s' g)
  | Opt r1 =>
      match run r1 s g k with
      | Some x => Some x
      | None => k s g
      end
  | Group name r1 => run r1 s g (fun s' g' => k s' ((name, Str.consumed s s') :: g'))
  | Eos => if at_eos s then k s g else None
  end.

End Matcher.

Arguments greedy {T} c lo hi s k.
Arguments lazy_star {T} c s k.
Arguments run {T} r s g k.

(** A literal text. *)
Fixpoint lit (s : string) : re :=
  match s with
  | EmptyString => Eps
  | String a s' => Seq (One (Chr a)) (lit s')
  end.

Fixpoint seq (rs : list re) : re :=
  match rs with
  | [] => Eps
  | [r] => r
  | r :: rs' => Seq r (seq rs')
  end.

Fixpoint alt (rs : list re) : re :=
  match rs with
  | [] => Eps
  | [r] => r
  | r :: rs' => Alt r (alt rs')
  end.

(** [re.match(pattern, s)]: the groups of the first match at the start of
    [s], with what the match left unread. *)
Definition match_prefix (r : re) (s : string) : option (groupdict * string) :=
  run r s [] (fun rest g => Some (g, rest)).

Definition match_ (r : re) (s : string) : option groupdict :=
  option_map fst (match_prefix r s).

(** [re.sub(r, repl, s)] for an expression that matches no empty text:
    the leftmost matches, left to right.  The fuel bounds the number of
    steps; [sub] gives one more than the length, which is enough since
    every step drops a character. *)
Fixpoint sub_from (fuel : nat) (r : re) (repl s : string) : string :=
  match fuel with
  | O => s
  | S fuel' =>
      match s with
      | EmptyString => EmptyString
      | String a s' =>
          match match_prefix r s with
          | Some (_, rest) => (repl ++ sub_from fuel' r repl rest)%string
          | None => String a (sub_from fuel' r repl s')
          end
      end
  end.

Definition sub (r : re) (repl s : string) : string :=
  sub_from (S (String.length s)) r repl s.

End Re.

(* ================================================================== *)
(** ** [datetime.strptime(s, "%Y%m%d%H%M%S%f")] and [isoformat] *)

Module Datetime.
Import Re.

(** An aware [datetime] in UTC. *)
Record datetime : Type := mk_datetime {
  year : Z; month : Z; day : Z;
  hour : Z; minute : Z; second : Z; microsecond : Z
}.

Definition d : re := One Digit.
Definition c (a : ascii) : re := One (Chr a).
Definition rg (lo hi : ascii) : re := One (Rng lo hi).

(** The expressions [_strptime.TimeRE] gives the directives. *)
Definition re_Y : re := Group "Y" (seq [d; d; d; d]).
Definition re_m : re :=
  Group "m" (alt [Seq (c "1") (rg "0" "2"); Seq (c "0") (rg "1" "9"); rg "1" "9"]).
Definition re_d : re :=
  Group "d" (alt [Seq (c "3") (rg "0" "1"); Seq (rg "1" "2") d;
                  Seq (c "0") (rg "1" "9"); rg "1" "9"; Seq (c " ") (rg "1" "9")]).
Definition re_H : re :=
  Group "H" (alt [Seq (c "2") (rg "0" "3"); Seq (rg "0" "1") d; d]).
Definition re_M : re := Group "M" (alt [Seq (rg "0" "5") d; d]).
Definition re_S : re :=
  Group "S" (alt [Seq (c "6") (rg "0" "1"); Seq (rg "0" "5") d; d]).
Definition re_f : re := Group "f" (Greedy (Rng "0" "9") 1 (Some 6)).

Definition format_regex : re := seq [re_Y; re_m; re_d; re_H; re_M; re_S; re_f].

Definition is_leap (y : Z) : bool :=
  ((y mod 4 =? 0) && negb (y mod 100 =? 0) || (y mod 400 =? 0))%Z.

Definition days_in_month (y m : Z) : Z :=
  (if m =? 2 then (if is_leap y then 29 else 28)
   else if (m =? 4) || (m =? 6) || (m =? 9) || (m =? 11) then 30
   else 31)%Z.

(** What the [datetime] constructor accepts. *)
Definition valid (t : datetime) : bool :=
  ((1 <=? year t) && (year t <=? 9999) &&
   (1 <=? month t) && (month t <=? 12) &&
   (1 <=? day t) && (day t <=? days_in_month (year t) (month t)) &&
   (0 <=? hour t) && (hour t <=? 23) &&
   (0 <=? minute t) && (minute t <=? 59) &&
   (0 <=? second t) && (second t <=? 59) &&
   (0 <=? microsecond t) && (microsecond t <=? 999999))%Z.

Definition group_int (gd : groupdict) (name : string) : Z :=
  match gd_get gd name with
  | Some s => Str.int_of_digits (Str.lstrip s)
  | None => 0%Z
  end.

(** The fraction is padded with zeros on the right to six digits. *)
Definition group_fraction (gd : groupdict) : Z :=
  match gd_get gd "f" with
  | Some s =>
      Str.int_of_digits (s ++ Str.repeat_char "0"%char (6 - String.length s))%string
  | None => 0%Z
  end.

(** [strptime] with the format of the sources, made aware in UTC: the
    format's expression must match at the start and leave nothing
    unread, and the fields must make a date. *)
Definition strptime (s : string) : result datetime :=
  match match_prefix format_regex s with
  | None => Raise ValueError
  | Some (gd, rest) =>
      match rest with
      | String _ _ => Raise ValueError
      | EmptyString =>
          let t := {| year := group_int gd "Y"; month := group_int gd "m";
                      day := group_int gd "d"; hour := group_int gd "H";
                      minute := group_int gd "M"; second := group_int gd "S";
                      microsecond := group_fraction gd |} in
          if valid t then Ok t else Raise ValueError
      end
  end.

(** [t.isoformat()] for an aware UTC value: the microseconds are printed
    only when they are not zero. *)
Definition isoformat (t : datetime) : string :=
  (Str.zero_pad 4 (year t) ++ "-" ++ Str.zero_pad 2 (month t) ++ "-" ++
   Str.zero_pad 2 (day t) ++ "T" ++ Str.zero_pad 2 (hour t) ++ ":" ++
   Str.zero_pad 2 (minute t) ++ ":" ++ Str.zero_pad 2 (second t) ++
   (if (microsecond t =? 0)%Z then "" else "." ++ Str.zero_pad 6 (microsecond t)) ++
   "+00:00")%string.

End Datetime.

(* ================================================================== *)
(** ** processing.py: [parse_filename_metadata] *)

Module Filename.
Import Re.

Record meta : Type := mk_meta {
  search_id : string;
  query_timestamp : option string;
  query : option string;
  page : option Z
}.

Definition head_re : list re :=
  [Group "search_id" (Greedy Digit 14 (Some 17)); lit "-";
   Group "query" (Lazy Dot); lit "-page"].

(** [^(?P<search_id>\d{14,17})-(?P<query>.*?)-page(?P<page>\d+)\.json$] *)
Definition strict_re : re :=
  seq (head_re ++ [Group "page" (Greedy Digit 1 None); lit ".json"; Eos]).

(** [^(?P<search_id>\d{14,17})-(?P<query>.*?)-page(?:\.json)?$] *)
Definition relaxed_re : re :=
  seq (head_re ++ [Opt (lit ".json"); Eos]).

(** The two attempts of the function, the strict pattern first. *)
Definition match_filename (filename : string) : option groupdict :=
  match match_ strict_re filename with
  | Some gd => Some gd
  | None => match_ relaxed_re filename
  end.

(** [str(x)] inside an f-string, for a group that may be [None]. *)
Definition fstr (o : option string) : string :=
  match o with
  | Some s => s
  | None => "None"
  end.

(** [Path(name).stem]: the name without its last suffix. *)
Definition stem (name : string) : string :=
  match Str.rfind "."%char name with
  | Some i =>
      if (0 <? i) && (i <? String.length name - 1) then substring 0 i name else name
  | None => name
  end.

(** The function, on the last component of the path (what
    [Path(filepath).name] returns). *)
Definition parse_filename_metadata (filename : string) : result meta :=
  match match_filename filename with
  | Some gd =>
      let search_id := gd_get gd "search_id" in
      let query := gd_get gd "query" in
      let page_str := match gd_get gd "page" with Some p => p | None => "" end in
      (page <- (if Str.isdigit page_str
                then (p <- int_of_digit_text page_str ;; Ok (Some p))
                else Ok None) ;;
       let query_ts :=
         try_except
           (match search_id with
            | Some s => (t <- Datetime.strptime s ;; Ok (Some t))
            | None => Raise TypeError
            end)
           None in
       let sid :=
         match page with
         | Some p => (fstr search_id ++ "-" ++ fstr query ++ "-page" ++ Str.of_Z p)%string
         | None => (fstr search_id ++ "-" ++ fstr query ++ "-page")%string
         end in
       (* query_ts.isoformat(): an attribute of None when the parse failed *)
       match query_ts with
       | None => Raise AttributeError
       | Some t =>
           Ok {| search_id := sid; query_timestamp := Some (Datetime.isoformat t);
                 query := query; page := page |}
       end)%py
  | None =>
      Ok {| search_id := stem filename; query_timestamp := None;
            query := None; page := None |}
  end.

End Filename.


(* ================================================================== *)
(** ** JSON-like Python objects *)

Inductive value : Type :=
| VNone
| VBool (b : bool)
| VInt (z : Z)
| VFloat (f : float)
| VStr (s : string)
| VList (l : list value)
| VDict (d : list (string * value)).

(** A [dict] with [str] keys, in insertion order. *)
Module PyDict.
Section Dict.
Variable V : Type.

Definition t : Type := list (string * V).

(** [d.get(k)], [None] when the key is absent. *)
Fixpoint lookup (d : t) (k : string) : option V :=
  match d with
  | [] => None
  | (k', v) :: d' => if String.eqb k' k then Some v else lookup d' k
  end.

(** [d[k] = v]: a present key keeps its place, a new one goes last. *)
Fixpoint set (d : t) (k : string) (v : V) : t :=
  match d with
  | [] => [(k, v)]
  | (k', v') :: d' => if String.eqb k' k then (k', v) :: d' else (k', v') :: set d' k v
  end.

Definition keys (d : t) : list string := map fst d.
Definition values (d : t) : list V := map snd d.

End Dict.

Arguments lookup {V} d k.
Arguments set {V} d k v.
Arguments keys {V} d.
Arguments values {V} d.
End PyDict.

Definition dict : Type := PyDict.t value.

(** [d.get(k)] on a dictionary of values. *)
Definition get (d : dict) (k : string) : value :=
  match PyDict.lookup d k with
  | Some v => v
  | None => VNone
  end.

(** The truth value of an object: [bool(v)]. *)
Definition truthy (v : value) : bool :=
  match v with
  | VNone => false
  | VBool b => b
  | VInt z => negb (z =? 0)%Z
  | VFloat f => negb (PrimFloat.eqb f PrimFloat.zero)
  | VStr s => negb (String.eqb s "")
  | VList l => match l with [] => false | _ => true end
  | VDict d => match d with [] => false | _ => true end
  end.

(** [a or b] *)
Definition py_or (a b : value) : value := if truthy a then a else b.

Definition is_str (v : value) : bool :=
  match v with VStr _ => true | _ => false end.
Definition is_list (v : value) : bool :=
  match v with VList _ => true | _ => false end.
Definition is_dict (v : value) : bool :=
  match v with VDict _ => true | _ => false end.
Definition is_none (v : value) : bool :=
  match v with VNone => true | _ => false end.

(** [v.get(k)]: only a [dict] has the method. *)
Definition attr_get (v : value) (k : string) : result value :=
  match v with
  | VDict d => Ok (get d k)
  | _ => Raise AttributeError
  end.

(** The exact value of a finite float is [m * 2^e]; [f == z] compares
    it with the integer without rounding. *)
Definition float_eq_Z (f : float) (z : Z) : bool :=
  match Prim2SF f with
  | S754_zero _ => (z =? 0)%Z
  | S754_finite s m e =>
      let mz := if s then Z.neg m else Z.pos m in
      if (0 <=? e)%Z then (z =? mz * 2 ^ e)%Z
      else ((mz mod 2 ^ (- e) =? 0) && (z =? mz / 2 ^ (- e)))%Z
  | _ => false
  end.

(** [v == n] for an [int] [n]: [True] is 1 and [False] is 0. *)
Definition eq_int (v : value) (n : Z) : bool :=
  match v with
  | VBool b => ((if b then 1 else 0) =? n)%Z
  | VInt z => (z =? n)%Z
  | VFloat f => float_eq_Z f n
  | _ => false
  end.

(** [v == w] when one of the two is hashable: numbers by value, strings
    by content, [None] with itself; a list or a dict equals none of
    these. *)
Definition eq_scalar (v w : value) : bool :=
  match v, w with
  | VNone, VNone => true
  | VStr s, VStr t => String.eqb s t
  | VBool b, _ => eq_int w (if b then 1 else 0)
  | VInt z, _ => eq_int w z
  | VFloat f, VFloat g => PrimFloat.eqb f g
  | VFloat f, VBool b => float_eq_Z f (if b then 1 else 0)
  | VFloat f, VInt z => float_eq_Z f z
  | _, _ => false
  end.

Definition hashable (v : value) : bool :=
  match v with
  | VList _ | VDict _ => false
  | _ => true
  end.

(** [float(n)] for an [int]: the nearest double, [None] for the
    OverflowError of an integer beyond the doubles. *)
Definition float_of_int (z : Z) : option float :=
  match binary_normalize prec emax z 0 false with
  | S754_infinity _ => None
  | sf => Some (SF2Prim sf)
  end.

(** What the embedding takes from outside without unfolding it: from
    the Python runtime the text of a float and of a container, the
    parsing of a float, the [json] module and the case table of
    [str.lower]; from the spreadsheet the text a cell shows after a
    scalar has been entered into it.  Of [str.lower] two facts are kept:
    on ASCII text it is the ASCII rule, and a lower-cased text is in
    lower case. *)
Record runtime : Type := mk_runtime {
  float_repr : float -> string;             (* repr(x), x a float *)
  container_repr : value -> string;         (* repr(x), x a list or dict *)
  float_of_str : string -> option float;    (* float(s); None: ValueError *)
  json_dumps : value -> string;             (* json.dumps(x, ensure_ascii=False) *)
  json_loads : string -> option value;      (* json.loads(s); None: it raised *)
  sheet_text : value -> string;             (* what a cell shows once a scalar is entered *)
  str_lower : string -> string;             (* s.lower() *)
  lower_ascii : forall s, Str.is_ascii s = true -> str_lower s = Str.lower s;
  lower_lower : forall s, str_lower (str_lower s) = str_lower s
}.

(* ================================================================== *)
(** ** The worksheet behind [gspread]

    A worksheet is the grid of the texts its cells show, row 1 first.
    [row_values] and [col_values] drop the empty cells at the end, as
    the Sheets API does. *)

Module Sheet.

Definition row : Type := list string.
Definition t : Type := list row.

Fixpoint trim (l : list string) : list string :=
  match l with
  | [] => []
  | x :: l' =>
      match trim l' with
      | [] => if String.eqb x "" then [] else [x]
      | r => x :: r
      end
  end.

(** [ws.row_values(n)], [n] counted from 1. *)
Definition row_values (ws : t) (n : nat) : list string :=
  trim (nth (n - 1) ws []).

(** [ws.col_values(k)], [k] counted from 1. *)
Definition col_values (ws : t) (k : nat) : list string :=
  trim (map (fun r => nth (k - 1) r "") ws).

(** Row [n] (from 0) becomes [f] of itself; rows are added when the grid
    is shorter. *)
Fixpoint set_row (n : nat) (f : row -> row) (ws : t) : t :=
  match n, ws with
  | O, r :: rest => f r :: rest
  | O, [] => [f []]
  | S n', r :: rest => r :: set_row n' f rest
  | S n', [] => [] :: set_row n' f []
  end.

(** The cells of [new] over the first cells of [old]; a cell for which
    [new] gives [None] keeps what it had. *)
Fixpoint overwrite (new : list (option string)) (old : row) : row :=
  match new with
  | [] => old
  | c :: new' =>
      let keep := match old with x :: _ => x | [] => "" end in
      let rest := match old with _ :: old' => old' | [] => [] end in
      (match c with Some s => s | None => keep end) :: overwrite new' rest
  end.

End Sheet.

Section WithRuntime.
Variable rt : runtime.

(** [str(v)] *)
Definition py_str (v : value) : string :=
  match v with
  | VNone => "None"
  | VBool true => "True"
  | VBool false => "False"
  | VInt z => Str.of_Z z
  | VFloat f => float_repr rt f
  | VStr s => s
  | VList _ | VDict _ => container_repr rt v
  end.

(** [float(v)] *)
Definition py_float (v : value) : result float :=
  match v with
  | VBool b => Ok (if b then PrimFloat.one else PrimFloat.zero)
  | VInt z =>
      match float_of_int z with
      | Some f => Ok f
      | None => Raise OverflowError
      end
  | VFloat f => Ok f
  | VStr s =>
      match float_of_str rt s with
      | Some f => Ok f
      | None => Raise ValueError
      end
  | VNone | VList _ | VDict _ => Raise TypeError
  end.

(* ================================================================== *)
(** ** processing.py: [flatten_record] *)

(** [<.*?>] *)
Definition html_tag_re : Re.re :=
  Re.seq [Re.One (Re.Chr "<"); Re.Lazy Re.Dot; Re.One (Re.Chr ">")].

Definition strip_html (text : value) : value :=
  match text with
  | VStr s => VStr (Re.sub html_tag_re "" s)
  | _ => text
  end.

(** [s.rsplit(".", 1)[-1]]: what follows the last dot. *)
Definition after_last_dot (s : value) : value :=
  match s with
  | VStr x =>
      if Str.contains "."%char x then VStr (last (Str.split "."%char x) "") else s
  | _ => s
  end.

Definition between_underscores (s : value) : value :=
  match s with
  | VStr x =>
      let parts := Str.split "_"%char x in
      if 2 <? List.length parts then VStr (nth 1 parts "") else s
  | _ => s
  end.

(** [float(val)], with TypeError and ValueError turned into [None]. *)
Definition safe_float (val : value) : result value :=
  match py_float val with
  | Ok f => Ok (VFloat f)
  | Raise TypeError => Ok VNone
  | Raise ValueError => Ok VNone
  | Raise e => Raise e
  end.

(** [{1: "fixed", 2: "hourly"}.get(value)]: the key is hashed first. *)
Definition get_job_type (v : value) : result value :=
  if hashable v then
    Ok (if eq_int v 1 then VStr "fixed"
        else if eq_int v 2 then VStr "hourly"
        else VNone)
  else Raise TypeError.

Definition pretty_name_of (a : value) : list value :=
  match a with
  | VDict d => if truthy (get d "prettyName") then [get d "prettyName"] else []
  | _ => []
  end.

Definition extract_skill_names (attrs : value) : list value :=
  match attrs with
  | VList l => flat_map pretty_name_of l
  | _ => []
  end.

Definition skill_name_of (s : value) : list value :=
  match s with
  | VDict d => [py_or (get d "prettyName") (get d "name")]
  | _ => []
  end.

(** [x in ("VERIFIED", True)] *)
Definition in_verified (x : value) : bool :=
  eq_scalar x (VStr "VERIFIED") || eq_scalar x (VBool true).

(** [record.get(k) or {}] *)
Definition get_or_empty (record : dict) (k : string) : value :=
  py_or (get record k) (VDict []).

Definition flatten_record (record : dict) : result dict :=
  let job_id := py_or (py_or (get record "uid") (get record "jobId")) (get record "id") in
  let url :=
    if truthy (get record "ciphertext")
    then VStr ("https://www.upwork.com/jobs/" ++ py_str (get record "ciphertext"))%string
    else py_or (get record "url") (get record "jobLink") in
  (* Currency *)
  (c1 <- attr_get (get_or_empty record "amount") "currencyCode" ;;
   currency <-
     (if truthy c1 then Ok c1
      else (c2 <- attr_get (get_or_empty record "hourlyBudget") "currencyCode" ;;
            Ok (py_or c2 (VStr "USD")))) ;;
   (* Skills *)
   let skills0 := extract_skill_names (get record "attrs") in
   let skills :=
     match skills0, get record "skills" with
     | [], VList l => flat_map skill_name_of l
     | _, _ => skills0
     end in
   (* Engagement *)
   let engagement0 := get record "engagement" in
   let engagement :=
     match get record "posting" with
     | VDict posting =>
         if truthy engagement0 then engagement0 else get posting "engagement"
     | _ => engagement0
     end in
   (* Client *)
   let client := get_or_empty record "client" in
   let client_country :=
     match client with
     | VDict cd =>
         match py_or (get cd "location") (VDict []) with
         | VDict loc => get loc "country"
         | _ => get cd "country"
         end
     | _ => VNone
     end in
   total_spent <- attr_get client "totalSpent" ;;
   client_total_spent <- safe_float total_spent ;;
   verified0 <- attr_get client "isPaymentVerified" ;;
   client_payment_verified <-
     (if is_none verified0
      then (st <- attr_get client "paymentVerificationStatus" ;;
            Ok (VBool (in_verified st)))
      else Ok verified0) ;;
   client_total_reviews <- attr_get client "totalReviews" ;;
   feedback <- attr_get client "totalFeedback" ;;
   client_avg_feedback <-
     (if truthy feedback then Ok feedback else attr_get client "rating") ;;
   (* Budgets *)
   let amount := get_or_empty record "amount" in
   let hourly_budget := get_or_empty record "hourlyBudget" in
   weekly_budget <- attr_get (get_or_empty record "weeklyBudget") "amount" ;;
   (* STS flag, relevance *)
   let is_sts :=
     if is_none (get record "isSTSVectorSearchResult")
     then get record "isStsVectorSearchResult"
     else get record "isSTSVectorSearchResult" in
   let relevance :=
     match get record "relevanceEncoded" with
     | VStr s => match json_loads rt s with Some v => v | None => VStr s end
     | v => v
     end in
   job_type <- get_job_type (get record "type") ;;
   fixed_budget <- attr_get amount "amount" ;;
   hourly_min <- attr_get hourly_budget "min" ;;
   hourly_max <- attr_get hourly_budget "max" ;;
   Ok [ ("job_id", if is_none job_id then VNone else VStr (py_str job_id));
        ("url", url);
        ("title", strip_html (get record "title"));
        ("description", strip_html (get record "description"));
        ("skills", VList skills);
        ("created_on", get record "createdOn");
        ("published_on", get record "publishedOn");
        ("renewed_on", get record "renewedOn");
        ("duration_label", get record "durationLabel");
        ("connect_price", get record "connectPrice");
        ("job_type", job_type);
        ("engagement", after_last_dot engagement);
        ("proposals_tier", after_last_dot (get record "proposalsTier"));
        ("tier_text", between_underscores (get record "tierText"));
        ("fixed_budget", fixed_budget);
        ("weekly_budget", weekly_budget);
        ("hourly_budget_min", hourly_min);
        ("hourly_budget_max", hourly_max);
        ("currency", currency);
        ("client_country", client_country);
        ("client_total_spent", client_total_spent);
        ("client_payment_verified", client_payment_verified);
        ("client_total_reviews", client_total_reviews);
        ("client_avg_feedback", client_avg_feedback);
        ("is_sts_vector_search_result", is_sts);
        ("relevance_encoded", relevance);
        ("is_applied",
         VBool (truthy (match PyDict.lookup record "isApplied" with
                        | Some v => v
                        | None => VBool false
                        end))) ])%py.

(* ================================================================== *)
(** ** processing.py: [process_json_file] *)

(** [for r in v]: the items of a list, the keys of a dict, the
    characters of a string; nothing else iterates. *)
Definition iter_values (v : value) : result (list value) :=
  match v with
  | VList l => Ok l
  | VDict d => Ok (map (fun kv => VStr (fst kv)) d)
  | VStr s => Ok (map (fun a => VStr (String a EmptyString)) (list_ascii_of_string s))
  | _ => Raise TypeError
  end.

(** [[flatten_record(r) for r in raw_jobs if isinstance(r, dict)]] *)
Fixpoint flatten_all (raw_jobs : list value) : result (list dict) :=
  match raw_jobs with
  | [] => Ok []
  | VDict r :: rest =>
      (j <- flatten_record r ;; js <- flatten_all rest ;; Ok (j :: js))%py
  | _ :: rest => flatten_all rest
  end.

(** [jid in seen]: the object is hashed, then compared. *)
Definition in_seen (jid : value) (seen : list value) : result bool :=
  if hashable jid then Ok (existsb (eq_scalar jid) seen) else Raise TypeError.

(** One turn of the loop that removes the duplicates of a file: the
    state is the set [seen] and the list [unique_jobs]. *)
Definition unique_step (st : result (list value * list dict)) (j : dict)
  : result (list value * list dict) :=
  (s <- st ;;
   let jid := get j "job_id" in
   if negb (truthy jid) then Ok s
   else (dup <- in_seen jid (fst s) ;;
         if dup then Ok s else Ok (fst s ++ [jid], snd s ++ [j])))%py.

Definition unique_by_job_id (flattened : list dict) : result (list dict) :=
  (s <- fold_left unique_step flattened (Ok ([], [])) ;; Ok (snd s))%py.

Definition opt_str (o : option string) : value :=
  match o with Some s => VStr s | None => VNone end.
Definition opt_int (o : option Z) : value :=
  match o with Some z => VInt z | None => VNone end.

(** [process_json_file(path)], from the text of the path, its last
    component and the decoded content of the file. *)
Definition process_json_file (path name : string) (data : value)
  : result (list dict * list dict * dict) :=
  (meta <- Filename.parse_filename_metadata name ;;
   raw <- (match data with
           | VList _ => Ok data
           | VDict d => Ok (match PyDict.lookup d "jobs" with
                            | Some v => v
                            | None => VList []
                            end)
           | _ => Raise AttributeError
           end) ;;
   raw_jobs <- iter_values raw ;;
   flattened <- flatten_all raw_jobs ;;
   unique_jobs <- unique_by_job_id flattened ;;
   let search_results_rows :=
     flat_map (fun j =>
       if truthy (get j "job_id")
       then [[("search_id", VStr (Filename.search_id meta));
              ("job_id", get j "job_id");
              ("proposals_tier", get j "proposals_tier");
              ("is_applied", match PyDict.lookup j "is_applied" with
                             | Some v => v
                             | None => VBool false
                             end)]]
       else []) unique_jobs in
   let scrape_req :=
     [("search_id", VStr (Filename.search_id meta));
      ("query", opt_str (Filename.query meta));
      ("page", opt_int (Filename.page meta));
      ("filepath", VStr path);
      ("query_timestamp", opt_str (Filename.query_timestamp meta))] in
   Ok (unique_jobs, search_results_rows, scrape_req))%py.

(* ================================================================== *)
(** ** cli.py: [_dedupe_jobs] and [_dedupe_search_results] *)

Definition dedupe_jobs_step (by_id : PyDict.t dict) (r : dict) : PyDict.t dict :=
  let jid := get r "job_id" in
  if negb (truthy jid) then by_id else PyDict.set by_id (py_str jid) r.

Definition _dedupe_jobs (rows : list dict) : list dict :=
  PyDict.values (fold_left dedupe_jobs_step rows []).

Definition pair_eqb (a b : string * string) : bool :=
  String.eqb (fst a) (fst b) && String.eqb (snd a) (snd b).

Definition dedupe_sr_step (st : list (string * string) * list dict) (r : dict)
  : list (string * string) * list dict :=
  let search_id := get r "search_id" in
  let job_id := get r "job_id" in
  if negb (truthy search_id) || negb (truthy job_id) then st
  else
    let key := (py_str search_id, py_str job_id) in
    if existsb (pair_eqb key) (fst st) then st
    else (fst st ++ [key], snd st ++ [r]).

Definition _dedupe_search_results (rows : list dict) : list dict :=
  snd (fold_left dedupe_sr_step rows ([], [])).

End WithRuntime.

(* ================================================================== *)
(** ** connectors/sheets.py *)

(** The calls a push makes on the worksheet. *)
Record range_update : Type := mk_range_update {
  range : string;              (* "A<row>:<last column><row>" *)
  row_num : nat;
  values : list value
}.

Inductive call : Type :=
| Update (cells : list string)                 (* ws.update("1:1", [cells]) *)
| BatchUpdate (data : list range_update)       (* ws.batch_update(data, ...) *)
| AppendRows (rows : list (list value)).       (* ws.append_rows(rows, ...) *)

(** [headers.index(key)], from 0. *)
Fixpoint index_of (key : string) (headers : list string) : option nat :=
  match headers with
  | [] => None
  | h :: hs =>
      if String.eqb h key then Some 0
      else option_map S (index_of key hs)
  end.

(** The loop over [enumerate(column_values, start=i)]. *)
Fixpoint index_loop (idx : PyDict.t nat) (i : nat) (column_values : list string)
  : PyDict.t nat :=
  match column_values with
  | [] => idx
  | val :: rest =>
      index_loop (if negb (String.eqb val "") then PyDict.set idx val i else idx)
                 (S i) rest
  end.

Definition read_index_by_key (ws : Sheet.t) (key_col_name : string) : PyDict.t nat :=
  let headers := Sheet.row_values ws 1 in
  match index_of key_col_name headers with
  | None => []
  | Some i =>
      let key_idx := i + 1 in
      let column_values := tl (Sheet.col_values ws key_idx) in
      index_loop [] 2 column_values
  end.

(** The loop [while n > 0] of [_col_letters] on an [int]: a positive
    [n] ends it within [n] turns, and no turn is made for [n <= 0]. *)
Fixpoint col_letters_loop (fuel : nat) (n : Z) (s : string) : string :=
  match fuel with
  | O => s
  | S fuel' =>
      if (0 <? n)%Z
      then col_letters_loop fuel' ((n - 1) / 26)%Z
             (String (ascii_of_nat (65 + Z.to_nat ((n - 1) mod 26))) s)
      else s
  end.

Definition _col_letters (n : Z) : string := col_letters_loop (Z.to_nat n) n "".

(** [range(0, stop, step)] for a positive step. *)
Fixpoint range_from (fuel start stop step : nat) : list nat :=
  match fuel with
  | O => []
  | S fuel' =>
      if start <? stop then start :: range_from fuel' (start + step) stop step else []
  end.

(** [[l[i : i + batch_size] for i in range(0, len(l), batch_size)]]: a
    step of zero is a ValueError, a negative step gives no turn. *)
Definition batches {A : Type} (l : list A) (batch_size : Z) : result (list (list A)) :=
  if (batch_size =? 0)%Z then Raise ValueError
  else if (batch_size <? 0)%Z then Ok []
  else
    let b := Z.to_nat batch_size in
    Ok (map (fun i => firstn b (skipn i l))
            (range_from (List.length l) 0 (List.length l) b)).

Section SheetsWithRuntime.
Variable rt : runtime.

Definition normalize_cell (v : value) : value :=
  match v with
  | VList l => VStr (Str.join ", " (map (py_str rt) l))
  | VDict _ => VStr (json_dumps rt v)
  | _ => v
  end.

Definition _normalize_row (headers : list string) (row : dict) : list value :=
  fold_left (fun normalized h => normalized ++ [normalize_cell (get row h)]) headers [].

(** What a write leaves in a cell: a null value is skipped by a range
    update and gives an empty cell in an appended row. *)
Definition written (v : value) : option string :=
  match v with
  | VNone => None
  | _ => Some (sheet_text rt v)
  end.

Definition appended (v : value) : string :=
  match v with
  | VNone => ""
  | _ => sheet_text rt v
  end.

(** The effect of one call on the grid. *)
Definition apply_call (ws : Sheet.t) (c : call) : Sheet.t :=
  match c with
  | Update cells => Sheet.set_row 0 (Sheet.overwrite (map Some cells)) ws
  | BatchUpdate data =>
      fold_left (fun w u =>
                   Sheet.set_row (row_num u - 1) (Sheet.overwrite (map written (values u))) w)
                data ws
  | AppendRows rows => ws ++ map (map appended) rows
  end.

(** A worksheet with the calls made on it so far. *)
Definition session : Type := (Sheet.t * list call)%type.

Definition do_call (s : session) (c : call) : session :=
  (apply_call (fst s) c, snd s ++ [c]).

(** Both branches that follow a mismatch write the headers; the
    [resize] of the second keeps the row count and touches no cell. *)
Definition ensure_headers (s : session) (headers : list string) : session :=
  let cur := Sheet.row_values (fst s) 1 in
  if list_eq_dec string_dec cur headers then s
  else do_call s (Update headers).

(** The loop over the records: the state is the pair of [updates] and
    [appends]. *)
Definition plan_step (headers : list string) (key : string) (index : PyDict.t nat)
           (st : list (nat * list value) * list (list value)) (row : dict)
  : list (nat * list value) * list (list value) :=
  if negb (truthy (get row key)) then st
  else
    let target_row := PyDict.lookup index (py_str rt (get row key)) in
    let vals := _normalize_row headers row in
    match target_row with
    | Some (S n) => (fst st ++ [(S n, vals)], snd st)
    | _ => (fst st, snd st ++ [vals])
    end.

Definition plan (headers : list string) (key : string) (index : PyDict.t nat)
           (rows : list dict) : list (nat * list value) * list (list value) :=
  fold_left (plan_step headers key index) rows ([], []).

Definition to_range_update (last_col : string) (u : nat * list value) : range_update :=
  let row := Str.of_Z (Z.of_nat (fst u)) in
  {| range := ("A" ++ row ++ ":" ++ last_col ++ row)%string;
     row_num := fst u;
     values := snd u |}.

Definition upsert_rows (ws : Sheet.t) (headers : list string) (rows : list dict)
           (key : string) (batch_size : Z) : result session :=
  let s0 := ensure_headers (ws, []) headers in
  let index := read_index_by_key (fst s0) key in
  let (updates, appends) := plan headers key index rows in
  let last_col := _col_letters (Z.of_nat (List.length headers)) in
  (update_chunks <- batches updates batch_size ;;
   let s1 :=
     fold_left (fun s chunk =>
                  match chunk with
                  | [] => s
                  | _ => do_call s (BatchUpdate (map (to_range_update last_col) chunk))
                  end)
               update_chunks s0 in
   append_chunks <- batches appends batch_size ;;
   Ok (fold_left (fun s chunk => do_call s (AppendRows chunk)) append_chunks s1))%py.


End SheetsWithRuntime.

(* ================================================================== *)
(** ** cli.py: the pull path *)

Definition _coerce_bool (rt : runtime) (v : value) : option bool :=
  match v with
  | VBool b => Some b
  | VInt _ | VFloat _ => Some (truthy v)
  | VStr s =>
      let x := str_lower rt (Str.strip s) in
      if existsb (String.eqb x) ["true"; "yes"; "y"; "1"] then Some true
      else if existsb (String.eqb x) ["false"; "no"; "n"; "0"] then Some false
      else None
  | _ => None
  end.

(** [x.lower()]: a method of [str] only. *)
Definition py_lower (rt : runtime) (v : value) : result string :=
  match v with
  | VStr s => Ok (str_lower rt s)
  | _ => Raise AttributeError
  end.

(** [u[k]] *)
Definition item (u : dict) (k : string) : result value :=
  match PyDict.lookup u k with
  | Some v => Ok v
  | None => Raise KeyError
  end.

Section PullWithRuntime.
Variable rt : runtime.

(** One turn of the loop of [sheets_pull] over [apps_update]: the pair
    the turn appends to [changed], if any. *)
Definition status_change (before_status : PyDict.t string) (u : dict)
  : result (list (string * string)) :=
  (a <- item u "application_id" ;;
   let app_id := py_str rt a in
   new_status <- py_lower rt (py_or (get u "status") (VStr "")) ;;
   let old_status :=
     str_lower rt (match PyDict.lookup before_status app_id with
                | Some s => s
                | None => ""
                end) in
   if negb (String.eqb new_status "") && negb (String.eqb new_status old_status)
   then Ok [(app_id, new_status)]
   else Ok [])%py.

Fixpoint status_changes (before_status : PyDict.t string) (apps_update : list dict)
  : result (list (string * string)) :=
  match apps_update with
  | [] => Ok []
  | u :: rest =>
      (c <- status_change before_status u ;;
       cs <- status_changes before_status rest ;;
       Ok (c ++ cs))%py
  end.

(** supabase.py, [insert_status_history]: the payload it inserts, one
    row for each pair with both parts non-empty (nothing is sent when
    the payload is empty). *)
Definition insert_status_history (rows : list (string * string)) : list dict :=
  flat_map (fun r =>
              if String.eqb (fst r) "" || String.eqb (snd r) "" then []
              else [[("application_id", VStr (fst r)); ("status", VStr (snd r))]])
           rows.

(** The rows inserted into the status history by the block of
    [sheets_pull] that follows the update of the applications. *)
Definition pull_status_history (before_status : PyDict.t string)
           (apps_update : list dict) : result (list dict) :=
  match apps_update with
  | [] => Ok []
  | _ =>
      (changed <- status_changes before_status apps_update ;;
       match changed with
       | [] => Ok []
       | _ => Ok (insert_status_history changed)
       end)%py
  end.

End PullWithRuntime.

(* ================================================================== *)
(** ** ai.py: the summaries *)

Module Ai.

(** What [client.chat.completions.create] gives back: for each choice
    the content of its message, and the usage with its total when the
    response has them. *)
Record response : Type := mk_response {
  choices : list (option string);
  usage : option (option value)
}.

Definition total_tokens (r : response) : value :=
  match usage r with
  | Some (Some n) => n
  | Some None => VInt 0
  | None => VInt 0
  end.

(** The body of the [try] of [_summarize_one]. *)
Definition summarize_body (created : result response) : result (option string * value) :=
  (resp <- created ;;
   first <- match choices resp with
            | c :: _ => Ok c
            | [] => Raise IndexError
            end ;;
   let text := Str.strip (match first with Some s => s | None => "" end) in
   Ok (Some text, total_tokens resp))%py.

Definition _summarize_one (created : result response) : option string * value :=
  try_except (summarize_body created) (None, VInt 0).

(** The records live in a store; a job is the address of its record. *)
Definition heap : Type := list dict.

Fixpoint update_at (h : heap) (a : nat) (f : dict -> dict) : heap :=
  match h, a with
  | [], _ => []
  | r :: h', O => f r :: h'
  | r :: h', S a' => r :: update_at h' a' f
  end.

Definition record_at (h : heap) (a : nat) : dict := nth a h [].

Definition add_summary (model text : string) (used : value) (j : dict) : dict :=
  PyDict.set
    (PyDict.set (PyDict.set j "description_summary" (VStr text))
                "description_summary_model" (VStr model))
    "description_summary_tokens" used.

(** The coroutine [run(j, p)] once its call has resolved. *)
Definition run (model : string) (h : heap) (j : nat) (created : result response) : heap :=
  let (text, used) := _summarize_one created in
  match text with
  | Some (String c s) => update_at h j (add_summary model (String c s) used)
  | _ => h
  end.

(** The loop that selects the jobs: the addresses of the tasks it
    creates, in order. *)
Fixpoint select (h : heap) (jobs : list nat) (count limit : Z) : list nat :=
  match jobs with
  | [] => []
  | job :: rest =>
      if (limit <=? count)%Z then []
      else if truthy (get (record_at h job) "description_summary")
              || negb (truthy (get (record_at h job) "description"))
           then select h rest count limit
           else job :: select h rest (count + 1)%Z limit
  end.

(** The tasks resolve in some order: [schedule] lists their positions
    in that order, [created] gives what the call of each returned.  A
    task writes its three fields without awaiting in between, so the
    store after the fan-out is the store after the tasks in the order in
    which their calls resolved; the semaphore bounds how many calls are
    in flight and does not change what they write.  The prompt of a task
    is rendered when the task is created and only feeds its call, which
    is given here by its result. *)
Definition resolve (model : string) (tasks : list nat) (created : nat -> result response)
           (h : heap) (i : nat) : heap :=
  match nth_error tasks i with
  | Some j => run model h j (created i)
  | None => h
  end.

Definition summarize_jobs (api_key : string) (model : string) (limit : Z)
           (created : nat -> result response) (schedule : list nat)
           (h : heap) (jobs : list nat) : heap :=
  if String.eqb api_key "" then h
  else fold_left (resolve model (select h jobs 0 limit) created) schedule h.

End Ai.

(* ================================================================== *)
(** ** Notions the statements use *)

(** The position, from 0, of the last occurrence of [v] in a list. *)
Fixpoint last_pos (v : string) (col : list string) : option nat :=
  match col with
  | [] => None
  | x :: rest =>
      match last_pos v rest with
      | Some p => Some (S p)
      | None => if String.eqb x v then Some 0 else None
      end
  end.

(** The text of the cell in row [i] and column [c] of a worksheet, both
    counted from 1; a cell outside the grid is empty. *)
Definition cell (ws : Sheet.t) (i c : nat) : string :=
  nth (c - 1) (nth (i - 1) ws []) "".

(** The status an update carries, lower-cased; empty when it has none. *)
Definition new_status_of (rt : runtime) (u : dict) : string :=
  match get u "status" with
  | VStr s => str_lower rt s
  | _ => ""
  end.

(** The status stored before the pull, lower-cased; empty when the
    application is unknown. *)
Definition old_status_of (rt : runtime) (before_status : PyDict.t string)
           (app_id : string) : string :=
  str_lower rt (match PyDict.lookup before_status app_id with
                | Some s => s
                | None => ""
                end).

(** An update as the loop over the Applications tab builds it: it has
    an application id, and its status is [None] or a string. *)
Definition update_wf (u : dict) : Prop :=
  (exists a, PyDict.lookup u "application_id" = Some a) /\
  (get u "status" = VNone \/ exists s, get u "status" = VStr s).

(** The id under which the pull looks an update up. *)
Definition app_id_of (rt : runtime) (u : dict) : string :=
  py_str rt (get u "application_id").

(** The condition under which an update is a transition. *)
Definition is_transition (rt : runtime) (before_status : PyDict.t string) (u : dict) : bool :=
  negb (String.eqb (new_status_of rt u) "")
  && negb (String.eqb (new_status_of rt u)
                      (old_status_of rt before_status (app_id_of rt u))).

(** The entries of [changed] for one application. *)
Definition entries_for (app_id : string) (changed : list (string * string))
  : list (string * string) :=
  filter (fun e => String.eqb (fst e) app_id) changed.

(** The ASCII rule of [str.lower] gives text in lower case. *)
Definition lower_char_lower (c : ascii)
  : Str.lower_char (Str.lower_char c) = Str.lower_char c.
Proof. destruct c as [[] [] [] [] [] [] [] []]; reflexivity. Qed.

Fixpoint lower_lower_ascii (s : string) : Str.lower (Str.lower s) = Str.lower s.
Proof.
  destruct s as [|c s]; [reflexivity|]. cbn [Str.lower].
  rewrite lower_char_lower, (lower_lower_ascii s). reflexivity.
Qed.

(** A runtime for the closed examples.  They run on records of ASCII
    strings, integers and booleans, where py_str, the lower case and the
    cell texts below are the real ones; what the functions give on a
    float, on a container or on text beyond ASCII is not used by them. *)
Definition example_runtime : runtime :=
  {| float_repr := fun _ => "nan";
     container_repr := fun _ => "[]";
     float_of_str := fun _ => None;
     json_dumps := fun _ => "{}";
     json_loads := fun _ => None;
     sheet_text := fun v =>
       match v with
       | VStr s => s
       | VInt z => Str.of_Z z
       | VBool true => "TRUE"
       | VBool false => "FALSE"
       | _ => ""
       end;
     str_lower := Str.lower;
     lower_ascii := fun s _ => eq_refl;
     lower_lower := lower_lower_ascii |}.

(** What a completion call amounts to for the record: the stripped text
    of the first choice, empty when the call raised, returned no choice
    or returned no content; and the tokens it reports. *)
Definition call_text (created : result Ai.response) : string :=
  match created with
  | Ok r =>
      match Ai.choices r with
      | Some s :: _ => Str.strip s
      | _ => ""
      end
  | Raise _ => ""
  end.

Definition call_tokens (created : result Ai.response) : value :=
  match created with
  | Ok r => Ai.total_tokens r
  | Raise _ => VInt 0
  end.

(** The record of a task once its call has resolved. *)
Definition summarized (model : string) (created : result Ai.response) (j : dict) : dict :=
  if String.eqb (call_text created) "" then j
  else Ai.add_summary model (call_text created) (call_tokens created) j.

(** A store of two records and the calls of an example run: the call of
    the first task raises, the call of the second returns a text. *)
Definition example_heap : Ai.heap :=
  [[("job_id", VStr "1"); ("description", VStr "Build a parser")];
   [("job_id", VStr "2"); ("description", VStr "Fix a crawler")]].

Definition example_created (i : nat) : result Ai.response :=
  match i with
  | 1 => Ok {| Ai.choices := [Some " A crawler to fix. "];
               Ai.usage := Some (Some (VInt 42)) |}
  | _ => Raise ValueError
  end.

(** *** Keys and occurrences, for the deduplication *)

(** The key [_dedupe_jobs] files a row under, when it files it. *)
Definition job_key (rt : runtime) (r : dict) : option string :=
  if truthy (get r "job_id") then Some (py_str rt (get r "job_id")) else None.

(** The key of a search result row, when it has one. *)
Definition sr_key (rt : runtime) (r : dict) : option (string * string) :=
  if truthy (get r "search_id") && truthy (get r "job_id")
  then Some (py_str rt (get r "search_id"), py_str rt (get r "job_id"))
  else None.

(** The key of a flattened record: its [job_id], a string or [None]. *)
Definition flat_key (r : dict) : option string :=
  match get r "job_id" with
  | VStr s => if String.eqb s "" then None else Some s
  | _ => None
  end.

(** What [flatten_record] guarantees about the [job_id] it returns. *)
Definition flat_job (r : dict) : Prop :=
  get r "job_id" = VNone \/ exists s, get r "job_id" = VStr s.

(** [r] has a key and is the last, or the first, row of [rows] with it. *)
Definition is_last_with {K : Type} (key : dict -> option K) (rows : list dict) (r : dict)
  : Prop :=
  exists pre post,
    rows = pre ++ r :: post /\ key r <> None /\ forall r', In r' post -> key r' <> key r.

Definition is_first_with {K : Type} (key : dict -> option K) (rows : list dict) (r : dict)
  : Prop :=
  exists pre post,
    rows = pre ++ r :: post /\ key r <> None /\ forall r', In r' pre -> key r' <> key r.

(** Every key of [rows] is the key of exactly one row of [out], and
    every row of [out] has a key of [rows]. *)
Definition one_per_key {K : Type} (key : dict -> option K) (rows out : list dict) : Prop :=
  NoDup (map key out) /\
  forall k, (exists r, In r rows /\ key r = Some k) <-> (exists r, In r out /\ key r = Some k).

(** The loop that keeps the first row of each key, as both
    [process_json_file] and [_dedupe_search_results] write it: a set of
    the keys seen and the list of the rows kept. *)
Definition first_step {K : Type} (key : dict -> option K) (eqb : K -> K -> bool)
           (st : list K * list dict) (r : dict) : list K * list dict :=
  match key r with
  | None => st
  | Some k =>
      if existsb (eqb k) (fst st) then st else (fst st ++ [k], snd st ++ [r])
  end.

(** What holds of the set and of the kept rows of that loop once the
    rows [done] have been read. *)
Definition first_inv {K : Type} (key : dict -> option K)
           (done : list dict) (st : list K * list dict) : Prop :=
  map key (snd st) = map Some (fst st) /\
  NoDup (fst st) /\
  (forall r, In r (snd st) -> is_first_with key done r) /\
  (forall r k, In r done -> key r = Some k -> In k (fst st)).

(** What holds of the dictionary of [_dedupe_jobs] once the rows [done]
    have been read. *)
Definition last_inv (key : dict -> option string)
           (done : list dict) (by_id : PyDict.t dict) : Prop :=
  NoDup (PyDict.keys by_id) /\
  (forall k r, PyDict.lookup by_id k = Some r -> key r = Some k /\ is_last_with key done r) /\
  (forall r k, In r done -> key r = Some k -> In k (PyDict.keys by_id)).

(** Two raw payloads of one job, with different descriptions, and the
    records [flatten_record] makes of them. *)
Definition payload (description : string) : dict :=
  [("uid", VStr "123"); ("description", VStr description)].

Definition flattened (description : string) : dict :=
  [ ("job_id", VStr "123"); ("url", VNone); ("title", VNone);
    ("description", VStr description); ("skills", VList []);
    ("created_on", VNone); ("published_on", VNone); ("renewed_on", VNone);
    ("duration_label", VNone); ("connect_price", VNone); ("job_type", VNone);
    ("engagement", VNone); ("proposals_tier", VNone); ("tier_text", VNone);
    ("fixed_budget", VNone); ("weekly_budget", VNone);
    ("hourly_budget_min", VNone); ("hourly_budget_max", VNone);
    ("currency", VStr "USD"); ("client_country", VNone);
    ("client_total_spent", VNone); ("client_payment_verified", VBool false);
    ("client_total_reviews", VNone); ("client_avg_feedback", VNone);
    ("is_sts_vector_search_result", VNone); ("relevance_encoded", VNone);
    ("is_applied", VBool false) ].

(** *** Shapes of a batch file name *)

Definition digits (s : string) : Prop := Str.all_chars Str.is_digit s = true.

Definition no_newline (s : string) : Prop :=
  Str.all_chars (fun c => negb (Ascii.eqb c Str.newline)) s = true.

(** What stops a greedy repetition after a text: the next character is
    outside the class, or there is none. *)
Definition blocked (c : Re.cls) (s : string) : Prop :=
  match s with
  | String a _ => Re.cls_match c a = false
  | EmptyString => True
  end.

(** The continuation of [Re.match_prefix]. *)
Definition k_end : string -> Re.groupdict -> option (Re.groupdict * string) :=
  fun rest g => Some (g, rest).

(** The two patterns of [parse_filename_metadata] share their head and
    differ in what follows the query. *)
Definition tail_strict : Re.re :=
  Re.seq [Re.lit "-page"; Re.Group "page" (Re.Greedy Re.Digit 1 None);
          Re.lit ".json"; Re.Eos].

Definition tail_relaxed : Re.re :=
  Re.seq [Re.lit "-page"; Re.Opt (Re.lit ".json"); Re.Eos].

Definition sid_group : Re.re := Re.Group "search_id" (Re.Greedy Re.Digit 14 (Some 17)).
Definition query_group : Re.re := Re.Group "query" (Re.Lazy Re.Dot).
Definition name_re (tail : Re.re) : Re.re :=
  Re.Seq sid_group (Re.Seq (Re.lit "-") (Re.Seq query_group tail)).

(** *** Counting the calls of a push *)



(** The range updates of a log, over all its batched calls. *)
Definition range_updates (log : list call) : list range_update :=
  flat_map (fun c => match c with BatchUpdate data => data | _ => [] end) log.

(** The rows of a log, over all its append calls. *)
Definition appended_rows (log : list call) : list (list value) :=
  flat_map (fun c => match c with AppendRows rows => rows | _ => [] end) log.

(** The records of a push that have a key. *)
Definition keyed (key : string) (rows : list dict) : list dict :=
  filter (fun r => truthy (get r key)) rows.


(** One queued range update applied to the grid. *)
Definition apply_update (rt : runtime) (w : Sheet.t) (u : nat * list value) : Sheet.t :=
  Sheet.set_row (fst u - 1) (Sheet.overwrite (map (written rt) (snd u))) w.

(** Row 1 starts with the headers. *)
Definition headed (headers : list string) (w : Sheet.t) : Prop :=
  exists tail, nth 0 w [] = headers ++ tail.


(** What the loop of [upsert_rows] queues for one record. *)
Definition planned_update (rt : runtime) (headers : list string) (key : string)
           (index : PyDict.t nat) (r : dict) : list (nat * list value) :=
  if truthy (get r key) then
    match PyDict.lookup index (py_str rt (get r key)) with
    | Some (S n) => [(S n, _normalize_row rt headers r)]
    | _ => []
    end
  else [].

Definition planned_append (rt : runtime) (headers : list string) (key : string)
           (index : PyDict.t nat) (r : dict) : list (list value) :=
  if truthy (get r key) then
    match PyDict.lookup index (py_str rt (get r key)) with
    | Some (S n) => []
    | _ => [_normalize_row rt headers r]
    end
  else [].


(** The turn of the loop that flushes one chunk of updates. *)
Definition flush_updates (rt : runtime) (last_col : string)
           (s : session) (chunk : list (nat * list value)) : session :=
  match chunk with
  | [] => s
  | _ => do_call rt s (BatchUpdate (map (to_range_update last_col) chunk))
  end.

Definition flush_appends (rt : runtime) (s : session) (chunk : list (list value)) : session :=
  do_call rt s (AppendRows chunk).

Definition nonempty {A : Type} (l : list A) : bool :=
  match l with [] => false | _ => true end.


(** A worksheet with a key column, an empty key cell and a repeated
    key, and a record with a list and a dict, for the examples. *)
Definition example_sheet : Sheet.t :=
  [["id"; "x"; ""]; ["a"; "1"]; [""; "2"]; ["b"]; ["a"; "9"; ""]].

Definition example_record : dict :=
  [("id", VStr "k1"); ("tags", VList [VStr "rust"; VInt 3]); ("meta", VDict []);
   ("n", VNone)].

(** *** Column names *)

(** The number a column name stands for in A1 notation: A is 1, Z is
    26, AA is 27. *)
Definition letter_val (c : ascii) : nat := nat_of_ascii c - 64.

Fixpoint col_number_from (acc : nat) (s : string) : nat :=
  match s with
  | EmptyString => acc
  | String c s' => col_number_from (26 * acc + letter_val c) s'
  end.

Definition col_number (s : string) : nat := col_number_from 0 s.

Definition is_upper (c : ascii) : bool :=
  (65 <=? nat_of_ascii c) && (nat_of_ascii c <=? 90).

(** *** The calls of a push and the rows it leaves *)

(** A call of a push made for the given headers with batches of at most
    [b] entries: the header row, or between one and [b] ranges or rows. *)
Definition call_within (headers : list string) (b : nat) (c : call) : Prop :=
  match c with
  | Update cells => cells = headers
  | BatchUpdate data => 1 <= List.length data <= b
  | AppendRows rows => 1 <= List.length rows <= b
  end.

(** The index has a row for the key of the record. *)
Definition indexed (rt : runtime) (key : string) (index : PyDict.t nat) (r : dict) : bool :=
  match PyDict.lookup index (py_str rt (get r key)) with
  | Some (S _) => true
  | _ => false
  end.

(** *** The record [flatten_record] returns *)

(** The keys of a flattened record, in the order of the literal. *)
Definition flat_fields : list string :=
  [ "job_id"; "url"; "title"; "description"; "skills"; "created_on"; "published_on";
    "renewed_on"; "duration_label"; "connect_price"; "job_type"; "engagement";
    "proposals_tier"; "tier_text"; "fixed_budget"; "weekly_budget"; "hourly_budget_min";
    "hourly_budget_max"; "currency"; "client_country"; "client_total_spent";
    "client_payment_verified"; "client_total_reviews"; "client_avg_feedback";
    "is_sts_vector_search_result"; "relevance_encoded"; "is_applied" ].

(** [(v or {}).get] can be called: [v] is falsy or a [dict]. *)
Definition takes_get (v : value) : bool := negb (truthy v) || is_dict v.

(** [float(v)] overflows: [v] is an [int] beyond the doubles. *)
Definition float_overflows (v : value) : bool :=
  match v with
  | VInt z => match float_of_int z with Some _ => false | None => true end
  | _ => false
  end.

(** The raw records [flatten_record] returns on. *)
Definition flattens (record : dict) : bool :=
  takes_get (get record "amount") && takes_get (get record "hourlyBudget") &&
  takes_get (get record "weeklyBudget") && takes_get (get record "client") &&
  hashable (get record "type") &&
  negb (float_overflows (match get_or_empty record "client" with
                         | VDict c => get c "totalSpent"
                         | _ => VNone
                         end)).

(** *** Notions for the batch file and its name *)

(** The keys of a search result row. *)
Definition sr_fields : list string := ["search_id"; "job_id"; "proposals_tier"; "is_applied"].

(** The first [n] characters of [s] are there and are digits. *)
Fixpoint starts_with_digits (n : nat) (s : string) : bool :=
  match n with
  | O => true
  | S n' =>
      match s with
      | String c s' => Str.is_digit c && starts_with_digits n' s'
      | EmptyString => false
      end
  end.

(** What [for r in v] raises on: [None], a boolean or a number. *)
Definition not_iterable (v : value) : bool :=
  match v with
  | VNone | VBool _ | VInt _ | VFloat _ => true
  | _ => false
  end.

(** *** Tags *)

(** What follows the first [>] of [s], when no newline comes before it:
    how the lazy [.*?>] of the tag pattern reads a text. *)
Fixpoint find_gt (s : string) : option string :=
  match s with
  | EmptyString => None
  | String a s' =>
      if Ascii.eqb a ">"%char then Some s'
      else if Ascii.eqb a Str.newline then None
      else find_gt s'
  end.

(** No position of [s] starts a tag. *)
Fixpoint tag_free (s : string) : bool :=
  match s with
  | EmptyString => true
  | String a s' =>
      negb (Ascii.eqb a "<"%char && match find_gt s' with Some _ => true | None => false end)
      && tag_free s'
  end.

(** The search result row [process_json_file] makes of a job row. *)
Definition search_result_row (search_id : string) (j : dict) : dict :=
  [("search_id", VStr search_id);
   ("job_id", get j "job_id");
   ("proposals_tier", get j "proposals_tier");
   ("is_applied", match PyDict.lookup j "is_applied" with
                  | Some v => v
                  | None => VBool false
                  end)].

(* ================================================================== *)
(** ** cli.py: [_coerce_int] *)

(** The digits of a decimal literal of [int]: digits, with single
    underscores between them.  Gives the value and the number of
    digits read. *)
Fixpoint int_digits (acc : Z) (n : nat) (s : string) : option (Z * nat) :=
  match s with
  | EmptyString => Some (acc, n)
  | String c s' =>
      if Str.is_digit c then int_digits (10 * acc + Str.digit_val c) (S n) s'
      else if Ascii.eqb c "_"%char then
        match s' with
        | String d s'' =>
            if Str.is_digit d then int_digits (10 * acc + Str.digit_val d) (S n) s''
            else None
        | EmptyString => None
        end
      else None
  end.

(** [int(s)] for a string: white space around, an optional sign, then
    the digits; [None] for the ValueError. *)
Definition py_int_of_str (s : string) : option Z :=
  let t := Str.strip s in
  let signed :=
    match t with
    | String a body =>
        if Ascii.eqb a "-"%char then (true, body)
        else if Ascii.eqb a "+"%char then (false, body)
        else (false, t)
    | EmptyString => (false, t)
    end in
  match snd signed with
  | String c rest =>
      if Str.is_digit c then
        match int_digits (Str.digit_val c) 1 rest with
        | Some (v, n) =>
            if n <=? int_max_str_digits
            then Some (if fst signed then (- v)%Z else v)
            else None
        | None => None
        end
      else None
  | EmptyString => None
  end.

Section CoerceWithRuntime.
Variable rt : runtime.

(** The ValueError of [int] is the only exception of the body. *)
Definition _coerce_int (v : value) : option Z :=
  let s := Str.strip (py_str rt v) in
  if String.eqb s "" then None else py_int_of_str s.

End CoerceWithRuntime.

(* ================================================================== *)
(** ** cli.py and connectors/supabase.py: what a pull sends

    The records of a tab are what [get_all_records] returns: one [dict]
    for each data row.  A function of [supabase.py] that sends one
    payload is given by the payload, empty when it makes no call. *)

Section PullLoops.
Variable rt : runtime.

(** *** Jobs.saved *)

(** One turn of the loop over the records of the Jobs tab. *)
Definition saved_step (jobs_updates : list dict) (r : dict) : list dict :=
  let jid := get r "job_id" in
  match _coerce_bool rt (get r "saved") with
  | Some saved =>
      if is_none jid then jobs_updates
      else jobs_updates ++ [[("job_id", VStr (py_str rt jid)); ("saved", VBool saved)]]
  | None => jobs_updates
  end.

Definition jobs_updates (jobs_records : list dict) : list dict :=
  fold_left saved_step jobs_records [].

(** supabase.py, [upsert_jobs_saved]: the payload of the upsert. *)
Definition upsert_jobs_saved (rows : list dict) : list dict :=
  flat_map (fun r =>
              if negb (is_none (get r "job_id")) && negb (is_none (get r "saved"))
              then [[("job_id", VStr (py_str rt (get r "job_id")));
                     ("saved", VBool (truthy (get r "saved")))]]
              else [])
           rows.

(** The rows the pull upserts into [jobs]. *)
Definition pull_jobs_saved (jobs_records : list dict) : list dict :=
  match jobs_updates jobs_records with
  | [] => []
  | updates => upsert_jobs_saved (_dedupe_jobs rt updates)
  end.

(** *** SearchResults.is_applied *)

Definition applied_step (sr_updates : list dict) (r : dict) : list dict :=
  let sid := get r "search_id" in
  let jid := get r "job_id" in
  match _coerce_bool rt (get r "is_applied") with
  | Some is_applied =>
      if negb (truthy sid) || negb (truthy jid) then sr_updates
      else sr_updates ++ [[("search_id", VStr (py_str rt sid));
                           ("job_id", VStr (py_str rt jid));
                           ("is_applied", VBool is_applied)]]
  | None => sr_updates
  end.

Definition sr_updates (sr_records : list dict) : list dict :=
  fold_left applied_step sr_records [].

(** supabase.py, [upsert_search_results_is_applied]: the payload. *)
Definition upsert_search_results_is_applied (rows : list dict) : list dict :=
  flat_map (fun r =>
              if truthy (get r "search_id") && truthy (get r "job_id")
                 && negb (is_none (get r "is_applied"))
              then [[("search_id", VStr (py_str rt (get r "search_id")));
                     ("job_id", VStr (py_str rt (get r "job_id")));
                     ("is_applied", VBool (truthy (get r "is_applied")))]]
              else [])
           rows.

Definition pull_is_applied (sr_records : list dict) : list dict :=
  match sr_updates sr_records with
  | [] => []
  | updates => upsert_search_results_is_applied (_dedupe_search_results rt updates)
  end.

(** *** Applications *)

(** [(v or "").strip().lower() or None]: [strip] is a method of [str]
    only. *)
Definition norm_status (v : value) : result value :=
  match py_or v (VStr "") with
  | VStr s =>
      let x := str_lower rt (Str.strip s) in
      Ok (if String.eqb x "" then VNone else VStr x)
  | _ => Raise AttributeError
  end.

Definition opt_bool (o : option bool) : value :=
  match o with Some b => VBool b | None => VNone end.

(** One turn of the loop over the records of the Applications tab; the
    state is the pair of [apps_new] and [apps_update]. *)
Definition apps_step (st : list dict * list dict) (r : dict)
  : result (list dict * list dict) :=
  (let app_id := get r "application_id" in
   let job_id := get r "job_id" in
   let final_message := get r "final_message" in
   status <- norm_status (get r "status") ;;
   let submitted_at := get r "submitted_at" in
   let connects_spent := opt_int (_coerce_int rt (get r "connects_spent")) in
   let boosted := opt_bool (_coerce_bool rt (get r "boosted")) in
   let proposal_url := get r "proposal_url" in
   if truthy app_id then
     Ok (fst st,
         snd st ++ [[("application_id", app_id); ("final_message", final_message);
                     ("status", status); ("submitted_at", submitted_at);
                     ("connects_spent", connects_spent); ("boosted", boosted);
                     ("proposal_url", proposal_url)]])
   else if truthy job_id then
     Ok (fst st ++ [[("job_id", job_id); ("final_message", final_message);
                     ("status", status); ("submitted_at", submitted_at);
                     ("connects_spent", connects_spent); ("boosted", boosted);
                     ("proposal_url", proposal_url)]],
         snd st)
   else Ok st)%py.

(** The loop inside its [try]: the two lists are filled in place, so an
    exception leaves in them what the turns before it appended. *)
Fixpoint apps_loop (st : list dict * list dict) (apps_records : list dict)
  : list dict * list dict :=
  match apps_records with
  | [] => st
  | r :: rest =>
      match apps_step st r with
      | Ok st' => apps_loop st' rest
      | Raise _ => st
      end
  end.

(** supabase.py, [insert_applications]: the payload of the insert. *)
Definition insert_applications (rows : list dict) : list dict :=
  fold_left (fun payload r =>
               let job_id := get r "job_id" in
               if negb (truthy job_id) then payload
               else payload ++ [[("job_id", VStr (py_str rt job_id));
                                 ("final_message", get r "final_message");
                                 ("status", py_or (get r "status") (VStr "draft"));
                                 ("submitted_at", get r "submitted_at");
                                 ("connects_spent", get r "connects_spent");
                                 ("boosted", get r "boosted");
                                 ("proposal_url", get r "proposal_url")]])
            rows [].

(** The columns [update_applications] may write.  The source iterates
    over a set, whose order is not fixed; the fields of an update are
    looked up by name. *)
Definition application_columns : list string :=
  ["final_message"; "status"; "submitted_at"; "connects_spent"; "boosted"; "proposal_url"].

(** supabase.py, [update_applications]: the updates it sends, each with
    the id it is filtered by and the fields it writes. *)
Definition update_applications (rows : list dict) : list (value * dict) :=
  fold_left (fun sent r =>
               let app_id := get r "application_id" in
               if negb (truthy app_id) then sent
               else
                 let update_fields :=
                   flat_map (fun k => match PyDict.lookup r k with
                                      | Some v => [(k, v)]
                                      | None => []
                                      end)
                            application_columns in
                 match update_fields with
                 | [] => sent
                 | _ => sent ++ [(app_id, update_fields)]
                 end)
            rows [].

End PullLoops.

(* ================================================================== *)
(** ** cli.py: what a push mirrors *)

(** supabase.py, [TERMINAL_APPLICATION_STATUSES] *)
Definition TERMINAL_APPLICATION_STATUSES : list string :=
  ["rejected"; "lost"; "withdrawn"; "accepted"; "hired"; "won"].

Section PushRows.
Variable rt : runtime.

(** The loop that gives every search result its composite key. *)
Definition sr_rows_step (sr_rows : list dict) (r : dict) : list dict :=
  let sid := get r "search_id" in
  let jid := get r "job_id" in
  if truthy sid && truthy jid
  then sr_rows ++ [PyDict.set r "search_job_key" (VStr (py_str rt sid ++ "::" ++ py_str rt jid))]
  else sr_rows.

Definition sr_rows (sr_rows_raw : list dict) : list dict :=
  fold_left sr_rows_step sr_rows_raw [].

(** The set comprehension of [sheets_push]: for each application the
    condition, then the element. *)
Fixpoint job_ids_to_hide (apps_rows : list dict) : result (list string) :=
  match apps_rows with
  | [] => Ok []
  | a :: rest =>
      (s <- py_lower rt (py_or (get a "status") (VStr "")) ;;
       ids <- (if existsb (String.eqb s) TERMINAL_APPLICATION_STATUSES
               then (j <- item a "job_id" ;; Ok [py_str rt j])
               else Ok []) ;;
       more <- job_ids_to_hide rest ;;
       Ok (ids ++ more))%py
  end.

(** The job rows a push mirrors. *)
Definition visible_jobs (hide_terminal : bool) (jobs_rows apps_rows : list dict)
  : result (list dict) :=
  if hide_terminal && nonempty apps_rows then
    (hidden <- job_ids_to_hide apps_rows ;;
     Ok (filter (fun j => negb (existsb (String.eqb (py_str rt (get j "job_id"))) hidden))
                jobs_rows))%py
  else Ok jobs_rows.

End PushRows.

(* ================================================================== *)
(** ** Notions for the pull and the push *)

(** An ASCII character that is not white space. *)
Definition not_space (c : ascii) : bool :=
  negb (Str.is_space c) && Str.is_ascii_char c.

(** What one record of the Jobs tab adds to [jobs_updates]. *)
Definition saved_update (rt : runtime) (r : dict) : list dict :=
  match _coerce_bool rt (get r "saved") with
  | Some saved =>
      if is_none (get r "job_id") then []
      else [[("job_id", VStr (py_str rt (get r "job_id"))); ("saved", VBool saved)]]
  | None => []
  end.

(** What one record of the SearchResults tab adds to [sr_updates]. *)
Definition applied_update (rt : runtime) (r : dict) : list dict :=
  match _coerce_bool rt (get r "is_applied") with
  | Some is_applied =>
      if negb (truthy (get r "search_id")) || negb (truthy (get r "job_id")) then []
      else [[("search_id", VStr (py_str rt (get r "search_id")));
             ("job_id", VStr (py_str rt (get r "job_id")));
             ("is_applied", VBool is_applied)]]
  | None => []
  end.

(** The key under which the one row a record contributes is filed; a
    record that contributes no row has none. *)
Definition contributed_key {K : Type} (f : dict -> list dict) (key : dict -> option K)
           (r : dict) : option K :=
  match f r with
  | [p] => key p
  | _ => None
  end.

(** An update as the loop over the Applications tab appends it. *)
Definition app_update_row (a fm s sa cs b pu : value) : dict :=
  [("application_id", a); ("final_message", fm); ("status", s); ("submitted_at", sa);
   ("connects_spent", cs); ("boosted", b); ("proposal_url", pu)].

(** A new application as the loop appends it. *)
Definition app_new_row (j fm s sa cs b pu : value) : dict :=
  [("job_id", j); ("final_message", fm); ("status", s); ("submitted_at", sa);
   ("connects_spent", cs); ("boosted", b); ("proposal_url", pu)].

(** A status as [norm_status] returns it: [None], or a non-empty text in
    lower case. *)
Definition status_normal (rt : runtime) (s : value) : Prop :=
  s = VNone \/ exists x, s = VStr x /\ x <> "" /\ str_lower rt x = x.

Definition built_update (rt : runtime) (u : dict) : Prop :=
  exists a fm s sa cs b pu,
    u = app_update_row a fm s sa cs b pu /\ truthy a = true /\ status_normal rt s.

Definition built_new (rt : runtime) (n : dict) : Prop :=
  exists j fm s sa cs b pu,
    n = app_new_row j fm s sa cs b pu /\ truthy j = true /\ status_normal rt s.

(** An application has one of the terminal statuses, in any case. *)
Definition is_terminal (rt : runtime) (a : dict) : bool :=
  existsb (String.eqb (new_status_of rt a)) TERMINAL_APPLICATION_STATUSES.

(** An application row as the database returns it: it has a job id, and
    its status is null or a text. *)
Definition application_row (a : dict) : Prop :=
  (exists j, PyDict.lookup a "job_id" = Some j) /\
  (get a "status" = VNone \/ exists s, get a "status" = VStr s).

(** What holds of the two lists of the loop over the Applications tab. *)
Definition apps_inv (rt : runtime) (st : list dict * list dict) : Prop :=
  Forall (built_new rt) (fst st) /\ Forall (built_update rt) (snd st).

(* ================================================================== *)
(** ** connectors/airtable.py *)

Section AirtableWithRuntime.
Variable rt : runtime.

Definition _list_to_str (v : value) : value :=
  match v with
  | VList l => VStr (Str.join ", " (map (py_str rt) l))
  | _ => v
  end.

Definition _dict_to_json (v : value) : value :=
  match v with
  | VDict _ => VStr (json_dumps rt v)
  | _ => v
  end.

(** The fields of a job row, then without those that are [None]. *)
Definition _normalize_job_row (row : dict) : dict :=
  let fields : dict :=
    [ ("job_id", get row "job_id");
      ("url", get row "url");
      ("title", get row "title");
      ("description", get row "description");
      ("skills", _list_to_str (get row "skills"));
      ("created_on", get row "created_on");
      ("published_on", get row "published_on");
      ("renewed_on", get row "renewed_on");
      ("duration_label", get row "duration_label");
      ("connect_price", get row "connect_price");
      ("job_type", get row "job_type");
      ("engagement", get row "engagement");
      ("proposals_tier", get row "proposals_tier");
      ("tier_text", get row "tier_text");
      ("fixed_budget", get row "fixed_budget");
      ("weekly_budget", get row "weekly_budget");
      ("hourly_budget_min", get row "hourly_budget_min");
      ("hourly_budget_max", get row "hourly_budget_max");
      ("currency", get row "currency");
      ("client_country", get row "client_country");
      ("client_total_spent", get row "client_total_spent");
      ("client_payment_verified", get row "client_payment_verified");
      ("client_total_reviews", get row "client_total_reviews");
      ("client_avg_feedback", get row "client_avg_feedback");
      ("is_sts_vector_search_result", get row "is_sts_vector_search_result");
      ("relevance_encoded", _dict_to_json (get row "relevance_encoded"));
      ("is_applied", get row "is_applied");
      ("saved", get row "saved") ] in
  filter (fun kv => negb (is_none (snd kv))) fields.

(** [batch_upsert_jobs]: the records of each call of [batch_upsert], in
    the order of the calls. *)
Definition batch_upsert_jobs (rows : list dict) (batch_size : Z) : result (list (list dict)) :=
  let records := map _normalize_job_row rows in
  match records with
  | [] => Ok []
  | _ =>
      (chunks <- batches records batch_size ;;
       Ok (map (map (fun f => [("fields", VDict f)])) chunks))%py
  end.

End AirtableWithRuntime.

(* ================================================================== *)
(** ** scraping.py: [_extract_jobs_from_nuxt_object] *)

(** [k in d] *)
Definition has_key_of (d : dict) (k : string) : bool :=
  match PyDict.lookup d k with Some _ => true | None => false end.

(** The test of the fallback scan: a non-empty list whose first item is
    a [dict] with one of the keys of a job. *)
Definition looks_like_jobs (v : value) : bool :=
  match v with
  | VList (VDict first :: _) =>
      has_key_of first "jobId" || has_key_of first "uid" || has_key_of first "title"
  | _ => false
  end.

(** The [jobs] of a part of the state, when the part is a [dict]. *)
Definition jobs_of_part (state : dict) (part : string) : list value :=
  match py_or (get state part) (VDict []) with
  | VDict d => [get d "jobs"]
  | _ => []
  end.

Definition candidates (nuxt_obj : dict) : list value :=
  (match py_or (get nuxt_obj "state") (VDict []) with
   | VDict state => jobs_of_part state "jobsSearch" ++ jobs_of_part state "feedBestMatch"
   | _ => []
   end)
  ++ flat_map (fun kv => if looks_like_jobs (snd kv) then [snd kv] else []) nuxt_obj.

(** The loop over the candidates: the first that is a list is
    returned, without its items that are no [dict]. *)
Fixpoint first_list (cands : list value) : list value :=
  match cands with
  | [] => []
  | VList l :: _ => filter is_dict l
  | _ :: rest => first_list rest
  end.

Definition _extract_jobs_from_nuxt_object (nuxt_obj : dict) : list value :=
  first_list (candidates nuxt_obj).

(* ================================================================== *)
(** ** Notions for the summaries, Airtable and the scraper *)

(** A job the loop of [summarize_jobs] makes a task for: it has a
    description and no summary yet. *)
Definition eligible (h : Ai.heap) (job : nat) : bool :=
  negb (truthy (get (Ai.record_at h job) "description_summary")
        || negb (truthy (get (Ai.record_at h job) "description"))).

(** The fields Airtable receives. *)
Definition airtable_fields : list string :=
  [ "job_id"; "url"; "title"; "description"; "skills"; "created_on"; "published_on";
    "renewed_on"; "duration_label"; "connect_price"; "job_type"; "engagement";
    "proposals_tier"; "tier_text"; "fixed_budget"; "weekly_budget"; "hourly_budget_min";
    "hourly_budget_max"; "currency"; "client_country"; "client_total_spent";
    "client_payment_verified"; "client_total_reviews"; "client_avg_feedback";
    "is_sts_vector_search_result"; "relevance_encoded"; "is_applied"; "saved" ].

(** What a field holds before the [None] values are dropped. *)
Definition airtable_value (rt : runtime) (row : dict) (k : string) : value :=
  if String.eqb k "skills" then _list_to_str rt (get row k)
  else if String.eqb k "relevance_encoded" then _dict_to_json rt (get row k)
  else get row k.

(** A call of [batch_upsert] holds between one and [b] records. *)
Definition chunk_within {A : Type} (b : nat) (c : list A) : Prop :=
  1 <= List.length c <= b.

(* ================================================================== *)
(** ** processing.py: [_strip_html] *)

(** [re.sub] takes a string only. *)
Definition _strip_html (text : value) : result value :=
  match text with
  | VNone => Ok VNone
  | VStr s => Ok (VStr (Str.strip (Re.sub html_tag_re " " s)))
  | _ => Raise TypeError
  end.

(* ================================================================== *)
(** ** cli.py and connectors/supabase.py: the notes of a pull *)

Section NotesWithRuntime.
Variable rt : runtime.

(** One turn of the loop over the records of the JobNotes tab; the
    state is the pair of [notes_new] and [notes_update]. *)
Definition notes_step (st : list dict * list dict) (r : dict) : list dict * list dict :=
  let nid := get r "note_id" in
  let job_id := get r "job_id" in
  let app_id := get r "application_id" in
  let author := get r "author" in
  let note_text := get r "note_text" in
  if truthy nid then
    (fst st,
     snd st ++ [[("note_id", nid); ("note_text", note_text); ("author", author);
                 ("application_id", app_id)]])
  else if truthy job_id && truthy note_text then
    (fst st ++ [[("job_id", job_id); ("note_text", note_text); ("author", author);
                 ("application_id", app_id)]],
     snd st)
  else st.

Definition notes_loop (notes_records : list dict) : list dict * list dict :=
  fold_left notes_step notes_records ([], []).

(** supabase.py, [insert_job_notes]: the payload of the insert. *)
Definition insert_job_notes (rows : list dict) : list dict :=
  fold_left (fun payload r =>
               let job_id := get r "job_id" in
               let note_text := get r "note_text" in
               if negb (truthy job_id) || negb (truthy note_text) then payload
               else payload ++ [[("job_id", VStr (py_str rt job_id));
                                 ("note_text", note_text);
                                 ("author", py_or (get r "author") (VStr "user"));
                                 ("application_id", py_or (get r "application_id") VNone)]])
            rows [].

(** supabase.py, [update_job_notes]: the updates it sends, each with
    the note id it is filtered by and the fields it writes. *)
Definition update_job_notes (rows : list dict) : list (value * dict) :=
  fold_left (fun sent r =>
               let nid := get r "note_id" in
               if negb (truthy nid) then sent
               else
                 let update_fields :=
                   flat_map (fun k => match PyDict.lookup r k with
                                      | Some v => [(k, v)]
                                      | None => []
                                      end)
                            ["note_text"; "author"; "application_id"] in
                 match update_fields with
                 | [] => sent
                 | _ => sent ++ [(nid, update_fields)]
                 end)
            rows [].

End NotesWithRuntime.

(** What [insert_job_notes] makes of a record of the tab. *)
Definition inserted_note (rt : runtime) (r : dict) : dict :=
  [("job_id", VStr (py_str rt (get r "job_id")));
   ("note_text", get r "note_text");
   ("author", py_or (get r "author") (VStr "user"));
   ("application_id", py_or (get r "application_id") VNone)].

(** What [update_job_notes] sends for a record of the tab. *)
Definition updated_note (r : dict) : value * dict :=
  (get r "note_id",
   [("note_text", get r "note_text"); ("author", get r "author");
    ("application_id", get r "application_id")]).

(** What one record adds to [notes_new] and to [notes_update]. *)
Definition new_note (r : dict) : list dict :=
  if negb (truthy (get r "note_id")) && truthy (get r "job_id") && truthy (get r "note_text")
  then [[("job_id", get r "job_id"); ("note_text", get r "note_text");
         ("author", get r "author"); ("application_id", get r "application_id")]]
  else [].

Definition changed_note (r : dict) : list dict :=
  if truthy (get r "note_id")
  then [[("note_id", get r "note_id"); ("note_text", get r "note_text");
         ("author", get r "author"); ("application_id", get r "application_id")]]
  else [].

(* ================================================================== *)
(** ** Notions for the timestamp of a batch *)

(** The text of a moment as a search id writes it: the year on four
    digits, five fields on two, then the digits of the fraction. *)
Definition timestamp_text (year month day hour minute second : Z) (fraction : string)
  : string :=
  (Str.zero_pad 4 year ++ Str.zero_pad 2 month ++ Str.zero_pad 2 day ++
   Str.zero_pad 2 hour ++ Str.zero_pad 2 minute ++ Str.zero_pad 2 second ++ fraction)%string.

(** The microseconds a fraction of up to six digits stands for. *)
Definition fraction_micros (fraction : string) : Z :=
  Str.int_of_digits (fraction ++ Str.repeat_char "0"%char (6 - String.length fraction))%string.

(** The numbers from [lo] on, [n] of them. *)
Definition z_range (lo : Z) (n : nat) : list Z :=
  map (fun i => (lo + Z.of_nat i)%Z) (seq 0 n).

(** The text of a number on [w] digits reads back as the number. *)
Definition pads_to (w : nat) (z : Z) : bool :=
  (String.length (Str.zero_pad w z) =? w)
  && Str.all_chars Str.is_digit (Str.zero_pad w z)
  && (Str.int_of_digits (Str.lstrip (Str.zero_pad w z)) =? z)%Z.

(* ================================================================== *)
(** * Properties *)

(** ** Boolean coercion of the pull path *)

(** C6: [_coerce_bool] returns a native boolean unchanged, maps the
    number zero to false and every other number to true, trims and
    lower-cases a string and maps true/yes/y/1 to true and false/no/n/0
    to false, and gives [None] for everything else; it is a total
    function, so nothing is raised.  In particular Yes is true, 0 is
    false and maybe is absent.  The trimming is that of [str.strip]:
    a no-break space (U+00A0) before the word and an em space (U+2003)
    after it go as the blank does. *)
Theorem coerce_bool_spec :
  forall rt : runtime,
  (forall b, _coerce_bool rt (VBool b) = Some b) /\
  (forall z, _coerce_bool rt (VInt z) = Some (negb (z =? 0)%Z)) /\
  (forall f, _coerce_bool rt (VFloat f) = Some (negb (PrimFloat.eqb f PrimFloat.zero))) /\
  (forall s, In (str_lower rt (Str.strip s)) ["true"; "yes"; "y"; "1"] ->
             _coerce_bool rt (VStr s) = Some true) /\
  (forall s, In (str_lower rt (Str.strip s)) ["false"; "no"; "n"; "0"] ->
             _coerce_bool rt (VStr s) = Some false) /\
  (forall s, ~ In (str_lower rt (Str.strip s))
                  ["true"; "yes"; "y"; "1"; "false"; "no"; "n"; "0"] ->
             _coerce_bool rt (VStr s) = None) /\
  _coerce_bool rt VNone = None /\
  (forall l, _coerce_bool rt (VList l) = None) /\
  (forall d, _coerce_bool rt (VDict d) = None) /\
  _coerce_bool rt (VStr "Yes") = Some true /\
  _coerce_bool rt (VStr "0") = Some false /\
  _coerce_bool rt (VStr "maybe") = None /\
  _coerce_bool rt (VStr (String "194" (String "160" "yes")
                         ++ String "226" (String "128" (String "131" ""))))
  = Some true /\
  _coerce_bool rt (VStr (String "194" (String "160" " "))) = None.
Proof.
  intros rt.
  assert (Hasc : forall s,
             Str.is_ascii (Str.strip s) = true ->
             _coerce_bool rt (VStr s)
             = (if existsb (String.eqb (Str.lower (Str.strip s))) ["true"; "yes"; "y"; "1"]
                then Some true
                else if existsb (String.eqb (Str.lower (Str.strip s)))
                                ["false"; "no"; "n"; "0"]
                     then Some false else None)).
  { intros s Ha. unfold _coerce_bool. cbv zeta. rewrite (lower_ascii rt _ Ha). reflexivity. }
  repeat split; try reflexivity.
  - intros s H. unfold _coerce_bool.
    replace (existsb _ ["true"; "yes"; "y"; "1"]) with true; [reflexivity|].
    symmetry. apply existsb_exists. exists (str_lower rt (Str.strip s)).
    split; [assumption | apply String.eqb_refl].
  - intros s H. unfold _coerce_bool.
    destruct (existsb _ ["true"; "yes"; "y"; "1"]) eqn:E.
    + apply existsb_exists in E. destruct E as [x [Hx Ex]].
      apply String.eqb_eq in Ex. subst x.
      simpl in H, Hx.
      repeat (destruct H as [H | H]; [rewrite <- H in Hx; exfalso;
        repeat (destruct Hx as [Hx | Hx]; [discriminate Hx|]); exact Hx |]).
      destruct H.
    + replace (existsb _ ["false"; "no"; "n"; "0"]) with true; [reflexivity|].
      symmetry. apply existsb_exists. exists (str_lower rt (Str.strip s)).
      split; [assumption | apply String.eqb_refl].
  - intros s H. unfold _coerce_bool.
    destruct (existsb _ ["true"; "yes"; "y"; "1"]) eqn:E.
    + exfalso. apply H. apply existsb_exists in E. destruct E as [x [Hx Ex]].
      apply String.eqb_eq in Ex. subst x. simpl in *. tauto.
    + destruct (existsb _ ["false"; "no"; "n"; "0"]) eqn:E2; [|reflexivity].
      exfalso. apply H. apply existsb_exists in E2. destruct E2 as [x [Hx Ex]].
      apply String.eqb_eq in Ex. subst x. simpl in *. tauto.
  - now rewrite Hasc.
  - now rewrite Hasc.
  - now rewrite Hasc.
  - now rewrite Hasc.
  - now rewrite Hasc.
Qed.

(* ================================================================== *)
(** ** The batch metadata parser on a timestamp that does not parse *)

(** C3: [parse_filename_metadata] is meant never to raise and to leave
    the timestamp unset when the leading digits are no timestamp.  The
    code does catch the failure of [strptime], but then calls
    [isoformat] on the [None] it kept: on a name whose digits are the
    30th of February the function raises AttributeError.  (A run of 14
    digits does parse: the seconds give up a digit to the fraction.) *)
Theorem parse_filename_metadata_raises_on_bad_timestamp :
  Datetime.strptime "20250230112529289" = Raise ValueError /\
  Filename.match_filename "20250230112529289-data ai engineer-page3.json"
    = Some [("page", "3"); ("query", "data ai engineer");
            ("search_id", "20250230112529289")] /\
  Filename.parse_filename_metadata "20250230112529289-data ai engineer-page3.json"
    = Raise AttributeError /\
  Datetime.strptime "20250810112529"
    = Ok (Datetime.mk_datetime 2025 8 10 11 25 2 900000).
Proof. repeat split; vm_compute; reflexivity. Qed.

(* ================================================================== *)
(** ** The normaliser on malformed field shapes *)

Section FlattenShape.
Variable rt : runtime.

Ltac split_binds H :=
  repeat match type of H with
         | context [match ?x with Ok _ => _ | Raise _ => _ end] =>
             destruct x eqn:?; try discriminate H
         end.

(** When [flatten_record] returns, [job_id] is [None] or a string and
    [skills] is a list. *)
Lemma flatten_record_shape :
  forall record j,
    flatten_record rt record = Ok j ->
    flat_job j /\ exists l, get j "skills" = VList l.
Proof.
  intros record j H. unfold flatten_record, bind in H.
  split_binds H. injection H as <-. split.
  - unfold flat_job, get. simpl.
    match goal with
    | |- context [if is_none ?x then VNone else _] => destruct (is_none x)
    end; [now left | right; eauto].
  - unfold get. simpl. eauto.
Qed.

End FlattenShape.

(** C4: [flatten_record] is meant never to raise, whatever the shape of
    the fields.  The code guards [client] with [isinstance(client, dict)]
    for the country only and then calls [client.get] unguarded, and it
    calls [.get] on whatever truthy value sits under [amount],
    [hourlyBudget] or [weeklyBudget]: a string under [client] or a number
    under [amount] raises AttributeError.  What the claim says of the
    output does hold whenever the function returns: [job_id] is [None]
    or a string and [skills] is a list. *)
Theorem flatten_record_raises_on_non_dict_fields :
  forall rt : runtime,
    flatten_record rt [("uid", VStr "1"); ("client", VStr "acme")] = Raise AttributeError /\
    flatten_record rt [("uid", VStr "1"); ("amount", VInt 500)] = Raise AttributeError /\
    flatten_record rt [("uid", VStr "1"); ("hourlyBudget", VStr "10-20")]
    = Raise AttributeError /\
    (forall record j,
        flatten_record rt record = Ok j ->
        (get j "job_id" = VNone \/ exists s, get j "job_id" = VStr s) /\
        exists l, get j "skills" = VList l).
Proof.
  intro rt. split; [reflexivity|]. split; [reflexivity|]. split; [reflexivity|].
  intros record j H. exact (flatten_record_shape rt record j H).
Qed.

(* ================================================================== *)
(** ** The projection of a record on the header columns *)

Section NormalizeRow.
Variable rt : runtime.

Lemma normalize_row_fold :
  forall headers row acc,
    fold_left (fun normalized h => normalized ++ [normalize_cell rt (get row h)]) headers acc
    = acc ++ map (fun h => normalize_cell rt (get row h)) headers.
Proof.
  induction headers as [|h hs IH]; intros row acc; simpl.
  - now rewrite app_nil_r.
  - rewrite IH. now rewrite <- app_assoc.
Qed.

Lemma normalize_row_map :
  forall headers row,
    _normalize_row rt headers row = map (fun h => normalize_cell rt (get row h)) headers.
Proof. intros. unfold _normalize_row. now rewrite normalize_row_fold. Qed.

Lemma normalize_row_length :
  forall headers row, List.length (_normalize_row rt headers row) = List.length headers.
Proof. intros. rewrite normalize_row_map. apply length_map. Qed.

Lemma plan_step_skip :
  forall headers key index st row,
    truthy (get row key) = false ->
    plan_step rt headers key index st row = st.
Proof. intros. unfold plan_step. now rewrite H. Qed.

Lemma plan_skip :
  forall headers key index rows1 row rows2,
    truthy (get row key) = false ->
    plan rt headers key index (rows1 ++ row :: rows2)
    = plan rt headers key index (rows1 ++ rows2).
Proof.
  intros. unfold plan. rewrite !fold_left_app. simpl.
  now rewrite plan_step_skip.
Qed.

Lemma falsy_key :
  forall (row : dict) key,
    PyDict.lookup row key = None \/ get row key = VNone \/ get row key = VStr "" ->
    truthy (get row key) = false.
Proof.
  intros row key [H | [H | H]].
  - unfold get. now rewrite H.
  - now rewrite H.
  - now rewrite H.
Qed.

End NormalizeRow.

(* ================================================================== *)
(** ** The row index of a worksheet *)

Section PyDictFacts.
Context {V : Type}.

Lemma lookup_set_same :
  forall (d : PyDict.t V) k v, PyDict.lookup (PyDict.set d k v) k = Some v.
Proof.
  induction d as [|[k' v'] d IH]; intros k v; simpl.
  - now rewrite String.eqb_refl.
  - destruct (String.eqb k' k) eqn:E; simpl; rewrite E; [reflexivity | apply IH].
Qed.

Lemma lookup_set_other :
  forall (d : PyDict.t V) k v k',
    k <> k' -> PyDict.lookup (PyDict.set d k v) k' = PyDict.lookup d k'.
Proof.
  induction d as [|[k0 v0] d IH]; intros k v k' Hne; simpl.
  - destruct (String.eqb k k') eqn:E; [apply String.eqb_eq in E; contradiction | reflexivity].
  - destruct (String.eqb k0 k) eqn:E; simpl.
    + apply String.eqb_eq in E. subst k0.
      destruct (String.eqb k k') eqn:E'; [apply String.eqb_eq in E'; contradiction | reflexivity].
    + destruct (String.eqb k0 k'); [reflexivity | now apply IH].
Qed.

Lemma keys_set :
  forall (d : PyDict.t V) k v,
    PyDict.keys (PyDict.set d k v)
    = if existsb (String.eqb k) (PyDict.keys d) then PyDict.keys d
      else PyDict.keys d ++ [k].
Proof.
  induction d as [|[k' v'] d IH]; intros k v.
  - reflexivity.
  - unfold PyDict.keys in *. simpl. rewrite (String.eqb_sym k k').
    destruct (String.eqb k' k) eqn:E; simpl.
    + reflexivity.
    + rewrite IH. destruct (existsb (String.eqb k) (map fst d)); reflexivity.
Qed.

Lemma lookup_in_keys :
  forall (d : PyDict.t V) k v, PyDict.lookup d k = Some v -> In k (PyDict.keys d).
Proof.
  induction d as [|[k' v'] d IH]; intros k v H; simpl in *; [discriminate|].
  destruct (String.eqb k' k) eqn:E.
  - apply String.eqb_eq in E. now left.
  - right. eapply IH; eauto.
Qed.

Lemma lookup_not_in_keys :
  forall (d : PyDict.t V) k, ~ In k (PyDict.keys d) -> PyDict.lookup d k = None.
Proof.
  induction d as [|[k' v'] d IH]; intros k H; simpl in *; [reflexivity|].
  destruct (String.eqb k' k) eqn:E.
  - apply String.eqb_eq in E. tauto.
  - apply IH. tauto.
Qed.

End PyDictFacts.

Lemma last_pos_some :
  forall v col q, nth_error col q = Some v -> exists m, last_pos v col = Some m.
Proof.
  intros v col. induction col as [|y r IHr]; intros q Hq.
  - destruct q; discriminate.
  - simpl. destruct q as [|q]; simpl in Hq.
    + injection Hq as ->. destruct (last_pos v r); eauto.
      rewrite String.eqb_refl. eauto.
    + destruct (IHr q Hq) as [m Hm]. rewrite Hm. eauto.
Qed.

Lemma last_pos_spec :
  forall v col p,
    last_pos v col = Some p <->
    nth_error col p = Some v /\ (forall p', p < p' -> nth_error col p' <> Some v).
Proof.
  intros v col. induction col as [|x rest IH]; intros p; simpl.
  - split; [discriminate|]. intros [H _]. destruct p; discriminate.
  - destruct (last_pos v rest) as [q|] eqn:E.
    + destruct (proj1 (IH q) eq_refl) as [E1 E2]. split.
      * intros H. injection H as <-. split; [exact E1|].
        intros [|p'] Hp; [lia|]. simpl. apply E2. lia.
      * intros [H1 H2]. destruct p as [|p].
        -- exfalso. apply (H2 (S q)); [lia | exact E1].
        -- f_equal. simpl in H1.
           assert (Hq : Some q = Some p); [|now injection Hq as ->].
           apply IH. split; [exact H1|].
           intros p' Hp. specialize (H2 (S p')). simpl in H2. apply H2. lia.
    + assert (Hnone : forall q, nth_error rest q <> Some v).
      { intros q Hq. destruct (last_pos_some _ _ _ Hq) as [m Hm]. congruence. }
      destruct (String.eqb x v) eqn:Ex.
      * apply String.eqb_eq in Ex. subst x. split.
        -- intros H. injection H as <-. split; [reflexivity|].
           intros [|p'] Hp; [lia|]. simpl. apply Hnone.
        -- intros [H1 H2]. destruct p as [|p]; [reflexivity|].
           simpl in H1. exfalso. eapply Hnone; eauto.
      * apply String.eqb_neq in Ex. split; [discriminate|].
        intros [H1 H2]. destruct p as [|p]; simpl in H1.
        -- congruence.
        -- exfalso. eapply Hnone; eauto.
Qed.

Lemma index_loop_lookup :
  forall col idx i v,
    PyDict.lookup (index_loop idx i col) v =
    match (if String.eqb v "" then None else last_pos v col) with
    | Some p => Some (i + p)
    | None => PyDict.lookup idx v
    end.
Proof.
  induction col as [|x rest IH]; intros idx i v; simpl.
  - destruct (String.eqb v ""); reflexivity.
  - rewrite IH. destruct (String.eqb v "") eqn:Ev.
    + apply String.eqb_eq in Ev. subst v.
      destruct (String.eqb x "") eqn:Ex; simpl; [reflexivity|].
      apply lookup_set_other. intro; subst. now rewrite String.eqb_refl in Ex.
    + destruct (last_pos v rest) as [p|] eqn:El.
      * f_equal. lia.
      * destruct (String.eqb x v) eqn:Exv.
        -- apply String.eqb_eq in Exv. subst x. rewrite Ev. simpl.
           rewrite lookup_set_same. f_equal. lia.
        -- destruct (String.eqb x ""); simpl; [reflexivity|].
           apply lookup_set_other. intro; subst. now rewrite String.eqb_refl in Exv.
Qed.

Lemma trim_nth :
  forall l n, nth n (Sheet.trim l) "" = nth n l "".
Proof.
  induction l as [|x l IH]; intros n; simpl; [reflexivity|].
  destruct (Sheet.trim l) as [|y r] eqn:E.
  - destruct (String.eqb x "") eqn:Ex.
    + apply String.eqb_eq in Ex. subst x.
      destruct n as [|n]; simpl; [reflexivity|].
      rewrite <- IH. now destruct n.
    + destruct n as [|n]; simpl; [reflexivity|].
      rewrite <- IH. now destruct n.
  - destruct n as [|n]; simpl; [reflexivity|]. apply IH.
Qed.

Lemma nth_error_nth_nonempty :
  forall (l : list string) n v,
    v <> "" -> (nth_error l n = Some v <-> nth n l "" = v).
Proof.
  intros l n v Hv. split.
  - intros H. now apply nth_error_nth.
  - intros H. destruct (nth_error l n) as [x|] eqn:E.
    + apply (nth_error_nth _ _ "") in E. congruence.
    + apply nth_error_None in E. rewrite nth_overflow in H by exact E. congruence.
Qed.

Lemma nth_map_cell :
  forall (ws : Sheet.t) c n,
    nth n (map (fun r => nth c r "") ws) "" = nth c (nth n ws []) "".
Proof.
  induction ws as [|r ws IH]; intros c n; destruct n; simpl; try reflexivity.
  - now destruct c.
  - now destruct c.
  - apply IH.
Qed.

Lemma index_of_none :
  forall key headers, index_of key headers = None <-> ~ In key headers.
Proof.
  intros key. induction headers as [|h hs IH]; simpl.
  - tauto.
  - destruct (String.eqb h key) eqn:E.
    + apply String.eqb_eq in E. split; [discriminate | tauto].
    + apply String.eqb_neq in E. destruct (index_of key hs) as [n|]; simpl.
      * split; [discriminate|]. intros H. exfalso.
        assert (Hn : ~ In key hs) by tauto.
        apply IH in Hn. discriminate.
      * split; [|reflexivity]. intros _ [H|H]; [contradiction|].
        now apply (proj1 IH eq_refl).
Qed.

Lemma index_of_first :
  forall key headers c,
    index_of key headers = Some c <->
    nth_error headers c = Some key /\
    (forall c', c' < c -> nth_error headers c' <> Some key).
Proof.
  intros key. induction headers as [|h hs IH]; intros c; simpl.
  - split; [discriminate|]. intros [H _]. destruct c; discriminate.
  - destruct (String.eqb h key) eqn:E.
    + apply String.eqb_eq in E. subst h. split.
      * intros H. injection H as <-. split; [reflexivity | intros; lia].
      * intros [H1 H2]. destruct c as [|c]; [reflexivity|].
        exfalso. apply (H2 0); [lia | reflexivity].
    + apply String.eqb_neq in E. split.
      * intros H. destruct (index_of key hs) as [c0|] eqn:E0; [|discriminate].
        simpl in H. injection H as <-.
        destruct (proj1 (IH c0) eq_refl) as [H1 H2]. split; [exact H1|].
        intros [|c'] Hc; simpl; [congruence | apply H2; lia].
      * intros [H1 H2]. destruct c as [|c]; simpl in H1; [congruence|].
        assert (Hc : index_of key hs = Some c).
        { apply IH. split; [exact H1|]. intros c' Hc'. apply (H2 (S c')). lia. }
        now rewrite Hc.
Qed.

Section PlanFacts.
Variable rt : runtime.

Lemma plan_fold_empty_index :
  forall headers key rows st,
    fold_left (plan_step rt headers key []) rows st
    = (fst st,
       snd st ++ map (_normalize_row rt headers)
                     (filter (fun r => truthy (get r key)) rows)).
Proof.
  induction rows as [|r rows IH]; intros st; simpl.
  - rewrite app_nil_r. now destruct st.
  - rewrite IH. unfold plan_step. destruct (truthy (get r key)); simpl.
    + now rewrite <- app_assoc.
    + reflexivity.
Qed.

End PlanFacts.

Lemma key_cell_at :
  forall (ws : Sheet.t) c v p,
    v <> "" ->
    (nth_error (tl (Sheet.col_values ws (c + 1))) p = Some v <->
     cell ws (p + 2) (c + 1) = v).
Proof.
  intros ws c v p Hv. unfold Sheet.col_values, cell.
  replace (c + 1 - 1) with c by lia.
  replace (p + 2 - 1) with (S p) by lia.
  rewrite <- nth_map_cell. rewrite <- trim_nth.
  rewrite <- nth_error_nth_nonempty by exact Hv.
  destruct (Sheet.trim _); [now destruct p | reflexivity].
Qed.

Lemma read_index_cells :
  forall (ws : Sheet.t) key c v i,
    index_of key (Sheet.row_values ws 1) = Some c ->
    (PyDict.lookup (read_index_by_key ws key) v = Some i <->
     v <> "" /\ 2 <= i /\ cell ws i (c + 1) = v /\
     (forall j, i < j -> cell ws j (c + 1) <> v)).
Proof.
  intros ws key c v i Hidx.
  unfold read_index_by_key. rewrite Hidx. rewrite index_loop_lookup.
  set (col := tl (Sheet.col_values ws (c + 1))).
  destruct (String.eqb v "") eqn:Ev.
  - apply String.eqb_eq in Ev. simpl. split; [discriminate | tauto].
  - apply String.eqb_neq in Ev.
    assert (Hcell : forall p, nth_error col p = Some v <-> cell ws (p + 2) (c + 1) = v)
      by (intros p; now apply key_cell_at).
    destruct (last_pos v col) as [p|] eqn:Ep.
    + apply last_pos_spec in Ep. destruct Ep as [E1 E2].
      apply Hcell in E1. split.
      * intros H. assert (Hi : i = p + 2) by (injection H; lia). subst i.
        split; [exact Ev|]. split; [lia|]. split; [exact E1|].
        intros j Hj Hjv. apply (E2 (j - 2)); [lia|].
        apply Hcell. replace (j - 2 + 2) with j by lia. exact Hjv.
      * intros (_ & Hi & Hv & Hlast).
        assert (Hp : nth_error col (i - 2) = Some v).
        { apply Hcell. replace (i - 2 + 2) with i by lia. exact Hv. }
        destruct (Nat.lt_trichotomy (p + 2) i) as [Hlt | [Heq | Hgt]].
        -- exfalso. apply (E2 (i - 2)); [lia | exact Hp].
        -- f_equal. lia.
        -- exfalso. apply (Hlast (p + 2)); [lia | exact E1].
    + simpl. split; [discriminate|].
      intros (_ & Hi & Hv & _). exfalso.
      assert (Hp : nth_error col (i - 2) = Some v).
      { apply Hcell. replace (i - 2 + 2) with i by lia. exact Hv. }
      destruct (last_pos_some _ _ _ Hp) as [m Hm]. congruence.
Qed.


(** C10: the index [read_index_by_key] builds maps a text to a row
    position exactly when the text is not empty, the position is 2 or
    more (the header is row 1), the key cell of that row shows the text
    and the key cell of no later row does: an empty key cell adds
    nothing and of two rows with one key the later wins.  The key column
    is the first header cell that shows the key name; when no header
    cell does, the index is empty, and with an empty index the push
    queues no update and appends every record that has a key. *)
Theorem read_index_by_key_last_row :
  forall (ws : Sheet.t) (key : string),
    (~ In key (Sheet.row_values ws 1) -> read_index_by_key ws key = []) /\
    (forall c,
        nth_error (Sheet.row_values ws 1) c = Some key ->
        (forall c', c' < c -> nth_error (Sheet.row_values ws 1) c' <> Some key) ->
        forall v i,
          PyDict.lookup (read_index_by_key ws key) v = Some i <->
          v <> "" /\ 2 <= i /\ cell ws i (c + 1) = v /\
          (forall j, i < j -> cell ws j (c + 1) <> v)) /\
    (forall rt headers rows,
        plan rt headers key [] rows
        = ([], map (_normalize_row rt headers)
                   (filter (fun r => truthy (get r key)) rows))).
Proof.
  intros ws key. split; [|split].
  - intros H. unfold read_index_by_key.
    apply index_of_none in H. now rewrite H.
  - intros c Hc Hfirst v i. apply read_index_cells.
    apply index_of_first. now split.
  - intros rt headers rows. unfold plan. now rewrite plan_fold_empty_index.
Qed.

(* ================================================================== *)
(** ** Status transitions of the pull path *)

Lemma lower_empty : forall rt : runtime, str_lower rt "" = "".
Proof. intros rt. exact (lower_ascii rt "" eq_refl). Qed.

Section StatusHistory.
Variable rt : runtime.
Variable before_status : PyDict.t string.

Lemma status_change_wf :
  forall u,
    update_wf u ->
    status_change rt before_status u
    = Ok (if is_transition rt before_status u then [(app_id_of rt u, new_status_of rt u)] else []).
Proof.
  intros u [[a Ha] Hs]. unfold status_change, item, is_transition, app_id_of,
    new_status_of, old_status_of, get.
  rewrite Ha. simpl.
  unfold get in Hs. destruct Hs as [Hs | [s Hs]]; rewrite Hs; simpl.
  - now rewrite lower_empty.
  - unfold py_or. simpl. destruct (String.eqb s "") eqn:Es; simpl.
    + apply String.eqb_eq in Es. subst s. rewrite lower_empty. reflexivity.
    + now destruct (negb _ && negb _).
Qed.

Lemma status_changes_wf :
  forall apps_update,
    Forall update_wf apps_update ->
    status_changes rt before_status apps_update
    = Ok (flat_map (fun u => if is_transition rt before_status u
                             then [(app_id_of rt u, new_status_of rt u)] else [])
                   apps_update).
Proof.
  induction 1 as [|u us Hu Hus IH]; simpl; [reflexivity|].
  rewrite status_change_wf by exact Hu. simpl. now rewrite IH.
Qed.

Lemma entries_for_rows :
  forall a us,
    entries_for a (flat_map (fun u => if is_transition rt before_status u
                                      then [(app_id_of rt u, new_status_of rt u)] else [])
                            us)
    = map (fun u => (a, new_status_of rt u))
          (filter (fun u => String.eqb (app_id_of rt u) a
                            && is_transition rt before_status u) us).
Proof.
  intros a. induction us as [|u us IH]; [reflexivity|].
  cbn [flat_map filter]. unfold entries_for in *. rewrite filter_app, IH.
  destruct (is_transition rt before_status u); cbn [filter fst app].
  - destruct (String.eqb_spec (app_id_of rt u) a) as [<-|]; reflexivity.
  - now rewrite andb_false_r.
Qed.

Lemma entries_for_other :
  forall a us,
    ~ In a (map (app_id_of rt) us) ->
    entries_for a (flat_map (fun u => if is_transition rt before_status u
                                      then [(app_id_of rt u, new_status_of rt u)] else [])
                            us) = [].
Proof.
  intros a. induction us as [|u us IH]; intros Hn; simpl; [reflexivity|].
  unfold entries_for in *. rewrite filter_app. rewrite IH by (simpl in Hn; tauto).
  rewrite app_nil_r. destruct (is_transition rt before_status u); simpl; [|reflexivity].
  destruct (String.eqb (app_id_of rt u) a) eqn:E; [|reflexivity].
  apply String.eqb_eq in E. simpl in Hn. tauto.
Qed.

Lemma insert_status_history_keeps_all :
  forall changed : list (string * string),
    (forall e, In e changed -> fst e <> "" /\ snd e <> "") ->
    insert_status_history changed
    = map (fun e => [("application_id", VStr (fst e)); ("status", VStr (snd e))]) changed.
Proof.
  induction changed as [|e changed IH]; intros H; [reflexivity|].
  unfold insert_status_history in *. simpl.
  destruct (H e (or_introl eq_refl)) as [H1 H2].
  apply String.eqb_neq in H1, H2. rewrite H1, H2. simpl.
  rewrite IH; [reflexivity|]. intros e' He'. apply H. now right.
Qed.

End StatusHistory.

(* ================================================================== *)
(** ** The summaries: failures are swallowed, successes add three fields *)

Module AiFacts.
Import Ai.

Lemma run_summarized :
  forall model h j created,
    run model h j created = update_at h j (summarized model created).
Proof.
  intros model h j created.
  assert (Hid : forall a, update_at h a (fun r => r) = h).
  { induction h as [|r h IH]; intros [|a]; simpl; try reflexivity. now rewrite IH. }
  unfold run, _summarize_one, summarize_body, summarized, call_text, call_tokens.
  destruct created as [r|e]; simpl.
  - destruct (choices r) as [|[s|] cs]; simpl.
    + symmetry. apply Hid.
    + destruct (Str.strip s) as [|c s'] eqn:Es; simpl.
      * symmetry. apply Hid.
      * reflexivity.
    + symmetry. apply Hid.
  - symmetry. apply Hid.
Qed.

Lemma update_at_length :
  forall h a f, List.length (update_at h a f) = List.length h.
Proof.
  induction h as [|r h IH]; intros [|a] f; simpl; try reflexivity. now rewrite IH.
Qed.

Lemma record_at_update_same :
  forall h a f, a < List.length h -> record_at (update_at h a f) a = f (record_at h a).
Proof.
  unfold record_at. induction h as [|r h IH]; intros [|a] f Ha; simpl in *; try lia.
  - reflexivity.
  - apply IH. lia.
Qed.

Lemma record_at_update_other :
  forall h a b f, a <> b -> record_at (update_at h a f) b = record_at h b.
Proof.
  unfold record_at. induction h as [|r h IH]; intros [|a] [|b] f Hab; simpl;
    try reflexivity; try congruence.
  apply IH. congruence.
Qed.

Section Schedule.
Variable model : string.
Variable tasks : list nat.
Variable created : nat -> result response.

Lemma resolve_length :
  forall h i, List.length (resolve model tasks created h i) = List.length h.
Proof.
  intros h i. unfold resolve. destruct (nth_error tasks i); [|reflexivity].
  rewrite run_summarized. apply update_at_length.
Qed.

Lemma fold_resolve_length :
  forall schedule h,
    List.length (fold_left (resolve model tasks created) schedule h) = List.length h.
Proof.
  induction schedule as [|i s IH]; intros h; simpl; [reflexivity|].
  rewrite IH. apply resolve_length.
Qed.

(** A task only writes the record at its own address. *)
Lemma fold_resolve_other :
  forall schedule h a,
    (forall i, In i schedule -> nth_error tasks i <> Some a) ->
    record_at (fold_left (resolve model tasks created) schedule h) a = record_at h a.
Proof.
  induction schedule as [|i s IH]; intros h a Hno; simpl; [reflexivity|].
  rewrite IH by (intros i' Hi'; apply Hno; now right).
  unfold resolve. destruct (nth_error tasks i) as [j|] eqn:Ej; [|reflexivity].
  rewrite run_summarized. apply record_at_update_other.
  intros ->. apply (Hno i); [now left | exact Ej].
Qed.

(** The task at position [i0] is the only one with address [a], and it
    resolves once: the record at [a] ends as that task leaves it. *)
Lemma fold_resolve_once :
  forall schedule h i0 a,
    a < List.length h ->
    nth_error tasks i0 = Some a ->
    NoDup tasks ->
    NoDup schedule ->
    In i0 schedule ->
    record_at (fold_left (resolve model tasks created) schedule h) a
    = summarized model (created i0) (record_at h a).
Proof.
  induction schedule as [|i s IH]; intros h i0 a Ha Ht Hnd Hs Hin; [destruct Hin|].
  inversion Hs as [|? ? Hnotin Hs']; subst. simpl.
  assert (Huniq : forall i', nth_error tasks i' = Some a -> i' = i0).
  { intros i' Hi'. eapply (proj1 (NoDup_nth_error tasks) Hnd).
    - apply nth_error_Some. congruence.
    - congruence. }
  destruct Hin as [-> | Hin].
  - rewrite fold_resolve_other.
    + unfold resolve. rewrite Ht. rewrite run_summarized.
      now apply record_at_update_same.
    + intros i' Hi' Hc. apply Huniq in Hc. subst i'. contradiction.
  - rewrite (IH _ i0 a); try assumption.
    + f_equal. unfold resolve. destruct (nth_error tasks i) as [j|] eqn:Ej; [|reflexivity].
      rewrite run_summarized. apply record_at_update_other.
      intros ->. apply Huniq in Ej. subst i. contradiction.
    + now rewrite resolve_length.
Qed.

End Schedule.

Lemma select_incl :
  forall h jobs count limit a, In a (select h jobs count limit) -> In a jobs.
Proof.
  intros h. induction jobs as [|j jobs IH]; intros count limit a Ha; simpl in *; [exact Ha|].
  destruct (limit <=? count)%Z; [destruct Ha|].
  destruct (truthy _ || negb _).
  - right. eapply IH; eauto.
  - destruct Ha as [-> | Ha]; [now left | right; eapply IH; eauto].
Qed.

Lemma select_nodup :
  forall h jobs count limit, NoDup jobs -> NoDup (select h jobs count limit).
Proof.
  intros h. induction jobs as [|j jobs IH]; intros count limit Hnd; simpl; [constructor|].
  inversion Hnd as [|? ? Hnotin Hnd']; subst.
  destruct (limit <=? count)%Z; [constructor|].
  destruct (truthy _ || negb _).
  - now apply IH.
  - constructor; [|now apply IH].
    intros Hc. apply Hnotin. eapply select_incl; eauto.
Qed.

Lemma add_summary_fields :
  forall model text used (j : dict),
    get (add_summary model text used j) "description_summary" = VStr text /\
    get (add_summary model text used j) "description_summary_model" = VStr model /\
    get (add_summary model text used j) "description_summary_tokens" = used /\
    (forall k, k <> "description_summary" -> k <> "description_summary_model" ->
               k <> "description_summary_tokens" ->
               PyDict.lookup (add_summary model text used j) k = PyDict.lookup j k).
Proof.
  intros model text used j. unfold add_summary, get. repeat split.
  - rewrite lookup_set_other by discriminate.
    rewrite lookup_set_other by discriminate.
    now rewrite lookup_set_same.
  - rewrite lookup_set_other by discriminate. now rewrite lookup_set_same.
  - now rewrite lookup_set_same.
  - intros k H1 H2 H3. rewrite !lookup_set_other by congruence. reflexivity.
Qed.

End AiFacts.

(** C9: whatever the completion calls do and in whatever order they
    resolve, [summarize_jobs] returns a store (nothing is raised).  A
    call that raises, returns no choice, or returns an empty or blank
    text leaves the whole store as it was; blank is what [str.strip]
    empties, a no-break space (U+00A0) and a newline for one.  Every selected record ends
    as its own call leaves it, whatever happened to the others: as it
    was when the call failed, and with the summary text, the model and
    the token count set, and no other field touched, when it gave a
    text; the count is zero when the response has no usage.  A record
    that was not selected is unchanged, and so is every record when
    there is no API key. *)
Theorem summarize_jobs_swallows_failures :
  forall (api_key model : string) (limit : Z) (created : nat -> result Ai.response)
         (schedule : list nat) (h : Ai.heap) (jobs : list nat),
    NoDup jobs ->
    Forall (fun j => j < List.length h) jobs ->
    Permutation schedule (seq 0 (List.length (Ai.select h jobs 0 limit))) ->
    (forall h' j e, Ai.run model h' j (Raise e) = h') /\
    (forall h' j r, Ai.choices r = [] -> Ai.run model h' j (Ok r) = h') /\
    (forall h' j r c cs,
        Ai.choices r = c :: cs ->
        Str.strip (match c with Some s => s | None => "" end) = "" ->
        Ai.run model h' j (Ok r) = h') /\
    (api_key <> "" ->
     forall i j,
       nth_error (Ai.select h jobs 0 limit) i = Some j ->
       Ai.record_at (Ai.summarize_jobs api_key model limit created schedule h jobs) j
       = if String.eqb (call_text (created i)) "" then Ai.record_at h j
         else Ai.add_summary model (call_text (created i)) (call_tokens (created i))
                (Ai.record_at h j)) /\
    (forall a,
        ~ In a (Ai.select h jobs 0 limit) ->
        Ai.record_at (Ai.summarize_jobs api_key model limit created schedule h jobs) a
        = Ai.record_at h a) /\
    (api_key = "" ->
     Ai.summarize_jobs api_key model limit created schedule h jobs = h) /\
    (forall text used (j : dict),
        get (Ai.add_summary model text used j) "description_summary" = VStr text /\
        get (Ai.add_summary model text used j) "description_summary_model" = VStr model /\
        get (Ai.add_summary model text used j) "description_summary_tokens" = used /\
        (forall k, k <> "description_summary" -> k <> "description_summary_model" ->
                   k <> "description_summary_tokens" ->
                   PyDict.lookup (Ai.add_summary model text used j) k = PyDict.lookup j k)) /\
    (forall r, Ai.usage r = None -> call_tokens (Ok r) = VInt 0) /\
    (forall h' j u,
        Ai.run model h' j
          (Ok {| Ai.choices := [Some (String "194" (String "160" (String "010" "")))];
                 Ai.usage := u |}) = h').
Proof.
  intros api_key model limit created schedule h jobs Hnd Hvalid Hperm.
  split; [reflexivity|].
  split; [intros h' j r Hr; unfold Ai.run, Ai._summarize_one, Ai.summarize_body; simpl;
          now rewrite Hr|].
  split.
  { intros h' j r c cs Hr Hs. unfold Ai.run, Ai._summarize_one, Ai.summarize_body. simpl.
    rewrite Hr. simpl. now rewrite Hs. }
  split.
  { intros Hkey i j Hi. unfold Ai.summarize_jobs.
    apply String.eqb_neq in Hkey. rewrite Hkey.
    rewrite (AiFacts.fold_resolve_once model _ created schedule h i j).
    - reflexivity.
    - rewrite Forall_forall in Hvalid. apply Hvalid.
      eapply AiFacts.select_incl. eapply nth_error_In. exact Hi.
    - exact Hi.
    - now apply AiFacts.select_nodup.
    - eapply Permutation_NoDup; [apply Permutation_sym; exact Hperm | apply seq_NoDup].
    - eapply Permutation_in; [apply Permutation_sym; exact Hperm|].
      apply in_seq. split; [lia|]. simpl. apply nth_error_Some. congruence. }
  split.
  { intros a Ha. unfold Ai.summarize_jobs. destruct (String.eqb api_key ""); [reflexivity|].
    apply AiFacts.fold_resolve_other. intros i _ Hc. apply Ha.
    eapply nth_error_In. exact Hc. }
  split.
  { intros ->. reflexivity. }
  split.
  { intros text used j. apply AiFacts.add_summary_fields. }
  split.
  { intros r Hr. unfold call_tokens, Ai.total_tokens. now rewrite Hr. }
  intros h' j u. reflexivity.
Qed.

Lemma summarize_jobs_swallows_failures_witness :
  NoDup [0; 1] /\
  Forall (fun j => j < List.length example_heap) [0; 1] /\
  Permutation [1; 0] (seq 0 (List.length (Ai.select example_heap [0; 1] 0 10))) /\
  Ai.record_at
    (Ai.summarize_jobs "key" "gpt" 10 example_created [1; 0] example_heap [0; 1]) 0
  = Ai.record_at example_heap 0 /\
  Ai.record_at
    (Ai.summarize_jobs "key" "gpt" 10 example_created [1; 0] example_heap [0; 1]) 1
  = Ai.add_summary "gpt" "A crawler to fix." (VInt 42) (Ai.record_at example_heap 1).
Proof.
  assert (H1 : NoDup [0; 1]).
  { constructor; [simpl; intros [H | []]; discriminate|].
    constructor; [simpl; tauto | constructor]. }
  assert (H2 : Forall (fun j => j < List.length example_heap) [0; 1]).
  { repeat constructor. }
  assert (H3 : Permutation [1; 0] (seq 0 (List.length (Ai.select example_heap [0; 1] 0 10)))).
  { apply perm_swap. }
  split; [exact H1|]. split; [exact H2|]. split; [exact H3|].
  destruct (summarize_jobs_swallows_failures "key" "gpt" 10 example_created [1; 0]
              example_heap [0; 1] H1 H2 H3) as (_ & _ & _ & Hsel & _).
  assert (Hkey : "key" <> "") by discriminate.
  split.
  - exact (Hsel Hkey 0 0 eq_refl).
  - exact (Hsel Hkey 1 1 eq_refl).
Defined.

(* ================================================================== *)
(** ** Deduplication: which occurrence of a key is kept *)

Section Occurrences.
Context {K : Type} (key : dict -> option K).

Lemma is_last_with_snoc :
  forall rows r x,
    is_last_with key rows r -> key x <> key r -> is_last_with key (rows ++ [x]) r.
Proof.
  intros rows r x (pre & post & -> & Hk & Hpost) Hx.
  exists pre, (post ++ [x]). split; [now rewrite <- app_assoc|]. split; [exact Hk|].
  intros r' Hr'. apply in_app_or in Hr'. destruct Hr' as [Hr' | [<- | []]].
  - now apply Hpost.
  - exact Hx.
Qed.

Lemma is_last_with_new :
  forall rows x, key x <> None -> is_last_with key (rows ++ [x]) x.
Proof.
  intros rows x Hx. exists rows, []. split; [reflexivity|]. split; [exact Hx|].
  intros r' [].
Qed.

Lemma is_first_with_snoc :
  forall rows r x, is_first_with key rows r -> is_first_with key (rows ++ [x]) r.
Proof.
  intros rows r x (pre & post & -> & Hk & Hpre).
  exists pre, (post ++ [x]). split; [now rewrite <- app_assoc|]. now split.
Qed.

Lemma is_first_with_new :
  forall rows x,
    key x <> None -> (forall r', In r' rows -> key r' <> key x) ->
    is_first_with key (rows ++ [x]) x.
Proof.
  intros rows x Hx Hpre. exists rows, []. now repeat split.
Qed.

End Occurrences.

Section FirstWins.
Context {K : Type} (key : dict -> option K) (eqb : K -> K -> bool).
Hypothesis eqb_eq : forall a b, eqb a b = true <-> a = b.

Lemma existsb_eqb_in :
  forall k seen, existsb (eqb k) seen = true <-> In k seen.
Proof.
  intros k seen. rewrite existsb_exists. split.
  - intros [x [Hx Hk]]. apply eqb_eq in Hk. now subst.
  - intros H. exists k. split; [exact H | now apply eqb_eq].
Qed.

Lemma first_step_inv :
  forall done st x,
    first_inv key done st -> first_inv key (done ++ [x]) (first_step key eqb st x).
Proof.
  intros done [seen unique] x (Hmap & Hnd & Hfirst & Hcov). unfold first_step.
  simpl in *. destruct (key x) as [k|] eqn:Ek.
  - destruct (existsb (eqb k) seen) eqn:Es.
    + apply existsb_eqb_in in Es. repeat split; simpl; try assumption.
      * intros r Hr. apply is_first_with_snoc. now apply Hfirst.
      * intros r k' Hr Hk'. apply in_app_or in Hr. destruct Hr as [Hr | [<- | []]].
        -- eapply Hcov; eauto.
        -- congruence.
    + assert (Hnotin : ~ In k seen).
      { intros Hin. apply existsb_eqb_in in Hin. congruence. }
      repeat split; simpl.
      * rewrite !map_app, Hmap. simpl. now rewrite Ek.
      * apply NoDup_app; [exact Hnd | repeat constructor; intros [] |].
        intros a Ha [<- | []]. contradiction.
      * intros r Hr. apply in_app_or in Hr. destruct Hr as [Hr | [<- | []]].
        -- apply is_first_with_snoc. now apply Hfirst.
        -- apply is_first_with_new; [congruence|].
           intros r' Hr' Heq. apply Hnotin. eapply Hcov; eauto. congruence.
      * intros r k' Hr Hk'. apply in_or_app.
        apply in_app_or in Hr. destruct Hr as [Hr | [<- | []]].
        -- left. eapply Hcov; eauto.
        -- right. left. congruence.
  - repeat split; simpl; try assumption.
    + intros r Hr. apply is_first_with_snoc. now apply Hfirst.
    + intros r k' Hr Hk'. apply in_app_or in Hr. destruct Hr as [Hr | [<- | []]].
      * eapply Hcov; eauto.
      * congruence.
Qed.

Lemma first_fold_inv :
  forall todo done st,
    first_inv key done st ->
    first_inv key (done ++ todo) (fold_left (first_step key eqb) todo st).
Proof.
  induction todo as [|x todo IH]; intros done st Hinv; simpl.
  - now rewrite app_nil_r.
  - replace (done ++ x :: todo) with ((done ++ [x]) ++ todo)
      by (now rewrite <- app_assoc).
    apply IH. now apply first_step_inv.
Qed.

Lemma first_wins :
  forall rows,
    let out := snd (fold_left (first_step key eqb) rows ([], [])) in
    one_per_key key rows out /\ (forall r, In r out -> is_first_with key rows r).
Proof.
  intros rows out.
  assert (Hinv : first_inv key rows (fold_left (first_step key eqb) rows ([], []))).
  { apply (first_fold_inv rows [] ([], [])). repeat split; simpl.
    - constructor.
    - intros r [].
    - intros r k []. }
  destruct Hinv as (Hmap & Hnd & Hfirst & Hcov). fold out in Hmap, Hfirst.
  split; [split|].
  - rewrite Hmap. apply Finite.Injective_map_NoDup; [|exact Hnd].
    intros a b H. now injection H.
  - intros k. split.
    + intros [r [Hr Hk]]. specialize (Hcov r k Hr Hk).
      assert (Hin : In (Some k) (map key out)) by (rewrite Hmap; now apply in_map).
      apply in_map_iff in Hin. destruct Hin as [r' [Hk' Hr']]. eauto.
    + intros [r [Hr Hk]]. destruct (Hfirst r Hr) as (pre & post & -> & _ & _).
      exists r. split; [apply in_or_app; right; now left | exact Hk].
  - exact Hfirst.
Qed.

End FirstWins.

Section LastWins.
Variable rt : runtime.

Lemma dedupe_jobs_step_key :
  forall by_id r,
    dedupe_jobs_step rt by_id r
    = match job_key rt r with
      | Some k => PyDict.set by_id k r
      | None => by_id
      end.
Proof.
  intros by_id r. unfold dedupe_jobs_step, job_key.
  now destruct (truthy (get r "job_id")).
Qed.

Lemma last_step_inv :
  forall done by_id x,
    last_inv (job_key rt) done by_id ->
    last_inv (job_key rt) (done ++ [x]) (dedupe_jobs_step rt by_id x).
Proof.
  intros done by_id x (Hnd & Hlast & Hcov). rewrite dedupe_jobs_step_key.
  destruct (job_key rt x) as [k|] eqn:Ek.
  - repeat split.
    + rewrite keys_set. destruct (existsb (String.eqb k) (PyDict.keys by_id)) eqn:Ein.
      * exact Hnd.
      * apply NoDup_app; [exact Hnd | repeat constructor; intros [] |].
        intros a Ha [<- | []].
        assert (existsb (String.eqb k) (PyDict.keys by_id) = true); [|congruence].
        apply existsb_exists. exists k. split; [exact Ha | apply String.eqb_refl].
    + destruct (string_dec k k0) as [<- | Hne].
      * rewrite lookup_set_same in H. injection H as <-. exact Ek.
      * rewrite lookup_set_other in H by exact Hne. now apply Hlast.
    + destruct (string_dec k k0) as [<- | Hne].
      * rewrite lookup_set_same in H. injection H as <-.
        apply is_last_with_new. congruence.
      * rewrite lookup_set_other in H by exact Hne.
        destruct (Hlast _ _ H) as [Hk Hl].
        apply is_last_with_snoc; [exact Hl | congruence].
    + intros r k' Hr Hk'. rewrite keys_set.
      assert (Hin : In k' (PyDict.keys by_id) \/ k' = k).
      { apply in_app_or in Hr. destruct Hr as [Hr | [<- | []]].
        - left. eapply Hcov; eauto.
        - right. congruence. }
      destruct (existsb (String.eqb k) (PyDict.keys by_id)) eqn:Ein.
      * destruct Hin as [Hin | ->]; [exact Hin|].
        apply existsb_exists in Ein. destruct Ein as [y [Hy Ey]].
        apply String.eqb_eq in Ey. now subst.
      * apply in_or_app. destruct Hin as [Hin | ->]; [now left | right; now left].
  - repeat split.
    + exact Hnd.
    + now apply Hlast.
    + destruct (Hlast _ _ H) as [Hk Hl].
      apply is_last_with_snoc; [exact Hl | congruence].
    + intros r k' Hr Hk'. apply in_app_or in Hr. destruct Hr as [Hr | [<- | []]].
      * eapply Hcov; eauto.
      * congruence.
Qed.

Lemma last_fold_inv :
  forall todo done by_id,
    last_inv (job_key rt) done by_id ->
    last_inv (job_key rt) (done ++ todo) (fold_left (dedupe_jobs_step rt) todo by_id).
Proof.
  induction todo as [|x todo IH]; intros done by_id Hinv; simpl.
  - now rewrite app_nil_r.
  - replace (done ++ x :: todo) with ((done ++ [x]) ++ todo)
      by (now rewrite <- app_assoc).
    apply IH. now apply last_step_inv.
Qed.

Lemma in_lookup :
  forall (d : PyDict.t dict) k r,
    NoDup (PyDict.keys d) -> In (k, r) d -> PyDict.lookup d k = Some r.
Proof.
  induction d as [|[k' r'] d IH]; intros k r Hnd Hin; [destruct Hin|].
  unfold PyDict.keys in Hnd. simpl in *. inversion Hnd as [|? ? Hnotin Hnd']; subst.
  destruct Hin as [Heq | Hin].
  - injection Heq as -> ->. now rewrite String.eqb_refl.
  - destruct (String.eqb k' k) eqn:E.
    + apply String.eqb_eq in E. subst k'. exfalso. apply Hnotin.
      apply (in_map fst) in Hin. exact Hin.
    + now apply IH.
Qed.

Lemma dedupe_jobs_last_wins :
  forall rows,
    one_per_key (job_key rt) rows (_dedupe_jobs rt rows) /\
    (forall r, In r (_dedupe_jobs rt rows) -> is_last_with (job_key rt) rows r).
Proof.
  intros rows. unfold _dedupe_jobs.
  set (by_id := fold_left (dedupe_jobs_step rt) rows []).
  assert (Hinv : last_inv (job_key rt) rows by_id).
  { apply (last_fold_inv rows [] []). repeat split.
    - constructor.
    - discriminate.
    - discriminate.
    - intros r k []. }
  destruct Hinv as (Hnd & Hlast & Hcov).
  assert (Hval : forall r, In r (PyDict.values by_id) ->
                           exists k, PyDict.lookup by_id k = Some r).
  { intros r Hr. unfold PyDict.values in Hr. apply in_map_iff in Hr.
    destruct Hr as [[k r'] [Heq Hin]]. simpl in Heq. subst r'.
    exists k. now apply in_lookup. }
  assert (Hmap : map (job_key rt) (PyDict.values by_id) = map Some (PyDict.keys by_id)).
  { unfold PyDict.values, PyDict.keys. rewrite !map_map. apply map_ext_in.
    intros [k r] Hin. simpl. apply (in_lookup _ _ _ Hnd) in Hin. now apply Hlast. }
  split; [split|].
  - rewrite Hmap. apply Finite.Injective_map_NoDup; [|exact Hnd].
    intros a b H. now injection H.
  - intros k. split.
    + intros [r [Hr Hk]]. specialize (Hcov r k Hr Hk).
      assert (Hin : In (Some k) (map (job_key rt) (PyDict.values by_id)))
        by (rewrite Hmap; now apply in_map).
      apply in_map_iff in Hin. destruct Hin as [r' [Hk' Hr']]. eauto.
    + intros [r [Hr Hk]]. destruct (Hval r Hr) as [k' Hk'].
      destruct (Hlast _ _ Hk') as [_ (pre & post & -> & _ & _)].
      exists r. split; [apply in_or_app; right; now left | exact Hk].
  - intros r Hr. destruct (Hval r Hr) as [k Hk]. now destruct (Hlast _ _ Hk).
Qed.

Lemma pair_eqb_eq :
  forall a b : string * string, pair_eqb a b = true <-> a = b.
Proof.
  intros [a1 a2] [b1 b2]. unfold pair_eqb. simpl.
  rewrite andb_true_iff, !String.eqb_eq. split.
  - intros [-> ->]. reflexivity.
  - intros H. injection H as -> ->. now split.
Qed.

Lemma dedupe_sr_step_first :
  forall st r, dedupe_sr_step rt st r = first_step (sr_key rt) pair_eqb st r.
Proof.
  intros st r. unfold dedupe_sr_step, first_step, sr_key.
  destruct (truthy (get r "search_id")); destruct (truthy (get r "job_id")); reflexivity.
Qed.

Lemma dedupe_search_results_first_wins :
  forall rows,
    one_per_key (sr_key rt) rows (_dedupe_search_results rt rows) /\
    (forall r, In r (_dedupe_search_results rt rows) -> is_first_with (sr_key rt) rows r).
Proof.
  intros rows. unfold _dedupe_search_results.
  replace (fold_left (dedupe_sr_step rt) rows ([], []))
    with (fold_left (first_step (sr_key rt) pair_eqb) rows ([], [])).
  - apply (first_wins (sr_key rt) pair_eqb pair_eqb_eq).
  - generalize (@nil (string * string), @nil dict).
    induction rows as [|r rows IH]; intros st; simpl; [reflexivity|].
    rewrite IH. now rewrite dedupe_sr_step_first.
Qed.

End LastWins.

Lemma existsb_seen_strings :
  forall s seen,
    existsb (eq_scalar (VStr s)) (map VStr seen) = existsb (String.eqb s) seen.
Proof.
  intros s. induction seen as [|t seen IH]; simpl; [reflexivity|]. now rewrite IH.
Qed.

Lemma unique_step_first :
  forall seen unique j,
    flat_job j ->
    unique_step (Ok (map VStr seen, unique)) j
    = Ok (map VStr (fst (first_step flat_key String.eqb (seen, unique) j)),
          snd (first_step flat_key String.eqb (seen, unique) j)).
Proof.
  intros seen unique j Hj. unfold unique_step, first_step, flat_key, in_seen. simpl.
  destruct Hj as [Hj | [s Hj]]; rewrite Hj; simpl; [reflexivity|].
  destruct (String.eqb s "") eqn:Es; simpl; [reflexivity|].
  rewrite existsb_seen_strings.
  destruct (existsb (String.eqb s) seen); simpl; [reflexivity|].
  now rewrite map_app.
Qed.

Lemma unique_fold_first :
  forall rows seen unique,
    Forall flat_job rows ->
    fold_left unique_step rows (Ok (map VStr seen, unique))
    = Ok (map VStr (fst (fold_left (first_step flat_key String.eqb) rows (seen, unique))),
          snd (fold_left (first_step flat_key String.eqb) rows (seen, unique))).
Proof.
  induction rows as [|j rows IH]; intros seen unique Hall; cbn [fold_left];
    [reflexivity|].
  inversion Hall as [|? ? Hj Hrows]; subst.
  rewrite unique_step_first by exact Hj.
  destruct (first_step flat_key String.eqb (seen, unique) j) as [seen' unique'].
  now apply IH.
Qed.

Lemma unique_by_job_id_first_wins :
  forall rows,
    Forall flat_job rows ->
    exists out,
      unique_by_job_id rows = Ok out /\
      one_per_key flat_key rows out /\
      (forall r, In r out -> is_first_with flat_key rows r).
Proof.
  intros rows Hall. unfold unique_by_job_id.
  pose proof (unique_fold_first rows [] [] Hall) as Hfold.
  cbn [map] in Hfold. rewrite Hfold. cbn [bind snd].
  eexists. split; [reflexivity|].
  apply (first_wins flat_key String.eqb String.eqb_eq).
Qed.

Section FlattenFacts.
Variable rt : runtime.

Lemma flatten_all_flat :
  forall raw js, flatten_all rt raw = Ok js -> Forall flat_job js.
Proof.
  induction raw as [|v raw IH]; intros js H; simpl in H.
  - injection H as <-. constructor.
  - destruct v; try (now apply IH).
    unfold bind in H.
    destruct (flatten_record rt d) as [j|] eqn:Ej; [|discriminate].
    destruct (flatten_all rt raw) as [js'|] eqn:Ejs; [|discriminate].
    injection H as <-. constructor.
    + now apply (flatten_record_shape rt _ _ Ej).
    + now apply IH.
Qed.

Lemma flatten_payload :
  forall description,
    flatten_record rt (payload description)
    = Ok (PyDict.set (flattened "") "description"
            (VStr (Re.sub html_tag_re "" description))).
Proof. reflexivity. Qed.

End FlattenFacts.

(** C2, as the code has it: [_dedupe_jobs], the deduplication across
    batches, keeps one row for each key, the last of the input with that
    key.  The deduplication inside [process_json_file] and
    [_dedupe_search_results] keep one row for each key too, but the
    first of the input with that key.  So of two payloads with job_id
    123 the second description is the one kept when [_dedupe_jobs]
    merges them, and the first when they come in one file. *)
Theorem dedupe_keeps_one_row_per_key :
  forall (rt : runtime) (rows : list dict),
    (one_per_key (job_key rt) rows (_dedupe_jobs rt rows) /\
     forall r, In r (_dedupe_jobs rt rows) -> is_last_with (job_key rt) rows r) /\
    (one_per_key (sr_key rt) rows (_dedupe_search_results rt rows) /\
     forall r, In r (_dedupe_search_results rt rows) -> is_first_with (sr_key rt) rows r) /\
    (Forall flat_job rows ->
     exists out,
       unique_by_job_id rows = Ok out /\
       one_per_key flat_key rows out /\
       forall r, In r out -> is_first_with flat_key rows r) /\
    (forall raw js, flatten_all rt raw = Ok js -> Forall flat_job js) /\
    (flatten_record rt (payload "first") = Ok (flattened "first") /\
     flatten_record rt (payload "second") = Ok (flattened "second") /\
     _dedupe_jobs rt [flattened "first"; flattened "second"] = [flattened "second"] /\
     unique_by_job_id [flattened "first"; flattened "second"] = Ok [flattened "first"]).
Proof.
  intros rt rows.
  split; [apply dedupe_jobs_last_wins|].
  split; [apply dedupe_search_results_first_wins|].
  split; [apply unique_by_job_id_first_wins|].
  split; [apply flatten_all_flat|].
  repeat split; reflexivity.
Qed.

(** C2 as stated fails inside a file: of two records with job_id 123
    [process_json_file] keeps the first, which is not the last row with
    that key. *)
Lemma intra_batch_dedupe_keeps_first :
  unique_by_job_id [flattened "first"; flattened "second"] = Ok [flattened "first"] /\
  get (flattened "first") "description" = VStr "first" /\
  ~ is_last_with flat_key [flattened "first"; flattened "second"] (flattened "first") /\
  (exists sr req,
      process_json_file example_runtime "/data/20250810112529289-data ai engineer-page3.json"
        "20250810112529289-data ai engineer-page3.json"
        (VList [VDict (payload "first"); VDict (payload "second")])
      = Ok ([flattened "first"], sr, req)).
Proof.
  split; [reflexivity|]. split; [reflexivity|]. split.
  - intros (pre & post & Heq & _ & Hpost).
    destruct pre as [|x pre].
    + simpl in Heq. injection Heq as <-.
      apply (Hpost (flattened "second")); [now left | reflexivity].
    + simpl in Heq. injection Heq as _ Heq.
      destruct pre as [|y pre]; simpl in Heq.
      * injection Heq as Heq _. discriminate Heq.
      * injection Heq as _ Heq. destruct pre; discriminate Heq.
  - eexists. eexists. vm_compute. reflexivity.
Qed.

(* ================================================================== *)
(** ** The matcher on the names of batch files *)

Module ReFacts.
Import Re.


Lemma los_app : forall a b, list_ascii_of_string (a ++ b)%string = list_ascii_of_string a ++ list_ascii_of_string b.
Proof. induction a as [|c a IH]; intros b; simpl; [reflexivity | now rewrite IH]. Qed.

Lemma los_inj : forall a b, list_ascii_of_string a = list_ascii_of_string b -> a = b.
Proof.
  intros a b H. rewrite <- (string_of_list_ascii_of_string a),
    <- (string_of_list_ascii_of_string b). now rewrite H.
Qed.

Lemma length_los : forall s, String.length s = List.length (list_ascii_of_string s).
Proof. induction s as [|c s IH]; simpl; [reflexivity | now rewrite IH]. Qed.

Lemma length_append : forall a b, String.length (a ++ b)%string = String.length a + String.length b.
Proof. intros. rewrite !length_los, los_app. apply length_app. Qed.

Lemma append_assoc : forall a b c, ((a ++ b) ++ c = a ++ (b ++ c))%string.
Proof. induction a as [|x a IH]; intros; simpl; [reflexivity | now rewrite IH]. Qed.

Lemma append_nil_r : forall a, (a ++ "" = a)%string.
Proof. induction a as [|x a IH]; simpl; [reflexivity | now rewrite IH]. Qed.

Lemma substring_prefix : forall a b, substring 0 (String.length a) (a ++ b)%string = a.
Proof.
  induction a as [|x a IH]; intros b; simpl.
  - now destruct b.
  - now rewrite IH.
Qed.

Lemma consumed_app : forall a b, Str.consumed (a ++ b)%string b = a.
Proof.
  intros a b. unfold Str.consumed. rewrite length_append.
  replace (String.length a + String.length b - String.length b) with (String.length a) by lia.
  apply substring_prefix.
Qed.

Lemma all_chars_app : forall p a b,
  Str.all_chars p (a ++ b)%string = Str.all_chars p a && Str.all_chars p b.
Proof.
  intros p. induction a as [|x a IH]; intros b; simpl; [reflexivity|].
  now rewrite IH, andb_assoc.
Qed.

Section Engine.
Context {T : Type}.

Lemma greedy_complete :
  forall c d lo hi s' (k : string -> option T) x,
    Str.all_chars (cls_match c) d = true ->
    lo <= String.length d ->
    match hi with Some n => String.length d <= n | None => True end ->
    blocked c s' ->
    k s' = Some x ->
    greedy c lo hi (d ++ s')%string k = Some x.
Proof.
  intros c. induction d as [|a d IH]; intros lo hi s' k x Hall Hlo Hhi Hb Hk; simpl in *.
  - assert (lo = 0) by lia. subst lo.
    destruct s' as [|b s']; simpl; [exact Hk|].
    simpl in Hb. rewrite Hb. simpl. exact Hk.
  - apply andb_prop in Hall. destruct Hall as [Ha Hd]. rewrite Ha.
    assert (Hallow : hi_allows hi = true).
    { destruct hi as [[|n]|]; simpl; try reflexivity. exfalso. lia. }
    rewrite Hallow. simpl.
    rewrite (IH (pred lo) (hi_pred hi) s' k x); try assumption; try lia;
      [reflexivity|].
    destruct hi as [[|n]|]; simpl; [exfalso; lia | lia | exact I].
Qed.

Lemma greedy_sound :
  forall c s lo hi (k : string -> option T) x,
    greedy c lo hi s k = Some x ->
    exists d s', s = (d ++ s')%string /\ Str.all_chars (cls_match c) d = true /\
                 lo <= String.length d /\ k s' = Some x.
Proof.
  intros c. induction s as [|a s IH]; intros lo hi k x H; simpl in H.
  - destruct lo; [|discriminate]. exists "", "". now repeat split.
  - assert (Hstop : match lo with 0 => k (String a s) | S _ => None end = Some x ->
                    exists d s', String a s = (d ++ s')%string /\
                                 Str.all_chars (cls_match c) d = true /\
                                 lo <= String.length d /\ k s' = Some x).
    { intros Hs. destruct lo; [|discriminate]. exists "", (String a s). now repeat split. }
    destruct (cls_match c a && hi_allows hi) eqn:E; [|now apply Hstop].
    destruct (greedy c (pred lo) (hi_pred hi) s k) as [y|] eqn:G; [|now apply Hstop].
    injection H as ->. apply IH in G. destruct G as (d & s' & -> & Hall & Hlo & Hk).
    exists (String a d), s'. simpl. apply andb_prop in E. destruct E as [Ea _].
    rewrite Ea, Hall. repeat split; try assumption. lia.
Qed.

Lemma lazy_complete :
  forall c q s' (k : string -> option T) x,
    Str.all_chars (cls_match c) q = true ->
    (forall q1 a q2, q = (q1 ++ String a q2)%string -> k (String a q2 ++ s')%string = None) ->
    k s' = Some x ->
    lazy_star c (q ++ s')%string k = Some x.
Proof.
  intros c. induction q as [|a q IH]; intros s' k x Hall Hfail Hk; simpl.
  - destruct s'; simpl; now rewrite Hk.
  - pose proof (Hfail "" a q eq_refl) as Hf. simpl in Hf. rewrite Hf. simpl in Hall.
    apply andb_prop in Hall. destruct Hall as [Ha Hq]. rewrite Ha.
    apply IH; try assumption.
    intros q1 b q2 Heq. apply (Hfail (String a q1) b q2). simpl. now rewrite Heq.
Qed.

Lemma lazy_sound :
  forall c s (k : string -> option T) x,
    lazy_star c s k = Some x ->
    exists q s', s = (q ++ s')%string /\ Str.all_chars (cls_match c) q = true /\ k s' = Some x.
Proof.
  intros c. induction s as [|a s IH]; intros k x H; simpl in H.
  - destruct (k "") eqn:E; [|discriminate]. exists "", "". now repeat split; try congruence.
  - destruct (k (String a s)) eqn:E.
    + exists "", (String a s). repeat split. congruence.
    + destruct (cls_match c a) eqn:Ea; [|discriminate].
      apply IH in H. destruct H as (q & s' & -> & Hall & Hk).
      exists (String a q), s'. simpl. rewrite Ea, Hall. now repeat split.
Qed.

Lemma run_lit :
  forall t s g (k : string -> groupdict -> option T),
    run (lit t) (t ++ s)%string g k = k s g.
Proof.
  induction t as [|a t IH]; intros s g k; simpl; [reflexivity|].
  rewrite Ascii.eqb_refl. apply IH.
Qed.

Lemma run_lit_sound :
  forall t s g (k : string -> groupdict -> option T) x,
    run (lit t) s g k = Some x -> exists s', s = (t ++ s')%string /\ k s' g = Some x.
Proof.
  induction t as [|a t IH]; intros s g k x H; simpl in H.
  - exists s. now split.
  - destruct s as [|b s]; [discriminate|].
    destruct (Ascii.eqb b a) eqn:E; [|discriminate].
    apply Ascii.eqb_eq in E. subst b.
    apply IH in H. destruct H as (s' & -> & Hk). exists s'. now split.
Qed.

End Engine.

Lemma at_eos_cases : forall s, at_eos s = true -> s = "" \/ s = String Str.newline "".
Proof.
  intros [|a [|b s]] H; simpl in H; try discriminate; [now left|].
  apply Ascii.eqb_eq in H. subst a. now right.
Qed.

Lemma all_chars_Forall :
  forall p s, Str.all_chars p s = true ->
              Forall (fun c => p c = true) (list_ascii_of_string s).
Proof.
  intros p. induction s as [|a s IH]; intros H; simpl in *; [constructor|].
  apply andb_prop in H. destruct H as [Ha Hs]. constructor; [exact Ha | now apply IH].
Qed.

(** A run of characters of one kind followed by a character of another
    kind can be read off a list in one way only. *)
Lemma span_unique :
  forall (P : ascii -> bool) d1 d2 c r1 r2,
    d1 ++ c :: r1 = d2 ++ c :: r2 ->
    Forall (fun a => P a = true) d1 -> Forall (fun a => P a = true) d2 ->
    P c = false ->
    d1 = d2 /\ r1 = r2.
Proof.
  intros P. induction d1 as [|y d1 IH]; intros d2 c r1 r2 H H1 H2 Hc.
  - destruct d2 as [|y d2]; simpl in H.
    + injection H as ->. now split.
    + injection H as -> _. inversion H2; subst. congruence.
  - destruct d2 as [|y' d2]; simpl in H.
    + injection H as -> _. inversion H1; subst. congruence.
    + injection H as -> H. inversion H1; inversion H2; subst.
      destruct (IH _ _ _ _ H) as [-> ->]; auto.
Qed.

(** An equation between texts, read from the end. *)
Ltac from_the_end H :=
  apply (f_equal list_ascii_of_string) in H;
  repeat rewrite los_app in H;
  apply (f_equal (@rev ascii)) in H;
  repeat rewrite rev_app_distr in H;
  simpl in H;
  repeat rewrite <- app_assoc in H;
  simpl in H.

Section Tails.
Context {T : Type}.

Lemma tail_strict_sound :
  forall s g (k : string -> groupdict -> option T) x,
    run tail_strict s g k = Some x ->
    exists p rest,
      s = ("-page" ++ p ++ ".json" ++ rest)%string /\
      Str.all_chars Str.is_digit p = true /\ 1 <= String.length p /\
      at_eos rest = true /\ k rest (("page", p) :: g) = Some x.
Proof.
  intros s g k x H. unfold tail_strict in H. cbn [seq run] in H.
  apply run_lit_sound in H. destruct H as (s1 & -> & H).
  apply greedy_sound in H. destruct H as (p & s2 & -> & Hp & Hlen & H).
  rewrite consumed_app in H.
  apply run_lit_sound in H. destruct H as (rest & -> & H).
  destruct (at_eos rest) eqn:E; [|discriminate].
  exists p, rest. repeat split; assumption.
Qed.

Lemma tail_strict_complete :
  forall p g (k : string -> groupdict -> option T) x,
    Str.isdigit p = true ->
    k "" (("page", p) :: g) = Some x ->
    run tail_strict ("-page" ++ p ++ ".json")%string g k = Some x.
Proof.
  intros p g k x Hp Hk. unfold tail_strict. cbn [seq run].
  rewrite run_lit.
  apply greedy_complete.
  - destruct p; [discriminate | exact Hp].
  - destruct p; [discriminate | simpl; lia].
  - exact I.
  - reflexivity.
  - cbn beta. rewrite consumed_app. simpl. exact Hk.
Qed.

Lemma tail_relaxed_sound :
  forall s g (k : string -> groupdict -> option T) x,
    run tail_relaxed s g k = Some x ->
    exists o rest,
      s = ("-page" ++ o ++ rest)%string /\ (o = ".json" \/ o = "") /\
      at_eos rest = true /\ k rest g = Some x.
Proof.
  intros s g k x H. unfold tail_relaxed in H. cbn [seq run] in H.
  apply run_lit_sound in H. destruct H as (s1 & -> & H).
  destruct (run (lit ".json") s1 g _) as [y|] eqn:E.
  - injection H as ->. apply run_lit_sound in E. destruct E as (rest & -> & E).
    destruct (at_eos rest) eqn:Er; [|discriminate].
    exists ".json", rest. repeat split; auto.
  - destruct (at_eos s1) eqn:Er; [|discriminate].
    exists "", s1. repeat split; auto.
Qed.

End Tails.

(** No text before the strict tail of a name lets the tail match
    earlier. *)
Lemma tail_strict_not_earlier :
  forall a q2 p s g y,
    Str.all_chars Str.is_digit p = true ->
    s = (String a q2 ++ "-page" ++ p ++ ".json")%string ->
    run tail_strict s g k_end = Some y -> False.
Proof.
  intros a q2 p s g y Hp -> H.
  apply tail_strict_sound in H.
  destruct H as (p' & rest & Heq & Hp' & _ & Hrest & _).
  apply at_eos_cases in Hrest. destruct Hrest as [-> | ->].
  - from_the_end Heq. injection Heq as Heq.
    apply (span_unique Str.is_digit) in Heq.
    + destruct Heq as [_ Heq]. apply (f_equal (@List.length ascii)) in Heq.
      simpl in Heq. rewrite !length_app in Heq. simpl in Heq. lia.
    + apply Forall_rev. now apply all_chars_Forall.
    + apply Forall_rev. now apply all_chars_Forall.
    + reflexivity.
  - from_the_end Heq. discriminate Heq.
Qed.

Lemma tail_relaxed_not_earlier :
  forall a q2 sfx s g y,
    sfx = ".json" \/ sfx = "" ->
    s = (String a q2 ++ "-page" ++ sfx)%string ->
    run tail_relaxed s g k_end = Some y -> False.
Proof.
  intros a q2 sfx s g y Hsfx -> H.
  apply tail_relaxed_sound in H.
  destruct H as (o & rest & Heq & Ho & Hrest & _).
  apply at_eos_cases in Hrest.
  destruct Hsfx as [-> | ->]; destruct Ho as [-> | ->]; destruct Hrest as [-> | ->];
    from_the_end Heq; try discriminate Heq;
    injection Heq as Heq; apply (f_equal (@List.length ascii)) in Heq;
    simpl in Heq; rewrite ?length_app in Heq; simpl in Heq; lia.
Qed.

Lemma strict_re_name : Filename.strict_re = name_re tail_strict.
Proof. reflexivity. Qed.

Lemma relaxed_re_name : Filename.relaxed_re = name_re tail_relaxed.
Proof. reflexivity. Qed.

Lemma name_complete :
  forall tail d q t x,
    Str.all_chars Str.is_digit d = true ->
    14 <= String.length d <= 17 ->
    Str.all_chars (cls_match Dot) q = true ->
    (forall a q2 g y, run tail (String a q2 ++ t)%string g k_end = Some y -> False) ->
    run tail t [("query", q); ("search_id", d)] k_end = Some x ->
    run (name_re tail) (d ++ "-" ++ q ++ t)%string [] k_end = Some x.
Proof.
  intros tail d q t x Hd Hlen Hq Hfail Hk.
  unfold name_re, sid_group, query_group. cbn [run].
  apply greedy_complete; try assumption; try lia; [reflexivity|].
  cbn beta. rewrite consumed_app.
  rewrite (run_lit "-"). cbn [run].
  apply lazy_complete; try assumption.
  - intros q1 a q2 Heq. cbn beta.
    match goal with |- ?r = None => destruct r as [y|] eqn:E; [|reflexivity] end.
    exfalso. eapply Hfail. exact E.
  - cbn beta. rewrite consumed_app. exact Hk.
Qed.

Lemma name_sound :
  forall tail s g x,
    run (name_re tail) s g k_end = Some x ->
    exists d q t g',
      s = (d ++ "-" ++ q ++ t)%string /\ run tail t g' k_end = Some x.
Proof.
  intros tail s g x H. unfold name_re, sid_group, query_group in H. cbn [run] in H.
  apply greedy_sound in H. destruct H as (d & s1 & -> & _ & _ & H).
  cbn beta in H. apply run_lit_sound in H. destruct H as (s2 & -> & H).
  cbn [run] in H. apply lazy_sound in H. destruct H as (q & t & -> & _ & H).
  cbn beta in H. exists d, q, t. eexists. split; [reflexivity | exact H].
Qed.

Lemma match_strict :
  forall d q p,
    Str.all_chars Str.is_digit d = true ->
    14 <= String.length d <= 17 ->
    Str.all_chars (cls_match Dot) q = true ->
    Str.isdigit p = true ->
    match_prefix Filename.strict_re (d ++ "-" ++ q ++ "-page" ++ p ++ ".json")%string
    = Some ([("page", p); ("query", q); ("search_id", d)], "").
Proof.
  intros d q p Hd Hlen Hq Hp. unfold match_prefix. rewrite strict_re_name.
  apply (name_complete tail_strict d q ("-page" ++ p ++ ".json")%string); try assumption.
  - intros a q2 g y H. eapply (tail_strict_not_earlier a q2 p); [|reflexivity | exact H].
    destruct p; [discriminate | exact Hp].
  - now apply tail_strict_complete.
Qed.

Lemma match_relaxed :
  forall d q sfx,
    Str.all_chars Str.is_digit d = true ->
    14 <= String.length d <= 17 ->
    Str.all_chars (cls_match Dot) q = true ->
    sfx = ".json" \/ sfx = "" ->
    match_prefix Filename.relaxed_re (d ++ "-" ++ q ++ "-page" ++ sfx)%string
    = Some ([("query", q); ("search_id", d)], "").
Proof.
  intros d q sfx Hd Hlen Hq Hsfx. unfold match_prefix. rewrite relaxed_re_name.
  apply (name_complete tail_relaxed d q ("-page" ++ sfx)%string); try assumption.
  - intros a q2 g y H. eapply (tail_relaxed_not_earlier a q2 sfx); [exact Hsfx | reflexivity | exact H].
  - destruct Hsfx as [-> | ->]; reflexivity.
Qed.

Lemma strict_fails_without_page_digits :
  forall d q sfx,
    sfx = ".json" \/ sfx = "" ->
    match_prefix Filename.strict_re (d ++ "-" ++ q ++ "-page" ++ sfx)%string = None.
Proof.
  intros d q sfx Hsfx. unfold match_prefix. rewrite strict_re_name.
  match goal with |- ?r = None => destruct r as [y|] eqn:E; [|reflexivity] end.
  exfalso. apply name_sound in E. destruct E as (d' & q' & t & g' & Heq & E).
  apply tail_strict_sound in E.
  destruct E as (p' & rest & -> & Hp' & Hlen & Hrest & _).
  assert (Hrev : exists c l, rev (list_ascii_of_string p') = c :: l /\ Str.is_digit c = true).
  { apply all_chars_Forall in Hp'. apply Forall_rev in Hp'.
    destruct (rev (list_ascii_of_string p')) as [|c l] eqn:Er.
    - apply (f_equal (@List.length ascii)) in Er. rewrite length_rev, <- length_los in Er.
      simpl in Er. lia.
    - inversion Hp'; subst. eauto. }
  destruct Hrev as (c & l & Hrev & Hc).
  apply at_eos_cases in Hrest.
  destruct Hsfx as [-> | ->]; destruct Hrest as [-> | ->];
    from_the_end Heq; try discriminate Heq.
  rewrite Hrev in Heq. simpl in Heq. injection Heq as Heq _. subst c. discriminate Hc.
Qed.
End ReFacts.

(* ================================================================== *)
(** ** The batch metadata of a well-formed name *)

Lemma append_longer :
  forall d s : string, s <> "" -> (d ++ s)%string <> d.
Proof.
  intros d s Hs Heq. apply (f_equal String.length) in Heq.
  rewrite ReFacts.length_append in Heq. destruct s; [congruence | simpl in Heq; lia].
Qed.

(** What the function does on a name of the strict shape, in the order
    of the code: the page is read first, then the timestamp. *)
Lemma parse_strict_exact :
  forall d q p,
    digits d -> 14 <= String.length d <= 17 -> no_newline q ->
    Str.isdigit p = true ->
    Filename.parse_filename_metadata (d ++ "-" ++ q ++ "-page" ++ p ++ ".json")%string
    = (n <- int_of_digit_text p ;;
       match Datetime.strptime d with
       | Ok t =>
           Ok {| Filename.search_id := (d ++ "-" ++ q ++ "-page" ++ Str.of_Z n)%string;
                 Filename.query_timestamp := Some (Datetime.isoformat t);
                 Filename.query := Some q;
                 Filename.page := Some n |}
       | Raise _ => Raise AttributeError
       end)%py.
Proof.
  intros d q p Hd Hlen Hq Hp.
  unfold Filename.parse_filename_metadata, Filename.match_filename, Re.match_.
  rewrite (ReFacts.match_strict d q p Hd Hlen Hq Hp). simpl.
  rewrite Hp. destruct (int_of_digit_text p) as [n|e]; [|reflexivity]. simpl.
  now destruct (Datetime.strptime d).
Qed.

Lemma parse_relaxed_exact :
  forall d q sfx,
    digits d -> 14 <= String.length d <= 17 -> no_newline q ->
    sfx = ".json" \/ sfx = "" ->
    Filename.parse_filename_metadata (d ++ "-" ++ q ++ "-page" ++ sfx)%string
    = match Datetime.strptime d with
      | Ok t =>
          Ok {| Filename.search_id := (d ++ "-" ++ q ++ "-page")%string;
                Filename.query_timestamp := Some (Datetime.isoformat t);
                Filename.query := Some q;
                Filename.page := None |}
      | Raise _ => Raise AttributeError
      end.
Proof.
  intros d q sfx Hd Hlen Hq Hsfx.
  unfold Filename.parse_filename_metadata, Filename.match_filename, Re.match_.
  rewrite (ReFacts.strict_fails_without_page_digits d q sfx Hsfx).
  rewrite (ReFacts.match_relaxed d q sfx Hd Hlen Hq Hsfx). simpl.
  now destruct (Datetime.strptime d).
Qed.

Lemma int_of_digit_text_ok :
  forall p, String.length p <= int_max_str_digits ->
            int_of_digit_text p = Ok (Str.int_of_digits p).
Proof.
  intros p H. unfold int_of_digit_text.
  destruct (Nat.leb_spec (String.length p) int_max_str_digits); [reflexivity | lia].
Qed.

Lemma int_of_digit_text_long :
  forall p, int_max_str_digits < String.length p ->
            int_of_digit_text p = Raise ValueError.
Proof.
  intros p H. unfold int_of_digit_text.
  destruct (Nat.leb_spec (String.length p) int_max_str_digits); [lia | reflexivity].
Qed.

Lemma parse_strict_name :
  forall d q p t,
    digits d -> 14 <= String.length d <= 17 -> no_newline q ->
    Str.isdigit p = true -> String.length p <= int_max_str_digits ->
    Datetime.strptime d = Ok t ->
    Filename.parse_filename_metadata (d ++ "-" ++ q ++ "-page" ++ p ++ ".json")%string
    = Ok {| Filename.search_id :=
              (d ++ "-" ++ q ++ "-page" ++ Str.of_Z (Str.int_of_digits p))%string;
            Filename.query_timestamp := Some (Datetime.isoformat t);
            Filename.query := Some q;
            Filename.page := Some (Str.int_of_digits p) |}.
Proof.
  intros d q p t Hd Hlen Hq Hp Hl Ht.
  rewrite (parse_strict_exact d q p Hd Hlen Hq Hp), (int_of_digit_text_ok p Hl), Ht.
  reflexivity.
Qed.

Lemma parse_relaxed_name :
  forall d q sfx t,
    digits d -> 14 <= String.length d <= 17 -> no_newline q ->
    sfx = ".json" \/ sfx = "" ->
    Datetime.strptime d = Ok t ->
    Filename.parse_filename_metadata (d ++ "-" ++ q ++ "-page" ++ sfx)%string
    = Ok {| Filename.search_id := (d ++ "-" ++ q ++ "-page")%string;
            Filename.query_timestamp := Some (Datetime.isoformat t);
            Filename.query := Some q;
            Filename.page := None |}.
Proof.
  intros d q sfx t Hd Hlen Hq Hsfx Ht.
  now rewrite (parse_relaxed_exact d q sfx Hd Hlen Hq Hsfx), Ht.
Qed.

(** C7: the name 20250810112529289-data ai engineer-page3.json gives
    the search id 20250810112529289-data ai engineer-page3, the query
    data ai engineer, the page 3 and the instant 2025-08-10 11:25:29.289
    UTC, printed by [isoformat].  The composite search id is not given
    for every name whose digit run, query and page match: on the name
    20250431112529289-data ai engineer-page3.json, whose digits name the
    31st of April, the three groups match and the function raises
    AttributeError where the record with the search id
    20250431112529289-data ai engineer-page3 was due.  For a name made
    of 14 to 17 digits, a query and a page the function does exactly
    this: a page of more than 4300 digits is the ValueError of [int];
    otherwise the record with the composite search id (the word page
    alone when the name has no page digits, never the bare digit run)
    is returned when the digits parse as a timestamp, and
    AttributeError is raised when they do not. *)
Theorem parse_filename_metadata_composite_search_id :
  Filename.parse_filename_metadata "20250810112529289-data ai engineer-page3.json"
  = Ok {| Filename.search_id := "20250810112529289-data ai engineer-page3";
          Filename.query_timestamp := Some "2025-08-10T11:25:29.289000+00:00";
          Filename.query := Some "data ai engineer";
          Filename.page := Some 3%Z |} /\
  Datetime.strptime "20250810112529289"
  = Ok (Datetime.mk_datetime 2025 8 10 11 25 29 289000) /\
  Datetime.isoformat (Datetime.mk_datetime 2025 8 10 11 25 29 289000)
  = "2025-08-10T11:25:29.289000+00:00" /\
  Filename.match_filename "20250431112529289-data ai engineer-page3.json"
  = Some [("page", "3"); ("query", "data ai engineer");
          ("search_id", "20250431112529289")] /\
  Filename.parse_filename_metadata "20250431112529289-data ai engineer-page3.json"
  = Raise AttributeError /\
  (forall d q p,
      digits d -> 14 <= String.length d <= 17 -> no_newline q ->
      Str.isdigit p = true ->
      Filename.parse_filename_metadata (d ++ "-" ++ q ++ "-page" ++ p ++ ".json")%string
      = if String.length p <=? int_max_str_digits
        then match Datetime.strptime d with
             | Ok t =>
                 Ok {| Filename.search_id :=
                         (d ++ "-" ++ q ++ "-page" ++ Str.of_Z (Str.int_of_digits p))%string;
                       Filename.query_timestamp := Some (Datetime.isoformat t);
                       Filename.query := Some q;
                       Filename.page := Some (Str.int_of_digits p) |}
             | Raise _ => Raise AttributeError
             end
        else Raise ValueError) /\
  (forall d q sfx,
      digits d -> 14 <= String.length d <= 17 -> no_newline q ->
      sfx = ".json" \/ sfx = "" ->
      Filename.parse_filename_metadata (d ++ "-" ++ q ++ "-page" ++ sfx)%string
      = match Datetime.strptime d with
        | Ok t =>
            Ok {| Filename.search_id := (d ++ "-" ++ q ++ "-page")%string;
                  Filename.query_timestamp := Some (Datetime.isoformat t);
                  Filename.query := Some q;
                  Filename.page := None |}
        | Raise _ => Raise AttributeError
        end) /\
  (forall d q rest : string, (d ++ "-" ++ q ++ "-page" ++ rest)%string <> d).
Proof.
  split; [vm_compute; reflexivity|].
  split; [vm_compute; reflexivity|].
  split; [vm_compute; reflexivity|].
  split; [vm_compute; reflexivity|].
  split; [vm_compute; reflexivity|].
  split.
  { intros d q p Hd Hlen Hq Hp. rewrite (parse_strict_exact d q p Hd Hlen Hq Hp).
    unfold int_of_digit_text.
    now destruct (String.length p <=? int_max_str_digits). }
  split; [exact parse_relaxed_exact|].
  intros d q rest. apply append_longer. discriminate.
Qed.

Lemma parse_filename_metadata_composite_search_id_witness :
  digits "20250811090000123" /\
  14 <= String.length "20250811090000123" <= 17 /\
  no_newline "rust dev" /\
  Str.isdigit "007" = true /\
  Datetime.strptime "20250811090000123"
  = Ok (Datetime.mk_datetime 2025 8 11 9 0 0 123000) /\
  Filename.parse_filename_metadata "20250811090000123-rust dev-page007.json"
  = Ok {| Filename.search_id := "20250811090000123-rust dev-page7";
          Filename.query_timestamp := Some "2025-08-11T09:00:00.123000+00:00";
          Filename.query := Some "rust dev";
          Filename.page := Some 7%Z |}.
Proof.
  assert (H1 : digits "20250811090000123") by reflexivity.
  assert (H2 : 14 <= String.length "20250811090000123" <= 17) by (simpl; lia).
  assert (H3 : no_newline "rust dev") by reflexivity.
  assert (H4 : Str.isdigit "007" = true) by reflexivity.
  assert (H5 : Datetime.strptime "20250811090000123"
               = Ok (Datetime.mk_datetime 2025 8 11 9 0 0 123000))
    by (vm_compute; reflexivity).
  repeat (split; [assumption|]).
  destruct parse_filename_metadata_composite_search_id
    as (_ & _ & _ & _ & _ & Hstrict & _).
  pose proof (Hstrict "20250811090000123" "rust dev" "007" H1 H2 H3 H4) as E.
  rewrite H5 in E. exact E.
Defined.

(* ================================================================== *)
(** ** The push path run twice *)

Module SheetFacts.

Lemma trim_decomp : forall l, exists n, l = Sheet.trim l ++ repeat "" n.
Proof.
  induction l as [|x l [n IH]]; simpl.
  - exists 0. reflexivity.
  - destruct (Sheet.trim l) as [|y r] eqn:E.
    + destruct (String.eqb x "") eqn:Ex.
      * apply String.eqb_eq in Ex. subst x. exists (S n). simpl. now rewrite IH at 1.
      * exists n. simpl. now rewrite IH at 1.
    + exists n. simpl. now rewrite IH at 1.
Qed.





Lemma overwrite_some :
  forall cells old, Sheet.overwrite (map Some cells) old = cells ++ skipn (List.length cells) old.
Proof.
  induction cells as [|x cells IH]; intros old; simpl; [reflexivity|].
  rewrite IH. destruct old; simpl; [now rewrite skipn_nil | reflexivity].
Qed.


Lemma nth_set_row :
  forall n f (w : Sheet.t) i,
    nth i (Sheet.set_row n f w) [] = if Nat.eqb i n then f (nth n w []) else nth i w [].
Proof.
  induction n as [|n IH]; intros f w i; destruct w as [|r w]; simpl.
  - destruct i as [|i]; simpl; [reflexivity|]. now destruct i.
  - destruct i; reflexivity.
  - destruct i as [|i]; simpl; [reflexivity|].
    rewrite IH. destruct (Nat.eqb i n); [now destruct n | now destruct i].
  - destruct i as [|i]; simpl; [reflexivity|]. apply IH.
Qed.

Lemma cell_set_row :
  forall n f (w : Sheet.t) i j,
    cell (Sheet.set_row n f w) i j =
    if Nat.eqb (i - 1) n then nth (j - 1) (f (nth n w [])) "" else cell w i j.
Proof.
  intros. unfold cell. rewrite nth_set_row. now destruct (Nat.eqb (i - 1) n).
Qed.



Lemma range_concat :
  forall (A : Type) (l : list A) b fuel start,
    0 < b -> List.length l - start <= fuel ->
    List.concat (map (fun i => firstn b (skipn i l)) (range_from fuel start (List.length l) b))
    = skipn start l.
Proof.
  intros A l b fuel. induction fuel as [|fuel IH]; intros start Hb Hf; simpl.
  - symmetry. apply skipn_all2. lia.
  - destruct (Nat.ltb start (List.length l)) eqn:E.
    + simpl. rewrite IH by (apply Nat.ltb_lt in E; lia).
      replace (start + b) with (b + start) by lia.
      rewrite <- skipn_skipn. apply firstn_skipn.
    + apply Nat.ltb_ge in E. symmetry. apply skipn_all2. exact E.
Qed.

Lemma batches_pos :
  forall (A : Type) (l : list A) bz,
    (0 < bz)%Z ->
    exists chunks, batches l bz = Ok chunks /\ List.concat chunks = l /\ (l = [] -> chunks = []).
Proof.
  intros A l bz Hb. unfold batches.
  destruct (Z.eqb_spec bz 0); [lia|]. destruct (Z.ltb_spec bz 0); [lia|].
  eexists. split; [reflexivity|]. split.
  - rewrite range_concat; [reflexivity | lia | lia].
  - intros ->. reflexivity.
Qed.

Section Flush.
Variable rt : runtime.

Lemma apply_batch_update :
  forall last_col chunk w,
    apply_call rt w (BatchUpdate (map (to_range_update last_col) chunk))
    = fold_left (apply_update rt) chunk w.
Proof.
  intros last_col. induction chunk as [|u chunk IH]; intros w; [reflexivity|].
  simpl in *. rewrite IH. reflexivity.
Qed.

Lemma flush_updates_fold :
  forall last_col chunks s,
    fold_left (flush_updates rt last_col) chunks s
    = (fold_left (apply_update rt) (List.concat chunks) (fst s),
       snd s ++ map (fun chunk => BatchUpdate (map (to_range_update last_col) chunk))
                    (filter nonempty chunks)).
Proof.
  intros last_col. induction chunks as [|chunk chunks IH]; intros [w log]; simpl.
  - now rewrite app_nil_r.
  - rewrite IH. destruct chunk as [|u chunk]; simpl; [reflexivity|].
    rewrite fold_left_app. unfold do_call. simpl fst. simpl snd.
    rewrite <- app_assoc. f_equal.
    now rewrite <- (apply_batch_update last_col chunk).
Qed.

Lemma flush_appends_fold :
  forall chunks s,
    fold_left (flush_appends rt) chunks s
    = (fst s ++ map (map (appended rt)) (List.concat chunks), snd s ++ map AppendRows chunks).
Proof.
  induction chunks as [|chunk chunks IH]; intros [w log]; simpl.
  - now rewrite !app_nil_r.
  - rewrite IH. unfold flush_appends, do_call. simpl.
    rewrite map_app, <- !app_assoc. reflexivity.
Qed.

Lemma plan_fold :
  forall headers key index rows st,
    fold_left (plan_step rt headers key index) rows st
    = (fst st ++ flat_map (planned_update rt headers key index) rows,
       snd st ++ flat_map (planned_append rt headers key index) rows).
Proof.
  intros headers key index. induction rows as [|r rows IH]; intros [us aps]; simpl.
  - now rewrite !app_nil_r.
  - rewrite IH. unfold plan_step, planned_update, planned_append.
    destruct (truthy (get r key)); simpl; [|reflexivity].
    destruct (PyDict.lookup index (py_str rt (get r key))) as [[|n]|]; simpl;
      now rewrite <- ?app_assoc.
Qed.

Lemma plan_flat :
  forall headers key index rows,
    plan rt headers key index rows
    = (flat_map (planned_update rt headers key index) rows,
       flat_map (planned_append rt headers key index) rows).
Proof. intros. unfold plan. now rewrite plan_fold. Qed.

(** The push, for a positive batch size: the worksheet it leaves and the
    calls it makes. *)
Lemma upsert_rows_pos :
  forall ws headers rows key bz,
    (0 < bz)%Z ->
    let s0 := ensure_headers rt (ws, []) headers in
    let index := read_index_by_key (fst s0) key in
    let us := flat_map (planned_update rt headers key index) rows in
    let aps := flat_map (planned_append rt headers key index) rows in
    exists uchunks achunks,
      List.concat uchunks = us /\ List.concat achunks = aps /\ (aps = [] -> achunks = []) /\
      upsert_rows rt ws headers rows key bz
      = Ok (fold_left (apply_update rt) us (fst s0) ++ map (map (appended rt)) aps,
            (snd s0 ++ map (fun chunk => BatchUpdate
                                 (map (to_range_update (_col_letters (Z.of_nat (List.length headers)))) chunk))
                           (filter nonempty uchunks))
            ++ map AppendRows achunks).
Proof.
  intros ws headers rows key bz Hb s0 index us aps.
  destruct (batches_pos _ us bz Hb) as (uchunks & Hu & Hcu & _).
  destruct (batches_pos _ aps bz Hb) as (achunks & Ha & Hca & Hnil).
  exists uchunks, achunks. split; [exact Hcu|]. split; [exact Hca|]. split; [exact Hnil|].
  unfold upsert_rows. fold s0. fold index. rewrite plan_flat. fold us. fold aps.
  rewrite Hu. cbn [bind]. rewrite Ha. cbn [bind].
  change (fun s chunk => match chunk with
                         | [] => s
                         | _ => do_call rt s (BatchUpdate (map (to_range_update
                                  (_col_letters (Z.of_nat (List.length headers)))) chunk))
                         end)
    with (flush_updates rt (_col_letters (Z.of_nat (List.length headers)))).
  change (fun s chunk => do_call rt s (AppendRows chunk)) with (flush_appends rt).
  rewrite flush_updates_fold, flush_appends_fold. simpl fst. simpl snd.
  now rewrite Hcu, Hca.
Qed.

End Flush.

Section Push.
Variable rt : runtime.

Lemma ensure_headers_headed :
  forall ws log headers, headed headers (fst (ensure_headers rt (ws, log) headers)).
Proof.
  intros ws log headers. unfold ensure_headers, headed. cbn [fst].
  destruct (list_eq_dec string_dec (Sheet.row_values ws 1) headers) as [e|n]; cbn [fst].
  - unfold Sheet.row_values in e. simpl in e.
    destruct (trim_decomp (nth 0 ws [])) as [k Hk]. rewrite e in Hk. eauto.
  - unfold do_call, apply_call. cbn [fst].
    rewrite nth_set_row. cbn [Nat.eqb]. rewrite overwrite_some. eauto.
Qed.

Lemma ensure_headers_cells :
  forall ws log headers i j,
    2 <= i -> cell (fst (ensure_headers rt (ws, log) headers)) i j = cell ws i j.
Proof.
  intros ws log headers i j Hi. unfold ensure_headers. cbn [fst].
  destruct (list_eq_dec string_dec (Sheet.row_values ws 1) headers) as [e|n]; cbn [fst];
    [reflexivity|].
  unfold do_call, apply_call. cbn [fst]. rewrite cell_set_row.
  destruct (Nat.eqb_spec (i - 1) 0); [lia | reflexivity].
Qed.












End Push.

End SheetFacts.




(* ================================================================== *)
(** ** The statements on examples *)

Lemma coerce_bool_spec_witness :
  In (str_lower example_runtime (Str.strip "  YES ")) ["true"; "yes"; "y"; "1"] /\
  _coerce_bool example_runtime (VStr "  YES ") = Some true.
Proof.
  assert (H : In (str_lower example_runtime (Str.strip "  YES ")) ["true"; "yes"; "y"; "1"])
    by (right; left; reflexivity).
  split; [exact H|].
  destruct (coerce_bool_spec example_runtime) as (_ & _ & _ & Htrue & _).
  exact (Htrue "  YES " H).
Defined.

Lemma read_index_by_key_last_row_witness :
  nth_error (Sheet.row_values example_sheet 1) 0 = Some "id" /\
  (forall c', c' < 0 -> nth_error (Sheet.row_values example_sheet 1) c' <> Some "id") /\
  (PyDict.lookup (read_index_by_key example_sheet "id") "a" = Some 5 <->
   "a" <> "" /\ 2 <= 5 /\ cell example_sheet 5 (0 + 1) = "a" /\
   (forall j, 5 < j -> cell example_sheet j (0 + 1) <> "a")).
Proof.
  assert (H1 : nth_error (Sheet.row_values example_sheet 1) 0 = Some "id") by reflexivity.
  assert (H2 : forall c', c' < 0 ->
                 nth_error (Sheet.row_values example_sheet 1) c' <> Some "id")
    by (intros c' Hc'; lia).
  split; [exact H1|]. split; [exact H2|].
  destruct (read_index_by_key_last_row example_sheet "id") as (_ & Hidx & _).
  exact (Hidx 0 H1 H2 "a" 5).
Defined.

Lemma dedupe_keeps_one_row_per_key_witness :
  Forall flat_job [flattened "first"; flattened "second"] /\
  exists out,
    unique_by_job_id [flattened "first"; flattened "second"] = Ok out /\
    one_per_key flat_key [flattened "first"; flattened "second"] out /\
    forall r, In r out -> is_first_with flat_key [flattened "first"; flattened "second"] r.
Proof.
  assert (H : Forall flat_job [flattened "first"; flattened "second"]).
  { constructor; [right; eexists; reflexivity|].
    constructor; [right; eexists; reflexivity | constructor]. }
  split; [exact H|].
  destruct (dedupe_keeps_one_row_per_key example_runtime
              [flattened "first"; flattened "second"]) as (_ & _ & Hfirst & _).
  exact (Hfirst H).
Defined.

(* ================================================================== *)
(** ** Column names *)

Module ColumnFacts.

Lemma col_number_from_weight :
  forall s acc,
    col_number_from acc s = acc * 26 ^ String.length s + col_number_from 0 s.
Proof.
  induction s as [|a s IH]; intros acc; cbn [col_number_from String.length Nat.pow].
  - lia.
  - rewrite (IH (26 * acc + letter_val a)), (IH (26 * 0 + letter_val a)). ring.
Qed.

Lemma letter_of_rem :
  forall r, r < 26 ->
    letter_val (ascii_of_nat (65 + r)) = r + 1 /\ is_upper (ascii_of_nat (65 + r)) = true.
Proof.
  intros r Hr. unfold letter_val, is_upper.
  rewrite nat_ascii_embedding by lia. split; [lia|].
  apply andb_true_intro; split; apply Nat.leb_le; lia.
Qed.

Lemma col_letters_loop_number :
  forall fuel n s,
    Z.to_nat n <= fuel ->
    col_number (col_letters_loop fuel n s)
    = Z.to_nat n * 26 ^ String.length s + col_number s.
Proof.
  induction fuel as [|fuel IH]; intros n s Hn; cbn [col_letters_loop].
  - assert (Z.to_nat n = 0) as -> by lia. lia.
  - destruct (0 <? n)%Z eqn:Hpos.
    + apply Z.ltb_lt in Hpos.
      assert (Eq : Z.to_nat ((n - 1) / 26) = (Z.to_nat n - 1) / 26).
      { rewrite Z2Nat.inj_div by lia. rewrite Z2Nat.inj_sub by lia. reflexivity. }
      assert (Er : Z.to_nat ((n - 1) mod 26) = (Z.to_nat n - 1) mod 26).
      { rewrite Z2Nat.inj_mod by lia. rewrite Z2Nat.inj_sub by lia. reflexivity. }
      assert (Hq : Z.to_nat ((n - 1) / 26) <= fuel).
      { rewrite Eq. apply Nat.Div0.div_le_upper_bound. lia. }
      rewrite (IH _ _ Hq), Eq, Er.
      pose proof (Nat.mod_upper_bound (Z.to_nat n - 1) 26 ltac:(lia)) as Hr.
      destruct (letter_of_rem _ Hr) as [Hv _].
      unfold col_number. cbn [col_number_from String.length Nat.pow].
      rewrite (col_number_from_weight s (26 * 0 + _)), Hv.
      pose proof (Nat.div_mod_eq (Z.to_nat n - 1) 26) as Hdm.
      replace (Z.to_nat n)
        with (26 * ((Z.to_nat n - 1) / 26) + ((Z.to_nat n - 1) mod 26 + 1)) at 3 by lia.
      ring.
    + apply Z.ltb_ge in Hpos. assert (Z.to_nat n = 0) as -> by lia. lia.
Qed.

Lemma col_letters_loop_upper :
  forall fuel n s,
    Str.all_chars is_upper s = true ->
    Str.all_chars is_upper (col_letters_loop fuel n s) = true.
Proof.
  induction fuel as [|fuel IH]; intros n s Hs; cbn [col_letters_loop]; [exact Hs|].
  destruct (0 <? n)%Z eqn:Hpos; [|exact Hs].
  apply IH. cbn [Str.all_chars]. rewrite Hs.
  destruct (letter_of_rem (Z.to_nat ((n - 1) mod 26))) as [_ Hu].
  { pose proof (Z.mod_pos_bound (n - 1) 26 ltac:(lia)). lia. }
  rewrite Hu. reflexivity.
Qed.

End ColumnFacts.

(** X1: [_col_letters] writes a positive number in the letters of A1
    notation: the text is made of capital letters only and reads back
    as the number it was made from, so two positive numbers never share
    a text.  Zero and every negative number give the empty text. *)
Theorem col_letters_round_trip :
  forall n : Z,
    Z.of_nat (col_number (_col_letters n)) = Z.max 0 n /\
    Str.all_chars is_upper (_col_letters n) = true /\
    (_col_letters n = "" <-> (n <= 0)%Z) /\
    (forall m, (0 < n)%Z -> (0 < m)%Z -> _col_letters n = _col_letters m -> n = m).
Proof.
  intros n.
  assert (Hnum : forall k, col_number (_col_letters k) = Z.to_nat k).
  { intros k. unfold _col_letters.
    rewrite ColumnFacts.col_letters_loop_number by lia.
    cbn [String.length Nat.pow]. unfold col_number. cbn [col_number_from]. lia. }
  split; [rewrite Hnum; lia|]. split.
  - apply ColumnFacts.col_letters_loop_upper. reflexivity.
  - split.
    + split; intros H.
      * pose proof (Hnum n) as E. rewrite H in E. cbn in E. lia.
      * unfold _col_letters. assert (Z.to_nat n = 0) as -> by lia. reflexivity.
    + intros m Hn Hm H. pose proof (Hnum n) as En. pose proof (Hnum m) as Em.
      rewrite H in En. lia.
Qed.

(* ================================================================== *)
(** ** The batches of a push *)

Module BatchFacts.

Lemma range_from_lt :
  forall fuel start stop step i, In i (range_from fuel start stop step) -> i < stop.
Proof.
  induction fuel as [|fuel IH]; intros start stop step i; cbn [range_from]; [intros []|].
  destruct (start <? stop) eqn:E; [|intros []].
  intros [<-|H]; [now apply Nat.ltb_lt | eauto].
Qed.

Lemma batches_chunks :
  forall (A : Type) (l : list A) bz,
    (0 < bz)%Z ->
    exists chunks,
      batches l bz = Ok chunks /\ List.concat chunks = l /\
      Forall (fun c => 1 <= List.length c <= Z.to_nat bz) chunks.
Proof.
  intros A l bz Hb. unfold batches.
  destruct (Z.eqb_spec bz 0); [lia|]. destruct (Z.ltb_spec bz 0); [lia|].
  eexists. split; [reflexivity|]. split.
  - rewrite SheetFacts.range_concat; [reflexivity | lia | lia].
  - apply Forall_forall. intros c Hc. apply in_map_iff in Hc. destruct Hc as (i & <- & Hi).
    apply range_from_lt in Hi.
    rewrite length_firstn, length_skipn. lia.
Qed.

Lemma filter_nonempty_all :
  forall (A : Type) (b : nat) (chunks : list (list A)),
    Forall (fun c => 1 <= List.length c <= b) chunks -> filter nonempty chunks = chunks.
Proof.
  intros A b chunks H. induction H as [|c chunks Hc _ IH]; [reflexivity|].
  cbn [filter]. destruct c; cbn [List.length nonempty] in *; [lia|]. now rewrite IH.
Qed.

Section Calls.
Variable rt : runtime.

(** The push, for a positive batch size, with the sizes of its calls. *)
Lemma upsert_rows_calls :
  forall ws headers rows key bz,
    (0 < bz)%Z ->
    let s0 := ensure_headers rt (ws, []) headers in
    let index := read_index_by_key (fst s0) key in
    let us := flat_map (planned_update rt headers key index) rows in
    let aps := flat_map (planned_append rt headers key index) rows in
    exists uchunks achunks,
      List.concat uchunks = us /\ List.concat achunks = aps /\
      Forall (fun c => 1 <= List.length c <= Z.to_nat bz) uchunks /\
      Forall (fun c => 1 <= List.length c <= Z.to_nat bz) achunks /\
      upsert_rows rt ws headers rows key bz
      = Ok (fold_left (apply_update rt) us (fst s0) ++ map (map (appended rt)) aps,
            (snd s0 ++ map (fun chunk => BatchUpdate
                                 (map (to_range_update (_col_letters (Z.of_nat (List.length headers)))) chunk))
                           uchunks)
            ++ map AppendRows achunks).
Proof.
  intros ws headers rows key bz Hb s0 index us aps.
  destruct (batches_chunks _ us bz Hb) as (uchunks & Hu & Hcu & Hsu).
  destruct (batches_chunks _ aps bz Hb) as (achunks & Ha & Hca & Hsa).
  exists uchunks, achunks. repeat (split; [assumption|]).
  unfold upsert_rows. fold s0. fold index. rewrite SheetFacts.plan_flat. fold us. fold aps.
  rewrite Hu. cbn [bind]. rewrite Ha. cbn [bind].
  change (fun s chunk => match chunk with
                         | [] => s
                         | _ => do_call rt s (BatchUpdate (map (to_range_update
                                  (_col_letters (Z.of_nat (List.length headers)))) chunk))
                         end)
    with (flush_updates rt (_col_letters (Z.of_nat (List.length headers)))).
  change (fun s chunk => do_call rt s (AppendRows chunk)) with (flush_appends rt).
  rewrite SheetFacts.flush_updates_fold, SheetFacts.flush_appends_fold. simpl fst. simpl snd.
  rewrite Hcu, Hca, (filter_nonempty_all _ _ _ Hsu). reflexivity.
Qed.

Lemma ensure_headers_calls :
  forall ws headers b,
    Forall (call_within headers b) (snd (ensure_headers rt (ws, []) headers)).
Proof.
  intros ws headers b. unfold ensure_headers. cbn [fst].
  destruct (list_eq_dec string_dec (Sheet.row_values ws 1) headers); cbn [snd do_call app];
    repeat constructor.
Qed.

End Calls.

End BatchFacts.

(* ================================================================== *)
(** ** What a push queues for a record *)

Module QueueFacts.

Lemma range_updates_batches :
  forall (f : nat * list value -> range_update) chunks,
    range_updates (map (fun chunk => BatchUpdate (map f chunk)) chunks)
    = map f (List.concat chunks).
Proof.
  intros f. induction chunks as [|c chunks IH]; [reflexivity|].
  cbn [map range_updates flat_map List.concat]. unfold range_updates in IH.
  now rewrite IH, map_app.
Qed.

Lemma range_updates_appends :
  forall chunks, range_updates (map AppendRows chunks) = [].
Proof. induction chunks as [|c chunks IH]; [reflexivity | exact IH]. Qed.

Lemma appended_rows_batches :
  forall (f : list (nat * list value) -> list range_update) chunks,
    appended_rows (map (fun chunk => BatchUpdate (f chunk)) chunks) = [].
Proof. intros f. induction chunks as [|c chunks IH]; [reflexivity | exact IH]. Qed.

Lemma appended_rows_appends :
  forall chunks, appended_rows (map AppendRows chunks) = List.concat chunks.
Proof.
  induction chunks as [|c chunks IH]; [reflexivity|].
  cbn [map appended_rows flat_map List.concat]. unfold appended_rows in IH. now rewrite IH.
Qed.

Section Queue.
Variable rt : runtime.

Lemma ensure_headers_queues_nothing :
  forall ws headers,
    range_updates (snd (ensure_headers rt (ws, []) headers)) = [] /\
    appended_rows (snd (ensure_headers rt (ws, []) headers)) = [].
Proof.
  intros ws headers. unfold ensure_headers. cbn [fst].
  destruct (list_eq_dec string_dec (Sheet.row_values ws 1) headers); now split.
Qed.

(** Every record with a key is queued once, as an update or as an
    append. *)
Lemma planned_once :
  forall headers key index rows,
    List.length (flat_map (planned_update rt headers key index) rows)
    + List.length (flat_map (planned_append rt headers key index) rows)
    = List.length (keyed key rows).
Proof.
  intros headers key index. induction rows as [|r rows IH]; [reflexivity|].
  cbn [flat_map]. unfold keyed in *. cbn [filter]. rewrite !length_app.
  unfold planned_update at 1. unfold planned_append at 1.
  destruct (truthy (get r key)); cbn [List.length]; [|exact IH].
  destruct (PyDict.lookup index (py_str rt (get r key))) as [[|n]|]; cbn [List.length]; lia.
Qed.

(** What a push with a positive batch size queues, over all its calls. *)
Lemma upsert_rows_queues :
  forall ws headers rows key bz,
    (0 < bz)%Z ->
    let index := read_index_by_key (fst (ensure_headers rt (ws, []) headers)) key in
    exists s,
      upsert_rows rt ws headers rows key bz = Ok s /\
      map (fun u => (row_num u, values u)) (range_updates (snd s))
      = flat_map (planned_update rt headers key index) rows /\
      appended_rows (snd s) = flat_map (planned_append rt headers key index) rows.
Proof.
  intros ws headers rows key bz Hb index.
  destruct (BatchFacts.upsert_rows_calls rt ws headers rows key bz Hb)
    as (uchunks & achunks & Hcu & Hca & _ & _ & E).
  eexists. split; [exact E|]. cbn [snd].
  destruct (ensure_headers_queues_nothing ws headers) as [R0 A0].
  unfold range_updates, appended_rows in *. rewrite !flat_map_app, R0, A0.
  fold (range_updates (map AppendRows achunks)).
  fold (appended_rows (map AppendRows achunks)).
  rewrite range_updates_appends, appended_rows_appends, app_nil_r. cbn [app].
  split.
  - match goal with
    | |- context [flat_map _ (map (fun chunk => BatchUpdate (map ?f chunk)) uchunks)] =>
        fold (range_updates (map (fun chunk => BatchUpdate (map f chunk)) uchunks));
        rewrite (range_updates_batches f uchunks)
    end.
    rewrite map_map, Hcu.
    etransitivity; [|apply map_id]. apply map_ext. now intros [n vals].
  - match goal with
    | |- context [flat_map _ (map (fun chunk => BatchUpdate (?f chunk)) uchunks)] =>
        fold (appended_rows (map (fun chunk => BatchUpdate (f chunk)) uchunks));
        rewrite (appended_rows_batches f uchunks)
    end.
    exact Hca.
Qed.

End Queue.

End QueueFacts.

(** C8: in the push path the cell of a record under a header column is
    the elements joined with a comma and a blank when the value is a
    list, the JSON text when it is a dict, and the value itself, [None]
    included, otherwise; the projected row has one cell for each header,
    in header order.  A record whose key field is missing, null, the
    empty string or any other falsy value is skipped: the loop queues
    nothing for it, and the push with it makes the same calls, and
    leaves the same worksheet, as the push without it.  A record with a
    key is not skipped: with a positive batch size (the default is 200)
    the push returns, what its calls carry is what the loop queues for
    the records, one entry for each record with a key and in their
    order, and the projected row of the record is the values of a range
    update for the row the index gives its key, or else one of the
    appended rows. *)
Theorem normalize_row_projects_and_skips :
  forall (rt : runtime) (headers : list string) (row : dict),
    List.length (_normalize_row rt headers row) = List.length headers /\
    (forall i h,
        nth_error headers i = Some h ->
        nth_error (_normalize_row rt headers row) i =
        Some (match get row h with
              | VList l => VStr (Str.join ", " (map (py_str rt) l))
              | VDict d => VStr (json_dumps rt (VDict d))
              | v => v
              end)) /\
    (forall key,
        PyDict.lookup row key = None \/ get row key = VNone \/ get row key = VStr "" ->
        truthy (get row key) = false) /\
    (forall key,
        truthy (get row key) = false ->
        forall ws rows1 rows2 batch_size index,
          planned_update rt headers key index row = [] /\
          planned_append rt headers key index row = [] /\
          (forall st, plan_step rt headers key index st row = st) /\
          plan rt headers key index (rows1 ++ row :: rows2)
          = plan rt headers key index (rows1 ++ rows2) /\
          upsert_rows rt ws headers (rows1 ++ row :: rows2) key batch_size
          = upsert_rows rt ws headers (rows1 ++ rows2) key batch_size) /\
    (forall key,
        truthy (get row key) = true ->
        forall ws rows1 rows2 batch_size,
          (0 < batch_size)%Z ->
          let rows := rows1 ++ row :: rows2 in
          let index := read_index_by_key (fst (ensure_headers rt (ws, []) headers)) key in
          exists s,
            upsert_rows rt ws headers rows key batch_size = Ok s /\
            map (fun u => (row_num u, values u)) (range_updates (snd s))
            = flat_map (planned_update rt headers key index) rows /\
            appended_rows (snd s) = flat_map (planned_append rt headers key index) rows /\
            List.length (range_updates (snd s)) + List.length (appended_rows (snd s))
            = List.length (keyed key rows) /\
            match PyDict.lookup index (py_str rt (get row key)) with
            | Some (S n) =>
                In (S n, _normalize_row rt headers row)
                   (map (fun u => (row_num u, values u)) (range_updates (snd s)))
            | _ => In (_normalize_row rt headers row) (appended_rows (snd s))
            end).
Proof.
  intros rt headers row. split; [apply normalize_row_length|]. split; [|split; [|split]].
  - intros i h Hi. rewrite normalize_row_map.
    rewrite nth_error_map, Hi. simpl. f_equal.
    unfold normalize_cell. destruct (get row h); reflexivity.
  - intros key Hk. now apply falsy_key.
  - intros key Hk ws rows1 rows2 batch_size index.
    split; [unfold planned_update; now rewrite Hk|].
    split; [unfold planned_append; now rewrite Hk|].
    split; [intros st; now apply plan_step_skip|].
    split.
    + now apply plan_skip.
    + unfold upsert_rows. now rewrite plan_skip.
  - intros key Hk ws rows1 rows2 bz Hb rows index.
    destruct (QueueFacts.upsert_rows_queues rt ws headers rows key bz Hb)
      as (s & E & Hu & Ha).
    fold index in Hu, Ha.
    exists s. split; [exact E|]. split; [exact Hu|]. split; [exact Ha|]. split.
    + rewrite <- (length_map (fun u => (row_num u, values u))), Hu, Ha.
      apply QueueFacts.planned_once.
    + assert (Hin : In row rows) by (apply in_or_app; right; now left).
      destruct (PyDict.lookup index (py_str rt (get row key))) as [[|n]|] eqn:El.
      * rewrite Ha. apply in_flat_map. exists row. split; [exact Hin|].
        unfold planned_append. rewrite Hk, El. now left.
      * rewrite Hu. apply in_flat_map. exists row. split; [exact Hin|].
        unfold planned_update. rewrite Hk, El. now left.
      * rewrite Ha. apply in_flat_map. exists row. split; [exact Hin|].
        unfold planned_append. rewrite Hk, El. now left.
Qed.

Lemma normalize_row_projects_and_skips_witness :
  nth_error ["id"; "tags"; "meta"; "n"] 1 = Some "tags" /\
  nth_error (_normalize_row example_runtime ["id"; "tags"; "meta"; "n"] example_record) 1
  = Some (VStr "rust, 3") /\
  PyDict.lookup example_record "job_id" = None /\
  upsert_rows example_runtime example_sheet ["id"; "x"] [example_record] "job_id" 200
  = upsert_rows example_runtime example_sheet ["id"; "x"] [] "job_id" 200 /\
  truthy (get example_record "id") = true /\
  (0 < 200)%Z /\
  exists s,
    upsert_rows example_runtime example_sheet ["id"; "tags"; "meta"; "n"]
      [example_record] "id" 200 = Ok s /\
    appended_rows (snd s) = [[VStr "k1"; VStr "rust, 3"; VStr "{}"; VNone]] /\
    range_updates (snd s) = [].
Proof.
  destruct (normalize_row_projects_and_skips example_runtime
              ["id"; "tags"; "meta"; "n"] example_record) as (_ & Hcell & _ & _ & Hkeyed).
  destruct (normalize_row_projects_and_skips example_runtime
              ["id"; "x"] example_record) as (_ & _ & Hfalsy & Hskip & _).
  assert (H1 : nth_error ["id"; "tags"; "meta"; "n"] 1 = Some "tags") by reflexivity.
  assert (H2 : PyDict.lookup example_record "job_id" = None) by reflexivity.
  assert (H3 : truthy (get example_record "id") = true) by reflexivity.
  assert (H4 : (0 < 200)%Z) by reflexivity.
  split; [exact H1|]. split; [exact (Hcell 1 "tags" H1)|]. split; [exact H2|].
  split.
  { exact (proj2 (proj2 (proj2 (proj2
             (Hskip "job_id" (Hfalsy "job_id" (or_introl H2)) example_sheet [] [] 200%Z []))))). }
  split; [exact H3|]. split; [exact H4|].
  destruct (Hkeyed "id" H3 example_sheet [] [] 200%Z H4) as (s & E & Hu & Ha & _).
  exists s. split; [exact E|]. split.
  - rewrite Ha. reflexivity.
  - destruct (range_updates (snd s)) as [|u l]; [reflexivity|]. discriminate Hu.
Defined.

(** X2: The batch size of [upsert_rows]: a size of zero raises
    ValueError for every input; with a negative size the two loops make
    no turn, so the push writes the header row at most and drops every
    record without an error; with a positive size every batched call
    carries between one and that many entries, no call is empty, and the
    only other call is the one that writes the headers. *)
Theorem upsert_rows_batch_size :
  forall (rt : runtime) (ws : Sheet.t) (headers : list string) (rows : list dict)
         (key : string),
    upsert_rows rt ws headers rows key 0 = Raise ValueError /\
    (forall bz, (bz < 0)%Z ->
       upsert_rows rt ws headers rows key bz = Ok (ensure_headers rt (ws, []) headers)) /\
    (forall bz s, (0 < bz)%Z ->
       upsert_rows rt ws headers rows key bz = Ok s ->
       Forall (call_within headers (Z.to_nat bz)) (snd s)).
Proof.
  intros rt ws headers rows key. split; [|split].
  - unfold upsert_rows.
    destruct (plan rt headers key _ rows) as [us aps]. reflexivity.
  - intros bz Hb. unfold upsert_rows.
    destruct (plan rt headers key _ rows) as [us aps]. unfold batches.
    destruct (Z.eqb_spec bz 0); [lia|]. destruct (Z.ltb_spec bz 0); [|lia]. reflexivity.
  - intros bz s Hb Hs.
    destruct (BatchFacts.upsert_rows_calls rt ws headers rows key bz Hb)
      as (uchunks & achunks & _ & _ & Hsu & Hsa & E).
    rewrite E in Hs. injection Hs as <-. cbn [snd].
    apply Forall_app; split; [apply Forall_app; split|].
    + apply BatchFacts.ensure_headers_calls.
    + apply Forall_forall. intros c Hc. apply in_map_iff in Hc. destruct Hc as (ch & <- & Hin).
      cbn [call_within]. rewrite length_map.
      exact (proj1 (Forall_forall _ _) Hsu ch Hin).
    + apply Forall_forall. intros c Hc. apply in_map_iff in Hc. destruct Hc as (ch & <- & Hin).
      cbn [call_within]. exact (proj1 (Forall_forall _ _) Hsa ch Hin).
Qed.

(* ================================================================== *)
(** ** The rows a push leaves alone *)

Module FrameFacts.

Lemma set_row_length :
  forall n f (w : Sheet.t), n < List.length w -> List.length (Sheet.set_row n f w) = List.length w.
Proof.
  induction n as [|n IH]; intros f [|r w] H; cbn [List.length Sheet.set_row] in *; try lia.
  rewrite IH by lia. reflexivity.
Qed.

Lemma set_row_length_le :
  forall n f (w : Sheet.t), List.length w <= List.length (Sheet.set_row n f w).
Proof.
  induction n as [|n IH]; intros f [|r w]; cbn [List.length Sheet.set_row]; try lia.
  specialize (IH f w). lia.
Qed.

Lemma cell_inside :
  forall (w : Sheet.t) i j, cell w i j <> "" -> i - 1 < List.length w.
Proof.
  intros w i j H. destruct (Nat.lt_ge_cases (i - 1) (List.length w)) as [|Hge]; [assumption|].
  exfalso. apply H. unfold cell. rewrite (nth_overflow w [] Hge). now destruct (j - 1).
Qed.

Lemma index_inside :
  forall (w : Sheet.t) key v i,
    PyDict.lookup (read_index_by_key w key) v = Some i -> 2 <= i /\ i - 1 < List.length w.
Proof.
  intros w key v i H.
  destruct (index_of key (Sheet.row_values w 1)) as [c|] eqn:E.
  - apply (read_index_cells w key c v i E) in H. destruct H as (Hv & Hi & Hc & _).
    split; [exact Hi|]. apply (cell_inside w i (c + 1)). now rewrite Hc.
  - unfold read_index_by_key in H. rewrite E in H. discriminate H.
Qed.

Section Frame.
Variable rt : runtime.

Lemma planned_update_inv :
  forall headers key index rows u,
    In u (flat_map (planned_update rt headers key index) rows) ->
    exists r, In r rows /\ truthy (get r key) = true /\
              PyDict.lookup index (py_str rt (get r key)) = Some (fst u).
Proof.
  intros headers key index rows u H. apply in_flat_map in H. destruct H as (r & Hr & Hu).
  exists r. split; [exact Hr|]. unfold planned_update in Hu.
  destruct (truthy (get r key)); [|destruct Hu].
  destruct (PyDict.lookup index (py_str rt (get r key))) as [[|n]|];
    [destruct Hu | destruct Hu as [<-|[]] | destruct Hu].
  split; reflexivity.
Qed.

Lemma planned_append_length :
  forall headers key index rows,
    List.length (flat_map (planned_append rt headers key index) rows)
    = List.length (filter (fun r => truthy (get r key) && negb (indexed rt key index r)) rows).
Proof.
  intros headers key index. induction rows as [|r rows IH]; [reflexivity|].
  cbn [flat_map filter]. rewrite length_app, IH. unfold planned_append, indexed.
  destruct (truthy (get r key)); [|reflexivity].
  destruct (PyDict.lookup index (py_str rt (get r key))) as [[|n]|]; reflexivity.
Qed.

Lemma fold_updates_length :
  forall us (w : Sheet.t),
    (forall u, In u us -> fst u - 1 < List.length w) ->
    List.length (fold_left (apply_update rt) us w) = List.length w.
Proof.
  induction us as [|u us IH]; intros w H; [reflexivity|]. cbn [fold_left].
  assert (E : List.length (apply_update rt w u) = List.length w).
  { unfold apply_update. apply set_row_length. apply H. now left. }
  rewrite IH; [exact E|]. intros u' Hu'. rewrite E. apply H. now right.
Qed.

Lemma fold_updates_other :
  forall us (w : Sheet.t) n,
    (forall u, In u us -> fst u - 1 <> n) ->
    nth n (fold_left (apply_update rt) us w) [] = nth n w [].
Proof.
  induction us as [|u us IH]; intros w n H; [reflexivity|]. cbn [fold_left].
  rewrite IH by (intros u' Hu'; apply H; now right).
  unfold apply_update. rewrite SheetFacts.nth_set_row.
  destruct (Nat.eqb_spec n (fst u - 1)) as [->|]; [|reflexivity].
  exfalso. now apply (H u (or_introl eq_refl)).
Qed.

Lemma ensure_headers_rows :
  forall ws log headers,
    List.length ws <= List.length (fst (ensure_headers rt (ws, log) headers)) /\
    forall n, 1 <= n -> nth n (fst (ensure_headers rt (ws, log) headers)) [] = nth n ws [].
Proof.
  intros ws log headers. unfold ensure_headers. cbn [fst].
  destruct (list_eq_dec string_dec (Sheet.row_values ws 1) headers) as [e|ne];
    cbn [fst do_call apply_call].
  - split; [lia | reflexivity].
  - split; [apply set_row_length_le|].
    intros n Hn. rewrite SheetFacts.nth_set_row.
    destruct (Nat.eqb_spec n 0); [lia | reflexivity].
Qed.

End Frame.

End FrameFacts.

(** X3: A push with a positive batch size never removes a row and
    leaves alone every data row that no record is looked up to: the
    sheet grows by exactly one row for each record that has a key the
    index does not hold (two such records with the same key give two
    rows), and a row below the header that is not the target of a record
    reads after the push as it did before. *)
Theorem upsert_rows_keeps_rows :
  forall (rt : runtime) (ws : Sheet.t) (headers : list string) (rows : list dict)
         (key : string) (batch_size : Z),
    (0 < batch_size)%Z ->
    let w0 := fst (ensure_headers rt (ws, []) headers) in
    let index := read_index_by_key w0 key in
    exists s,
      upsert_rows rt ws headers rows key batch_size = Ok s /\
      List.length (fst s)
      = List.length w0
        + List.length (filter (fun r => truthy (get r key) && negb (indexed rt key index r))
                              rows) /\
      List.length ws <= List.length (fst s) /\
      (forall i,
          2 <= i <= List.length ws ->
          (forall r, In r rows -> truthy (get r key) = true ->
                     PyDict.lookup index (py_str rt (get r key)) <> Some i) ->
          nth (i - 1) (fst s) [] = nth (i - 1) ws []).
Proof.
  intros rt ws headers rows key bz Hb w0 index.
  destruct (SheetFacts.upsert_rows_pos rt ws headers rows key bz Hb)
    as (uchunks & achunks & _ & _ & _ & E).
  fold w0 in E. fold index in E.
  eexists. split; [exact E|]. cbn [fst].
  set (us := flat_map (planned_update rt headers key index) rows) in *.
  set (aps := flat_map (planned_append rt headers key index) rows) in *.
  assert (Hin : forall u, In u us -> 2 <= fst u /\ fst u - 1 < List.length w0).
  { intros u Hu. apply FrameFacts.planned_update_inv in Hu.
    destruct Hu as (r & _ & _ & Hl). exact (FrameFacts.index_inside _ _ _ _ Hl). }
  assert (Hlen : List.length (fold_left (apply_update rt) us w0) = List.length w0).
  { apply FrameFacts.fold_updates_length. intros u Hu. apply (Hin u Hu). }
  assert (Hle : List.length ws <= List.length w0)
    by exact (proj1 (FrameFacts.ensure_headers_rows rt ws [] headers)).
  assert (Hrows : forall n, 1 <= n -> nth n w0 [] = nth n ws [])
    by exact (proj2 (FrameFacts.ensure_headers_rows rt ws [] headers)).
  split; [|split].
  - rewrite length_app, length_map, Hlen. unfold aps.
    now rewrite FrameFacts.planned_append_length.
  - rewrite length_app, Hlen. lia.
  - intros i Hi Hfree.
    rewrite app_nth1 by (rewrite Hlen; lia).
    rewrite FrameFacts.fold_updates_other.
    + apply Hrows. lia.
    + intros u Hu E'. destruct (Hin u Hu) as [H2 _].
      apply FrameFacts.planned_update_inv in Hu. destruct Hu as (r & Hr & Ht & Hl).
      apply (Hfree r Hr Ht). rewrite Hl. f_equal. lia.
Qed.

Lemma upsert_rows_keeps_rows_witness :
  (0 < 200)%Z /\
  exists s,
    upsert_rows example_runtime example_sheet ["id"; "x"]
      [[("id", VStr "b"); ("x", VInt 7)]; [("id", VStr "n"); ("x", VInt 1)];
       [("id", VStr "n"); ("x", VInt 2)]] "id" 200 = Ok s /\
    List.length (fst s) = 7 /\
    nth 1 (fst s) [] = ["a"; "1"] /\
    nth 3 (fst s) [] = ["b"; "7"].
Proof.
  split; [lia|].
  destruct (upsert_rows_keeps_rows example_runtime example_sheet ["id"; "x"]
              [[("id", VStr "b"); ("x", VInt 7)]; [("id", VStr "n"); ("x", VInt 1)];
               [("id", VStr "n"); ("x", VInt 2)]] "id" 200 ltac:(lia))
    as (s & E & Hlen & _ & Hrow).
  exists s. split; [exact E|]. split; [exact Hlen|].
  split.
  - apply (Hrow 2); [vm_compute; lia|].
    intros r [<-|[<-|[<-|[]]]] _; vm_compute; discriminate.
  - vm_compute in E. injection E as <-. reflexivity.
Defined.

(* ================================================================== *)
(** ** The header row *)

Module HeaderFacts.

Lemma trim_all_empty :
  forall t, (forall k, nth k t "" = "") -> Sheet.trim t = [].
Proof.
  induction t as [|x t IH]; intros H; [reflexivity|]. cbn [Sheet.trim].
  rewrite IH by (intros k; exact (H (S k))).
  specialize (H 0). cbn [nth] in H. subst x. reflexivity.
Qed.

Lemma trim_app_empty :
  forall h t, (forall k, nth k t "" = "") -> Sheet.trim (h ++ t) = Sheet.trim h.
Proof.
  induction h as [|x h IH]; intros t H; cbn [app Sheet.trim].
  - now apply trim_all_empty.
  - now rewrite IH.
Qed.

Lemma trim_reaches :
  forall l j, nth j l "" <> "" -> j < List.length (Sheet.trim l).
Proof.
  intros l j H. destruct (Nat.lt_ge_cases j (List.length (Sheet.trim l))) as [|Hge]; [assumption|].
  exfalso. apply H. rewrite <- trim_nth. now apply nth_overflow.
Qed.

Section Headers.
Variable rt : runtime.

(** A cell of row 1 to the right of the headers survives the write,
    and the row then differs from the headers. *)
Lemma stale_cell :
  forall (ws : Sheet.t) (log : list call) headers j,
    List.length headers <= j ->
    nth j (nth 0 ws []) "" <> "" ->
    ensure_headers rt (ws, log) headers = do_call rt (ws, log) (Update headers) /\
    nth j (nth 0 (fst (do_call rt (ws, log) (Update headers))) []) "" = nth j (nth 0 ws []) "".
Proof.
  intros ws log headers j Hj Hne. split.
  - unfold ensure_headers. cbn [fst].
    destruct (list_eq_dec string_dec (Sheet.row_values ws 1) headers) as [e|ne]; [|reflexivity].
    exfalso. apply trim_reaches in Hne.
    change (Sheet.trim (nth 0 ws []) = headers) in e. rewrite e in Hne. lia.
  - cbn [do_call fst apply_call]. rewrite SheetFacts.nth_set_row. cbn [Nat.eqb].
    rewrite SheetFacts.overwrite_some.
    rewrite app_nth2 by lia. rewrite nth_skipn. f_equal. lia.
Qed.

Lemma written_row :
  forall (ws : Sheet.t) (log : list call) headers,
    Sheet.trim headers = headers ->
    (forall j, List.length headers <= j -> nth j (nth 0 ws []) "" = "") ->
    Sheet.row_values (fst (do_call rt (ws, log) (Update headers))) 1 = headers.
Proof.
  intros ws log headers Ht Hfree.
  change (Sheet.row_values ?w 1) with (Sheet.trim (nth 0 w [])).
  cbn [do_call fst apply_call].
  rewrite SheetFacts.nth_set_row. cbn [Nat.eqb]. rewrite SheetFacts.overwrite_some.
  rewrite trim_app_empty; [exact Ht|].
  intros k. rewrite nth_skipn. apply Hfree. lia.
Qed.

End Headers.

End HeaderFacts.

(** X4: [ensure_headers] writes the headers over the first cells of
    row 1 and nothing else: the data rows keep their cells, and a second
    call finds the row in place and makes no call exactly when row 1 had
    no text to the right of the headers.  A header cell left over from a
    longer header row is never cleared, so with such a cell every call
    writes the header row again. *)
Theorem ensure_headers_settles :
  forall (rt : runtime) (ws : Sheet.t) (log : list call) (headers : list string),
    Sheet.trim headers = headers ->
    let s1 := ensure_headers rt (ws, log) headers in
    (ensure_headers rt s1 headers = s1 <->
     forall j, List.length headers <= j -> nth j (nth 0 ws []) "" = "") /\
    (forall j, List.length headers <= j -> nth j (nth 0 ws []) "" <> "" ->
               snd (ensure_headers rt s1 headers) = log ++ [Update headers; Update headers] /\
               nth j (nth 0 (fst (ensure_headers rt s1 headers)) []) "" = nth j (nth 0 ws []) "") /\
    (forall i j, 2 <= i -> cell (fst s1) i j = cell ws i j) /\
    headed headers (fst s1).
Proof.
  intros rt ws log headers Ht s1.
  assert (Hstale : forall j, List.length headers <= j -> nth j (nth 0 ws []) "" <> "" ->
            snd (ensure_headers rt s1 headers) = log ++ [Update headers; Update headers] /\
            nth j (nth 0 (fst (ensure_headers rt s1 headers)) []) "" = nth j (nth 0 ws []) "" /\
            snd s1 = log ++ [Update headers]).
  { intros j Hj Hne. subst s1.
    destruct (HeaderFacts.stale_cell rt ws log headers j Hj Hne) as [E1 K1].
    rewrite E1.
    set (s := do_call rt (ws, log) (Update headers)) in *.
    assert (Hne1 : nth j (nth 0 (fst s) []) "" <> "") by (rewrite K1; exact Hne).
    destruct (HeaderFacts.stale_cell rt (fst s) (snd s) headers j Hj Hne1) as [E2 K2].
    rewrite <- surjective_pairing in E2, K2.
    rewrite E2. split; [|split].
    - subst s. cbn [do_call snd]. rewrite <- app_assoc. reflexivity.
    - rewrite K2. exact K1.
    - reflexivity. }
  split; [split|split; [|split]].
  - intros Hfix j Hj.
    destruct (String.eqb_spec (nth j (nth 0 ws []) "") "") as [e|ne]; [exact e|].
    exfalso. destruct (Hstale j Hj ne) as (H2 & _ & H1).
    rewrite Hfix, H1 in H2. apply (f_equal (@List.length call)) in H2.
    rewrite !length_app in H2. cbn [List.length] in H2. lia.
  - intros Hfree. subst s1.
    destruct (list_eq_dec string_dec (Sheet.row_values ws 1) headers) as [e|ne].
    + assert (E : ensure_headers rt (ws, log) headers = (ws, log)).
      { unfold ensure_headers. cbn [fst].
        destruct (list_eq_dec string_dec (Sheet.row_values ws 1) headers);
          [reflexivity | contradiction]. }
      rewrite !E. reflexivity.
    + assert (E : ensure_headers rt (ws, log) headers = do_call rt (ws, log) (Update headers)).
      { unfold ensure_headers. cbn [fst].
        destruct (list_eq_dec string_dec (Sheet.row_values ws 1) headers);
          [contradiction | reflexivity]. }
      rewrite E. unfold ensure_headers.
      destruct (list_eq_dec string_dec _ headers) as [e'|ne']; [reflexivity|].
      exfalso. apply ne'. now apply HeaderFacts.written_row.
  - intros j Hj Hne. destruct (Hstale j Hj Hne) as (H2 & K & _). now split.
  - intros i j Hi. apply SheetFacts.ensure_headers_cells. exact Hi.
  - apply SheetFacts.ensure_headers_headed.
Qed.

Lemma ensure_headers_settles_witness :
  Sheet.trim ["id"; "x"] = ["id"; "x"] /\
  ensure_headers example_runtime
    (ensure_headers example_runtime ([["job"]; ["a"; "1"]], []) ["id"; "x"]) ["id"; "x"]
  = ([["id"; "x"]; ["a"; "1"]], [Update ["id"; "x"]]) /\
  snd (ensure_headers example_runtime
         (ensure_headers example_runtime ([["id"; "x"; "old"]], []) ["id"; "x"]) ["id"; "x"])
  = [Update ["id"; "x"]; Update ["id"; "x"]].
Proof.
  split; [reflexivity|]. split.
  - destruct (ensure_headers_settles example_runtime [["job"]; ["a"; "1"]] [] ["id"; "x"]
                eq_refl) as [[_ Hfix] _].
    refine (eq_trans (Hfix _) eq_refl).
    intros [|[|j]] Hj; cbn [List.length] in Hj; try lia; now destruct j.
  - destruct (ensure_headers_settles example_runtime [["id"; "x"; "old"]] [] ["id"; "x"]
                eq_refl) as (_ & Hstale & _).
    exact (proj1 (Hstale 2 ltac:(cbn; lia) ltac:(cbn; discriminate))).
Defined.

(* ================================================================== *)
(** ** The record [flatten_record] returns, and when it returns *)

Module ReturnFacts.

Lemma attr_get_ok :
  forall v k x, attr_get v k = Ok x -> exists d, v = VDict d /\ x = get d k.
Proof. intros [] k x H; try discriminate H. injection H as <-. eauto. Qed.

Lemma takes_get_dict :
  forall v, takes_get v = true <-> exists d, py_or v (VDict []) = VDict d.
Proof.
  intros v. unfold takes_get, py_or. split.
  - intros H. destruct (truthy v) eqn:T; [|eauto].
    destruct v; try discriminate H. eauto.
  - intros [d H]. destruct (truthy v) eqn:T; [|reflexivity]. subst v. reflexivity.
Qed.

Section Flatten.
Variable rt : runtime.

Lemma safe_float_returns :
  forall v, (exists x, safe_float rt v = Ok x) <-> float_overflows v = false.
Proof.
  intros v. unfold safe_float, py_float, float_overflows. split.
  - intros [x H]. destruct v; try reflexivity.
    destruct (float_of_int z); [reflexivity | discriminate H].
  - intros H. destruct v as [|b|z|f|s|l|d]; try (eexists; reflexivity).
    + destruct (float_of_int z); [eexists; reflexivity | discriminate H].
    + destruct (float_of_str rt s); eexists; reflexivity.
Qed.

Lemma job_type_cases :
  forall v x, get_job_type v = Ok x -> hashable v = true /\
                 (x = VNone \/ x = VStr "fixed" \/ x = VStr "hourly").
Proof.
  intros v x. unfold get_job_type. destruct (hashable v); [|discriminate].
  intros H. injection H as <-. split; [reflexivity|].
  destruct (eq_int v 1); [auto|]. destruct (eq_int v 2); auto.
Qed.

Lemma takes_get_or_empty :
  forall record k, takes_get (get record k) = is_dict (get_or_empty record k).
Proof.
  intros record k. unfold takes_get, get_or_empty, py_or.
  destruct (truthy (get record k)) eqn:T; [reflexivity|].
  cbn [negb orb is_dict]. reflexivity.
Qed.

End Flatten.

Ltac binds_of H :=
  repeat match type of H with
         | context [match ?x with Ok _ => _ | Raise _ => _ end] =>
             destruct x eqn:?; try discriminate H
         end.

Ltac dicts_of_gets :=
  repeat match goal with
         | H : attr_get _ _ = Ok _ |- _ =>
             apply attr_get_ok in H; destruct H as (? & ? & ?)
         end.

End ReturnFacts.

(** X5: The record [flatten_record] returns has the same twenty-seven
    keys in the same order whatever the input gave; its currency is
    never empty (it falls back to USD), its [is_applied] is a boolean and
    its [job_type] is [None], fixed or hourly. *)
Theorem flatten_record_fields :
  forall (rt : runtime) (record j : dict),
    flatten_record rt record = Ok j ->
    PyDict.keys j = flat_fields /\
    truthy (get j "currency") = true /\
    (exists b, get j "is_applied" = VBool b) /\
    (get j "job_type" = VNone \/ get j "job_type" = VStr "fixed" \/
     get j "job_type" = VStr "hourly").
Proof.
  intros rt record j H. unfold flatten_record, bind in H.
  ReturnFacts.binds_of H. injection H as <-.
  split; [reflexivity|]. split; [|split].
  - unfold get. simpl.
    match goal with
    | |- truthy ?cur = true =>
        match goal with
        | E : (if truthy ?c then _ else _) = Ok cur |- _ =>
            destruct (truthy c) eqn:T; [injection E as <-; exact T|];
            match type of E with
            | match ?x with Ok _ => _ | Raise _ => _ end = _ =>
                destruct x as [c2|]; [injection E as <- | discriminate E]
            end;
            unfold py_or; destruct (truthy c2) eqn:T'; [exact T' | reflexivity]
        end
    end.
  - unfold get. simpl. eauto.
  - unfold get. simpl.
    match goal with
    | E : get_job_type _ = Ok _ |- _ => exact (proj2 (ReturnFacts.job_type_cases _ _ E))
    end.
Qed.

Lemma flatten_record_fields_witness :
  flatten_record example_runtime (payload "x") = Ok (flattened "x") /\
  PyDict.keys (flattened "x") = flat_fields /\
  truthy (get (flattened "x") "currency") = true.
Proof.
  assert (E : flatten_record example_runtime (payload "x") = Ok (flattened "x"))
    by reflexivity.
  split; [exact E|].
  destruct (flatten_record_fields example_runtime (payload "x") (flattened "x") E)
    as (Hk & Hc & _).
  split; [exact Hk | exact Hc].
Defined.

(** X6: When [flatten_record] returns and when it raises: it returns
    exactly when each of [amount], [hourlyBudget], [weeklyBudget] and
    [client] is falsy or a [dict], [type] is hashable, and the client's
    [totalSpent] is not an integer too large for a float.  Nothing else
    in the record can make it raise. *)
Theorem flatten_record_returns_iff :
  forall (rt : runtime) (record : dict),
    (exists j, flatten_record rt record = Ok j) <-> flattens record = true.
Proof.
  intros rt record. unfold flattens. rewrite !ReturnFacts.takes_get_or_empty. split.
  - intros [j H]. unfold flatten_record, bind in H.
    ReturnFacts.binds_of H. clear H.
    match goal with
    | E : get_job_type _ = Ok _ |- _ =>
        rewrite (proj1 (ReturnFacts.job_type_cases _ _ E))
    end.
    match goal with
    | E : safe_float rt ?v = Ok ?x |- _ =>
        pose proof (proj1 (ReturnFacts.safe_float_returns rt v) (ex_intro _ x E)) as Hsf
    end.
    ReturnFacts.dicts_of_gets.
    repeat match goal with
           | E : get_or_empty record ?k = VDict _ |- _ => rewrite E in *; clear E
           | E : VDict _ = VDict _ |- _ => injection E as E; try subst
           end.
    subst. cbn [is_dict andb]. rewrite Hsf. reflexivity.
  - intros H.
    repeat match type of H with
           | (_ && _) = true => apply andb_prop in H; destruct H as [H ?]
           end.
    unfold flatten_record.
    repeat match goal with
           | E : is_dict ?v = true |- _ =>
               destruct v; try discriminate E; clear E
           end.
    cbn [bind attr_get].
    match goal with
    | E : negb (float_overflows ?v) = true |- _ =>
        apply negb_true_iff in E;
        destruct (proj2 (ReturnFacts.safe_float_returns rt v) E) as [sf Esf]; rewrite Esf
    end.
    match goal with
    | E : hashable ?v = true |- _ => unfold get_job_type; rewrite E
    end.
    cbn [bind].
    repeat match goal with
           | |- context [if ?c then Ok _ else _] => destruct c; cbn [bind]
           end;
      eexists; reflexivity.
Qed.

(* ================================================================== *)
(** ** The rows of a batch file *)

Module BatchFileFacts.

Lemma flat_key_str :
  forall r, flat_key r <> None -> exists s, get r "job_id" = VStr s /\ s <> "".
Proof.
  intros r H. unfold flat_key in H. destruct (get r "job_id"); try (now destruct H).
  destruct (String.eqb_spec s ""); [now destruct H|]. eauto.
Qed.

Lemma flat_key_of_job_id :
  forall r,
    flat_key r = match get r "job_id" with
                 | VStr s => if String.eqb s "" then None else Some s
                 | _ => None
                 end.
Proof. reflexivity. Qed.

Lemma flat_map_all :
  forall (A B : Type) (p : A -> bool) (f : A -> B) l,
    Forall (fun x => p x = true) l ->
    flat_map (fun x => if p x then [f x] else []) l = map f l.
Proof.
  intros A B p f l H. induction H as [|x l Hx _ IH]; [reflexivity|].
  cbn [flat_map map]. rewrite Hx, IH. reflexivity.
Qed.

Lemma parse_raises :
  forall name e,
    Filename.parse_filename_metadata name = Raise e -> e = AttributeError \/ e = ValueError.
Proof.
  intros name e. unfold Filename.parse_filename_metadata.
  destruct (Filename.match_filename name) as [gd|]; [|discriminate].
  destruct (Str.isdigit _); cbn [bind].
  - unfold int_of_digit_text. destruct (_ <=? _); cbn [bind].
    + match goal with
      | |- context [match ?x with Some _ => _ | None => Raise AttributeError end] => destruct x
      end; [discriminate|].
      intros H. injection H as <-. now left.
    + intros H. injection H as <-. now right.
  - match goal with
    | |- context [match ?x with Some _ => _ | None => Raise AttributeError end] => destruct x
    end; [discriminate|].
    intros H. injection H as <-. now left.
Qed.

Section Rows.
Variable rt : runtime.

Lemma flatten_all_dicts :
  forall l, flatten_all rt l = flatten_all rt (filter is_dict l).
Proof.
  induction l as [|v l IH]; [reflexivity|].
  destruct v; cbn [flatten_all filter is_dict]; try exact IH.
  now rewrite IH.
Qed.

(** The parts of what [process_json_file] returns. *)
Lemma process_json_file_parts :
  forall path name data jobs srs req,
    process_json_file rt path name data = Ok (jobs, srs, req) ->
    exists sid,
      Forall (fun j => exists s, get j "job_id" = VStr s /\ s <> "") jobs /\
      NoDup (map flat_key jobs) /\
      srs = map (search_result_row sid) jobs /\
      get req "search_id" = VStr sid /\
      get req "filepath" = VStr path.
Proof.
  intros path name data jobs srs req H.
  unfold process_json_file, bind in H.
  ReturnFacts.binds_of H. injection H as <- <- <-.
  match goal with
  | E : flatten_all rt _ = Ok ?js |- _ =>
      pose proof (flatten_all_flat rt _ _ E) as Hflat
  end.
  match goal with
  | E : unique_by_job_id ?js = Ok ?out |- _ =>
      destruct (unique_by_job_id_first_wins js Hflat) as (out' & E' & [Hnd _] & Hfirst);
      rewrite E in E'; injection E' as <-
  end.
  match goal with
  | |- context [Filename.search_id ?m] => exists (Filename.search_id m)
  end.
  match goal with
  | |- Forall _ ?jobs /\ _ =>
      assert (Hstr : Forall (fun j => exists s, get j "job_id" = VStr s /\ s <> "") jobs)
  end.
  { apply Forall_forall. intros j Hj. apply flat_key_str.
    destruct (Hfirst j Hj) as (pre & post & _ & Hk & _). exact Hk. }
  split; [exact Hstr|]. split; [exact Hnd|]. split; [|split; reflexivity].
  apply (flat_map_all _ _ (fun j => truthy (get j "job_id"))).
  eapply Forall_impl; [|exact Hstr]. intros j (s & -> & Hs). cbn [truthy].
  now destruct (String.eqb_spec s "").
Qed.

End Rows.

End BatchFileFacts.

(** X7: The three results of [process_json_file] fit together: there
    is exactly one search result row for each job row, in the same
    order and with the same job id; every search result row carries the
    search id of the scrape request; the job ids of the job rows are
    non-empty strings and no two rows share one; the request records the
    path it was given. *)
Theorem process_json_file_rows_agree :
  forall (rt : runtime) (path name : string) (data : value)
         (jobs srs : list dict) (req : dict),
    process_json_file rt path name data = Ok (jobs, srs, req) ->
    map (fun r => get r "job_id") srs = map (fun j => get j "job_id") jobs /\
    Forall (fun r => get r "search_id" = get req "search_id" /\ PyDict.keys r = sr_fields) srs /\
    Forall (fun j => exists s, get j "job_id" = VStr s /\ s <> "") jobs /\
    NoDup (map (fun j => get j "job_id") jobs) /\
    get req "filepath" = VStr path.
Proof.
  intros rt path name data jobs srs req H.
  destruct (BatchFileFacts.process_json_file_parts rt _ _ _ _ _ _ H)
    as (sid & Hstr & Hnd & -> & Hreq & Hpath).
  split; [|split; [|split; [|split]]].
  - rewrite map_map. reflexivity.
  - apply Forall_forall. intros r Hr. apply in_map_iff in Hr. destruct Hr as (j & <- & _).
    rewrite Hreq. split; reflexivity.
  - exact Hstr.
  - apply (NoDup_map_inv (fun v => match v with
                                   | VStr s => if String.eqb s "" then None else Some s
                                   | _ => None
                                   end)).
    rewrite map_map. exact Hnd.
  - exact Hpath.
Qed.

Lemma process_json_file_rows_agree_witness :
  exists jobs srs req,
    process_json_file example_runtime "/data/20250810112529289-data ai engineer-page3.json"
      "20250810112529289-data ai engineer-page3.json"
      (VList [VDict (payload "first"); VInt 3; VDict (payload "second")])
    = Ok (jobs, srs, req) /\
    map (fun r => get r "job_id") srs = [VStr "123"] /\
    map (fun j => get j "job_id") jobs = [VStr "123"].
Proof.
  eexists. eexists. eexists.
  assert (E : process_json_file example_runtime
                "/data/20250810112529289-data ai engineer-page3.json"
                "20250810112529289-data ai engineer-page3.json"
                (VList [VDict (payload "first"); VInt 3; VDict (payload "second")])
              = Ok ([flattened "first"],
                    [[("search_id", VStr "20250810112529289-data ai engineer-page3");
                      ("job_id", VStr "123"); ("proposals_tier", VNone);
                      ("is_applied", VBool false)]],
                    [("search_id", VStr "20250810112529289-data ai engineer-page3");
                     ("query", VStr "data ai engineer"); ("page", VInt 3);
                     ("filepath", VStr "/data/20250810112529289-data ai engineer-page3.json");
                     ("query_timestamp", VStr "2025-08-10T11:25:29.289000+00:00")]))
    by (vm_compute; reflexivity).
  split; [exact E|].
  destruct (process_json_file_rows_agree _ _ _ _ _ _ _ E) as (Hm & _).
  split; [exact Hm | reflexivity].
Defined.

(** X8: [process_json_file] on contents that are not a list of
    records, for a file name of ASCII characters.  The name is parsed
    first: what [parse_filename_metadata] raises on it, AttributeError
    or ValueError, is raised whatever the contents.  Once the name has
    parsed, a file whose top level is neither a list nor an object
    raises AttributeError; an object whose [jobs] is null, a boolean or
    a number raises TypeError; an object without [jobs] gives no row at
    all; and the items of the list that are not objects are skipped as
    if they were not there. *)
Theorem process_json_file_malformed :
  forall (rt : runtime) (path name : string),
    Str.is_ascii name = true ->
    (forall data e,
       Filename.parse_filename_metadata name = Raise e ->
       process_json_file rt path name data = Raise e /\
       (e = AttributeError \/ e = ValueError)) /\
    (forall data meta,
       Filename.parse_filename_metadata name = Ok meta ->
       is_list data = false -> is_dict data = false ->
       process_json_file rt path name data = Raise AttributeError) /\
    (forall d v meta,
       Filename.parse_filename_metadata name = Ok meta ->
       PyDict.lookup d "jobs" = Some v -> not_iterable v = true ->
       process_json_file rt path name (VDict d) = Raise TypeError) /\
    (forall d meta,
       Filename.parse_filename_metadata name = Ok meta ->
       PyDict.lookup d "jobs" = None ->
       exists req, process_json_file rt path name (VDict d) = Ok ([], [], req)) /\
    (forall l,
       process_json_file rt path name (VList l)
       = process_json_file rt path name (VList (filter is_dict l))).
Proof.
  intros rt path name _. split; [|split; [|split; [|split]]].
  - intros data e E. split; [|exact (BatchFileFacts.parse_raises name e E)].
    unfold process_json_file. now rewrite E.
  - intros data meta E Hl Hd. unfold process_json_file. rewrite E. cbn [bind].
    destruct data; try discriminate; reflexivity.
  - intros d v meta E Hv Hn. unfold process_json_file. rewrite E, Hv. cbn [bind].
    destruct v; try discriminate Hn; reflexivity.
  - intros d meta E Hv. unfold process_json_file. rewrite E, Hv. cbn [bind iter_values flatten_all].
    eexists. reflexivity.
  - intros l. unfold process_json_file.
    destruct (Filename.parse_filename_metadata name) as [meta|e]; [|reflexivity].
    cbn [bind iter_values]. now rewrite (BatchFileFacts.flatten_all_dicts rt l).
Qed.

Lemma process_json_file_malformed_witness :
  Str.is_ascii "20250431112529289-q-page3.json" = true /\
  Filename.parse_filename_metadata "20250431112529289-q-page3.json" = Raise AttributeError /\
  process_json_file example_runtime "/data/20250431112529289-q-page3.json"
    "20250431112529289-q-page3.json" (VList []) = Raise AttributeError /\
  Str.is_ascii "notes.json" = true /\
  process_json_file example_runtime "/data/notes.json" "notes.json"
    (VDict [("jobs", VInt 3)]) = Raise TypeError.
Proof.
  assert (H1 : Str.is_ascii "20250431112529289-q-page3.json" = true) by reflexivity.
  assert (H2 : Filename.parse_filename_metadata "20250431112529289-q-page3.json"
               = Raise AttributeError) by (vm_compute; reflexivity).
  assert (H3 : Str.is_ascii "notes.json" = true) by reflexivity.
  split; [exact H1|]. split; [exact H2|]. split; [|split; [exact H3|]].
  - destruct (process_json_file_malformed example_runtime
                "/data/20250431112529289-q-page3.json" _ H1) as (Hraise & _).
    exact (proj1 (Hraise (VList []) _ H2)).
  - destruct (process_json_file_malformed example_runtime "/data/notes.json" _ H3)
      as (_ & _ & Htype & _).
    apply (Htype _ (VInt 3) {| Filename.search_id := "notes";
                               Filename.query_timestamp := None;
                               Filename.query := None; Filename.page := None |});
      reflexivity.
Defined.

(* ================================================================== *)
(** ** The fallback of [parse_filename_metadata] *)

Module FallbackFacts.

Lemma starts_with_digits_app :
  forall d s n,
    Str.all_chars Str.is_digit d = true -> n <= String.length d ->
    starts_with_digits n (d ++ s) = true.
Proof.
  induction d as [|c d IH]; intros s n Hd Hn; cbn [String.length] in Hn.
  - assert (n = 0) by lia. subst. reflexivity.
  - destruct n as [|n]; [reflexivity|]. cbn [append starts_with_digits Str.all_chars] in *.
    apply andb_prop in Hd. destruct Hd as [Hc Hd]. rewrite Hc. apply IH; [exact Hd | lia].
Qed.

Lemma name_starts_with_digits :
  forall tail s g x,
    Re.run (name_re tail) s g k_end = Some x -> starts_with_digits 14 s = true.
Proof.
  intros tail s g x H. unfold name_re, sid_group in H. cbn [Re.run] in H.
  apply ReFacts.greedy_sound in H. destruct H as (d & s1 & -> & Hd & Hlen & _).
  now apply starts_with_digits_app.
Qed.

Lemma match_none_without_digits :
  forall name, starts_with_digits 14 name = false -> Filename.match_filename name = None.
Proof.
  intros name H. unfold Filename.match_filename, Re.match_, Re.match_prefix.
  rewrite ReFacts.strict_re_name, ReFacts.relaxed_re_name.
  destruct (Re.run (name_re tail_strict) name [] _) as [x|] eqn:E1.
  - apply name_starts_with_digits in E1. congruence.
  - cbn [option_map].
    destruct (Re.run (name_re tail_relaxed) name [] _) as [x|] eqn:E2; [|reflexivity].
    apply name_starts_with_digits in E2. congruence.
Qed.

Lemma rfind_app :
  forall c a b,
    Str.contains c b = false -> Str.rfind c (a ++ String c b) = Some (String.length a).
Proof.
  intros c a b Hb.
  assert (Hn : Str.rfind c b = None).
  { induction b as [|x b IH]; [reflexivity|]. cbn [Str.contains Str.rfind] in *.
    apply orb_false_iff in Hb. destruct Hb as [Hx Hb]. now rewrite (IH Hb), Hx. }
  induction a as [|x a IH]; cbn [append Str.rfind String.length].
  - rewrite Hn, Ascii.eqb_refl. reflexivity.
  - rewrite IH. reflexivity.
Qed.

End FallbackFacts.

(** X9: The fallback of [parse_filename_metadata]: a name of ASCII
    characters that does not start with fourteen digits matches neither
    pattern, so the function returns without raising, with the stem of
    the name as the search id and no timestamp, query or page; for a
    name with a proper suffix the stem is what precedes the last dot. *)
Theorem parse_filename_metadata_fallback :
  forall name : string,
    Str.is_ascii name = true ->
    starts_with_digits 14 name = false ->
    Filename.parse_filename_metadata name
    = Ok {| Filename.search_id := Filename.stem name;
            Filename.query_timestamp := None;
            Filename.query := None;
            Filename.page := None |} /\
    (forall base ext,
        name = (base ++ "." ++ ext)%string ->
        base <> "" -> ext <> "" -> Str.contains "."%char ext = false ->
        Filename.stem name = base).
Proof.
  intros name _ H. split.
  - unfold Filename.parse_filename_metadata.
    now rewrite (FallbackFacts.match_none_without_digits name H).
  - intros base ext -> Hb He Hc. unfold Filename.stem.
    change (base ++ "." ++ ext)%string with (base ++ String "."%char ext)%string.
    rewrite (FallbackFacts.rfind_app _ base ext Hc).
    rewrite ReFacts.length_append. cbn [String.length].
    assert (0 < String.length base) by (destruct base; [congruence | cbn; lia]).
    assert (0 < String.length ext) by (destruct ext; [congruence | cbn; lia]).
    destruct (Nat.ltb_spec 0 (String.length base)); [|lia].
    destruct (Nat.ltb_spec (String.length base) (String.length base + S (String.length ext) - 1));
      [|lia].
    cbn [andb]. apply ReFacts.substring_prefix.
Qed.

Lemma parse_filename_metadata_fallback_witness :
  Str.is_ascii "results-2025.json" = true /\
  starts_with_digits 14 "results-2025.json" = false /\
  Filename.parse_filename_metadata "results-2025.json"
  = Ok {| Filename.search_id := "results-2025";
          Filename.query_timestamp := None;
          Filename.query := None;
          Filename.page := None |}.
Proof.
  split; [reflexivity|]. split; [reflexivity|].
  destruct (parse_filename_metadata_fallback "results-2025.json" eq_refl eq_refl)
    as [E Hstem].
  rewrite E. rewrite (Hstem "results-2025" "json" eq_refl); [reflexivity | | | ];
    [discriminate | discriminate | reflexivity].
Defined.

(* ================================================================== *)
(** ** Tags *)

Module TagFacts.

Lemma lazy_gt :
  forall s (g : Re.groupdict),
    Re.lazy_star Re.Dot s
      (fun s' => Re.run (Re.One (Re.Chr ">"%char)) s' g (fun rest g' => Some (g', rest)))
    = option_map (fun rest => (g, rest)) (find_gt s).
Proof.
  induction s as [|a s IH]; intros g; [reflexivity|].
  cbn [Re.lazy_star Re.run Re.cls_match find_gt].
  destruct (Ascii.eqb a ">"%char); [reflexivity|].
  destruct (Ascii.eqb a Str.newline); cbn [negb]; [reflexivity|].
  apply IH.
Qed.

Lemma match_tag :
  forall a s,
    Re.match_prefix html_tag_re (String a s)
    = if Ascii.eqb a "<"%char then option_map (fun rest => ([], rest)) (find_gt s) else None.
Proof.
  intros a s. unfold Re.match_prefix, html_tag_re. cbn [Re.seq Re.run Re.cls_match].
  destruct (Ascii.eqb a "<"%char); [|reflexivity].
  apply lazy_gt.
Qed.

Lemma find_gt_shorter :
  forall s rest, find_gt s = Some rest -> String.length rest < String.length s.
Proof.
  induction s as [|a s IH]; intros rest H; [discriminate|]. cbn [find_gt String.length] in *.
  destruct (Ascii.eqb a ">"%char); [injection H as <-; lia|].
  destruct (Ascii.eqb a Str.newline); [discriminate|].
  specialize (IH rest H). lia.
Qed.

(** One step of the substitution of the tags by nothing. *)
Lemma sub_step :
  forall fuel a s,
    Re.sub_from (S fuel) html_tag_re "" (String a s)
    = if Ascii.eqb a "<"%char
      then match find_gt s with
           | Some rest => Re.sub_from fuel html_tag_re "" rest
           | None => String a (Re.sub_from fuel html_tag_re "" s)
           end
      else String a (Re.sub_from fuel html_tag_re "" s).
Proof.
  intros fuel a s. cbn [Re.sub_from]. rewrite match_tag.
  destruct (Ascii.eqb a "<"%char); [|reflexivity].
  destruct (find_gt s); reflexivity.
Qed.

(** A line without [>] keeps that: nothing in it is taken for a tag. *)
Lemma find_gt_sub_none :
  forall fuel s, find_gt s = None -> find_gt (Re.sub_from fuel html_tag_re "" s) = None.
Proof.
  induction fuel as [|fuel IH]; intros s H; [exact H|].
  destruct s as [|a s]; [reflexivity|]. rewrite sub_step.
  cbn [find_gt] in H.
  destruct (Ascii.eqb a ">"%char) eqn:Egt; [discriminate|].
  destruct (Ascii.eqb a Str.newline) eqn:Enl.
  - destruct (Ascii.eqb a "<"%char) eqn:Elt.
    + apply Ascii.eqb_eq in Elt. subst a. discriminate Enl.
    + cbn [find_gt]. now rewrite Egt, Enl.
  - rewrite H. destruct (Ascii.eqb a "<"%char); cbn [find_gt]; rewrite Egt, Enl; now apply IH.
Qed.

Lemma sub_tag_free :
  forall fuel s,
    String.length s < fuel -> tag_free (Re.sub_from fuel html_tag_re "" s) = true.
Proof.
  induction fuel as [|fuel IH]; intros s Hf; [lia|].
  destruct s as [|a s]; [reflexivity|]. rewrite sub_step. cbn [String.length] in Hf.
  destruct (Ascii.eqb a "<"%char) eqn:Elt.
  - destruct (find_gt s) as [rest|] eqn:Eg.
    + apply IH. apply find_gt_shorter in Eg. lia.
    + cbn [tag_free]. rewrite (find_gt_sub_none fuel s Eg), andb_false_r. cbn [negb andb].
      apply IH. lia.
  - cbn [tag_free]. rewrite Elt. cbn [andb negb]. apply IH. lia.
Qed.

Lemma sub_length :
  forall fuel s, String.length (Re.sub_from fuel html_tag_re "" s) <= String.length s.
Proof.
  induction fuel as [|fuel IH]; intros s; [cbn; lia|].
  destruct s as [|a s]; [cbn; lia|]. rewrite sub_step.
  destruct (Ascii.eqb a "<"%char).
  - destruct (find_gt s) as [rest|] eqn:Eg.
    + apply find_gt_shorter in Eg. specialize (IH rest). cbn [String.length]. lia.
    + cbn [String.length]. specialize (IH s). lia.
  - cbn [String.length]. specialize (IH s). lia.
Qed.

Lemma sub_id :
  forall fuel s, tag_free s = true -> Re.sub_from fuel html_tag_re "" s = s.
Proof.
  induction fuel as [|fuel IH]; intros s H; [reflexivity|].
  destruct s as [|a s]; [reflexivity|]. rewrite sub_step. cbn [tag_free] in H.
  apply andb_prop in H. destruct H as [Ha Hs].
  destruct (Ascii.eqb a "<"%char).
  - destruct (find_gt s); [discriminate Ha|]. now rewrite IH.
  - now rewrite IH.
Qed.

End TagFacts.

(** X10: [strip_html] removes every tag: in the text it returns no
    [<] is followed by a [>] on the same line, so a second pass changes
    nothing; the text is never longer than the input, a text without a
    tag comes back unchanged, and a value that is not a string is
    returned as it is. *)
Theorem strip_html_removes_tags :
  forall v : value,
    strip_html (strip_html v) = strip_html v /\
    (forall s, v = VStr s ->
       exists t, strip_html v = VStr t /\ tag_free t = true /\
                 String.length t <= String.length s /\
                 (tag_free s = true -> t = s)) /\
    (is_str v = false -> strip_html v = v).
Proof.
  intros v. split; [|split].
  - destruct v; try reflexivity. cbn [strip_html]. f_equal. unfold Re.sub at 1.
    apply TagFacts.sub_id. apply TagFacts.sub_tag_free. lia.
  - intros s ->. cbn [strip_html]. eexists. split; [reflexivity|]. split; [|split].
    + apply TagFacts.sub_tag_free. lia.
    + apply TagFacts.sub_length.
    + intros H. now apply TagFacts.sub_id.
  - destruct v; try reflexivity. discriminate.
Qed.

(* ================================================================== *)
(** ** The text helpers of [flatten_record] *)

Module SplitFacts.

Lemma split_nonempty : forall c s, Str.split c s <> [].
Proof.
  intros c [|a s]; cbn [Str.split]; [discriminate|].
  destruct (Ascii.eqb a c); [discriminate|]. destruct (Str.split c s); discriminate.
Qed.

Lemma split_no_sep :
  forall c s p, In p (Str.split c s) -> Str.contains c p = false.
Proof.
  intros c. induction s as [|a s IH]; intros p; cbn [Str.split].
  - intros [<-|[]]. reflexivity.
  - destruct (Ascii.eqb a c) eqn:E.
    + intros [<-|H]; [reflexivity | now apply IH].
    + destruct (Str.split c s) as [|q qs].
      * intros [<-|[]]. cbn [Str.contains]. now rewrite E.
      * intros [<-|H].
        -- cbn [Str.contains]. rewrite E. apply IH. now left.
        -- apply IH. now right.
Qed.

Lemma split_whole :
  forall c s, Str.contains c s = false -> Str.split c s = [s].
Proof.
  intros c. induction s as [|a s IH]; intros H; [reflexivity|].
  cbn [Str.contains Str.split] in *. apply orb_false_iff in H. destruct H as [E H].
  now rewrite E, (IH H).
Qed.

Lemma split_app :
  forall c a b, Str.split c (a ++ String c b) = Str.split c a ++ Str.split c b.
Proof.
  intros c a b. induction a as [|x a IH]; cbn [append Str.split].
  - now rewrite Ascii.eqb_refl.
  - rewrite IH. destruct (Ascii.eqb x c); [reflexivity|].
    pose proof (split_nonempty c a). destruct (Str.split c a); [contradiction | reflexivity].
Qed.

Lemma last_in : forall (A : Type) (l : list A) d, l <> [] -> In (last l d) l.
Proof.
  intros A l d H. destruct (exists_last H) as (l' & x & ->).
  rewrite last_last. apply in_or_app. right. now left.
Qed.

End SplitFacts.

(** X11: The two text helpers of [flatten_record] cut at the
    separator and leave none of it behind: [after_last_dot] gives what
    follows the last dot, [between_underscores] the text between the
    first two underscores when there are at least two; applying either a
    second time changes nothing. *)
Theorem text_helpers_cut :
  (forall v, after_last_dot (after_last_dot v) = after_last_dot v /\
             between_underscores (between_underscores v) = between_underscores v) /\
  (forall a b, Str.contains "."%char b = false ->
               after_last_dot (VStr (a ++ "." ++ b)) = VStr b) /\
  (forall a b c, Str.contains "_"%char a = false -> Str.contains "_"%char b = false ->
                 between_underscores (VStr (a ++ "_" ++ b ++ "_" ++ c)) = VStr b) /\
  (forall a b, Str.contains "_"%char a = false -> Str.contains "_"%char b = false ->
               between_underscores (VStr (a ++ "_" ++ b)) = VStr (a ++ "_" ++ b)).
Proof.
  split; [|split; [|split]].
  - intros v. split.
    + destruct v; try reflexivity. cbn [after_last_dot].
      destruct (Str.contains "."%char s) eqn:E; cbn [after_last_dot]; [|now rewrite E].
      rewrite (SplitFacts.split_no_sep "."%char s); [reflexivity|].
      apply SplitFacts.last_in. apply SplitFacts.split_nonempty.
    + destruct v; try reflexivity. cbn [between_underscores].
      destruct (2 <? List.length (Str.split "_"%char s)) eqn:E; cbn [between_underscores];
        [|now rewrite E].
      apply Nat.ltb_lt in E.
      rewrite (SplitFacts.split_whole "_"%char (nth 1 (Str.split "_"%char s) ""));
        [reflexivity|].
      apply SplitFacts.split_no_sep with (s := s). apply nth_In. lia.
  - intros a b Hb. cbn [after_last_dot].
    change (a ++ "." ++ b)%string with (a ++ String "."%char b)%string.
    assert (Hc : Str.contains "."%char (a ++ String "."%char b) = true).
    { induction a as [|x a IH]; cbn [append Str.contains].
      - now rewrite Ascii.eqb_refl.
      - rewrite IH. apply orb_true_r. }
    rewrite Hc, SplitFacts.split_app, (SplitFacts.split_whole _ b Hb), last_last. reflexivity.
  - intros a b c Ha Hb. cbn [between_underscores].
    change (a ++ "_" ++ b ++ "_" ++ c)%string
      with (a ++ String "_"%char (b ++ String "_"%char c))%string.
    rewrite !SplitFacts.split_app, (SplitFacts.split_whole _ a Ha), (SplitFacts.split_whole _ b Hb).
    pose proof (SplitFacts.split_nonempty "_"%char c) as Hc.
    destruct (Str.split "_"%char c) as [|p ps]; [contradiction|]. reflexivity.
  - intros a b Ha Hb. cbn [between_underscores].
    change (a ++ "_" ++ b)%string with (a ++ String "_"%char b)%string.
    rewrite SplitFacts.split_app, (SplitFacts.split_whole _ a Ha), (SplitFacts.split_whole _ b Hb).
    reflexivity.
Qed.

(* ================================================================== *)
(** ** Integers and their text *)

Module IntFacts.

(** No white space of two or three bytes starts with an ASCII
    character. *)
Lemma space_not_ascii :
  forall a, Str.is_ascii_char a = true ->
            (forall b, Str.is_space2 a b = false) /\
            (forall b c, Str.is_space3 a b c = false).
Proof.
  intros a Ha. unfold Str.is_ascii_char in Ha. apply Nat.ltb_lt in Ha.
  unfold Str.is_space2, Str.is_space3. cbv zeta.
  assert (E1 : (nat_of_ascii a =? 194) = false) by (apply Nat.eqb_neq; lia).
  assert (E2 : (nat_of_ascii a =? 225) = false) by (apply Nat.eqb_neq; lia).
  assert (E3 : (nat_of_ascii a =? 226) = false) by (apply Nat.eqb_neq; lia).
  assert (E4 : (nat_of_ascii a =? 227) = false) by (apply Nat.eqb_neq; lia).
  rewrite E1, E2, E3, E4. split; reflexivity.
Qed.

Lemma lstrip_kept_head :
  forall c s, not_space c = true -> Str.lstrip (String c s) = String c s.
Proof.
  intros c s Hc. unfold not_space in Hc. apply andb_prop in Hc. destruct Hc as [Hs Ha].
  apply negb_true_iff in Hs. destruct (space_not_ascii c Ha) as [H2 H3].
  cbn [Str.lstrip]. rewrite Hs.
  destruct s as [|b s]; [reflexivity|]. rewrite H2.
  destruct s as [|d s]; [reflexivity|]. now rewrite H3.
Qed.

Lemma lstrip_kept :
  forall s, Str.all_chars not_space s = true -> Str.lstrip s = s.
Proof.
  intros [|c s] H; [reflexivity|]. cbn [Str.all_chars] in H.
  apply andb_prop in H. destruct H as [Hc _]. now apply lstrip_kept_head.
Qed.

Lemma rstrip_kept :
  forall s, Str.all_chars not_space s = true -> Str.rstrip s = s.
Proof.
  induction s as [|c s IH]; intros H; [reflexivity|]. cbn [Str.all_chars] in H.
  apply andb_prop in H. destruct H as [Hc Hs].
  cbn [Str.rstrip]. rewrite (lstrip_kept_head c s Hc), (IH Hs). reflexivity.
Qed.

Lemma strip_kept :
  forall s, Str.all_chars not_space s = true -> Str.strip s = s.
Proof. intros s H. unfold Str.strip. now rewrite (lstrip_kept s H), (rstrip_kept s H). Qed.

Lemma digit_not_space : forall c, Str.is_digit c = true -> not_space c = true.
Proof.
  intros c H. unfold Str.is_digit in H. unfold not_space, Str.is_space.
  apply andb_prop in H. destruct H as [H1 H2].
  apply Nat.leb_le in H1. apply Nat.leb_le in H2.
  apply andb_true_intro. split.
  - apply negb_true_iff. apply orb_false_iff. split; apply andb_false_iff.
    + right. apply Nat.leb_gt. lia.
    + right. apply Nat.leb_gt. lia.
  - unfold Str.is_ascii_char. apply Nat.ltb_lt. lia.
Qed.

Lemma all_digits_not_space :
  forall s, Str.all_chars Str.is_digit s = true -> Str.all_chars not_space s = true.
Proof.
  induction s as [|c s IH]; intros H; [reflexivity|]. cbn [Str.all_chars] in *.
  apply andb_prop in H. destruct H as [Hc Hs]. now rewrite (digit_not_space c Hc), (IH Hs).
Qed.

(** The literal of digits only. *)
Lemma int_digits_plain :
  forall s acc n,
    Str.all_chars Str.is_digit s = true ->
    int_digits acc n s = Some (Str.int_of_digits_from acc s, n + String.length s).
Proof.
  induction s as [|c s IH]; intros acc n H; cbn [int_digits Str.int_of_digits_from String.length].
  - f_equal. f_equal. lia.
  - cbn [Str.all_chars] in H. apply andb_prop in H. destruct H as [Hc Hs].
    rewrite Hc, (IH _ _ Hs). f_equal. f_equal. lia.
Qed.

Ltac by_digit d IH :=
  induction d as [|d IH|d IH|d IH|d IH|d IH|d IH|d IH|d IH|d IH|d IH].

Lemma uint_digits :
  forall d, Str.all_chars Str.is_digit (NilEmpty.string_of_uint d) = true.
Proof. by_digit d IH; cbn [NilEmpty.string_of_uint Str.all_chars]; try reflexivity; exact IH. Qed.

Lemma uint_value_acc :
  forall d acc,
    Str.int_of_digits_from (Z.pos acc) (NilEmpty.string_of_uint d)
    = Z.pos (Pos.of_uint_acc d acc).
Proof.
  by_digit d IH; intros acc; cbn [NilEmpty.string_of_uint Str.int_of_digits_from Pos.of_uint_acc];
    try reflexivity; rewrite <- IH; f_equal;
    unfold Str.digit_val; cbn [nat_of_ascii]; vm_compute Z.of_nat; lia.
Qed.

Lemma uint_value :
  forall d,
    Str.int_of_digits_from 0 (NilEmpty.string_of_uint d) = Z.of_N (Pos.of_uint d).
Proof.
  by_digit d IH; cbn [NilEmpty.string_of_uint Str.int_of_digits_from Pos.of_uint];
    try reflexivity; try exact IH; apply (uint_value_acc d).
Qed.

(** The text of a positive number: digits that read back as the
    number. *)
Lemma pos_text :
  forall p,
    exists c s,
      NilZero.string_of_uint (Pos.to_uint p) = String c s /\
      Str.all_chars Str.is_digit (String c s) = true /\
      Str.int_of_digits_from 0 (String c s) = Z.pos p.
Proof.
  intros p.
  assert (E : NilZero.string_of_uint (Pos.to_uint p) = NilEmpty.string_of_uint (Pos.to_uint p)).
  { pose proof (DecimalPos.Unsigned.to_uint_nonnil p) as Hn.
    destruct (Pos.to_uint p); [contradiction | reflexivity ..]. }
  assert (V : Str.int_of_digits_from 0 (NilEmpty.string_of_uint (Pos.to_uint p)) = Z.pos p).
  { rewrite uint_value, DecimalPos.Unsigned.of_to. reflexivity. }
  pose proof (uint_digits (Pos.to_uint p)) as D.
  rewrite E. destruct (NilEmpty.string_of_uint (Pos.to_uint p)) as [|c s].
  - discriminate V.
  - exists c, s. auto.
Qed.

Lemma int_of_text :
  forall z, String.length (Str.of_Z z) <= int_max_str_digits ->
            Str.strip (Str.of_Z z) = Str.of_Z z /\ Str.of_Z z <> "" /\
            py_int_of_str (Str.of_Z z) = Some z.
Proof.
  intros z Hlen. unfold Str.of_Z in *. destruct z as [|p|p]; cbn [Z.to_int NilZero.string_of_int] in *.
  - split; [reflexivity|]. split; [discriminate | reflexivity].
  - destruct (pos_text p) as (c & s & E & D & V). rewrite E in *.
    assert (Hs : Str.strip (String c s) = String c s)
      by (apply strip_kept; now apply all_digits_not_space).
    split; [exact Hs|]. split; [discriminate|].
    unfold py_int_of_str. rewrite Hs.
    cbn [Str.all_chars] in D. apply andb_prop in D. destruct D as [Dc Ds].
    assert (Hm : Ascii.eqb c "-"%char = false) by (destruct (Ascii.eqb_spec c "-"%char); [subst; discriminate Dc | reflexivity]).
    assert (Hp : Ascii.eqb c "+"%char = false) by (destruct (Ascii.eqb_spec c "+"%char); [subst; discriminate Dc | reflexivity]).
    rewrite Hm, Hp. cbn [snd fst]. rewrite Dc, (int_digits_plain s _ _ Ds).
    cbn [String.length] in Hlen.
    destruct (Nat.leb_spec (1 + String.length s) int_max_str_digits); [|lia].
    f_equal. cbn [Str.int_of_digits_from] in V.
    replace (10 * 0 + Str.digit_val c)%Z with (Str.digit_val c) in V by lia. exact V.
  - destruct (pos_text p) as (c & s & E & D & V). rewrite E in *.
    assert (Hs : Str.strip (String "-"%char (String c s)) = String "-"%char (String c s)).
    { apply strip_kept.
      change (not_space "-"%char && Str.all_chars not_space (String c s) = true).
      rewrite (all_digits_not_space _ D). reflexivity. }
    split; [exact Hs|]. split; [discriminate|].
    unfold py_int_of_str. rewrite Hs. cbn [Ascii.eqb Bool.eqb snd fst].
    cbn [Str.all_chars] in D. apply andb_prop in D. destruct D as [Dc Ds].
    rewrite Dc, (int_digits_plain s _ _ Ds).
    cbn [String.length] in Hlen.
    destruct (Nat.leb_spec (1 + String.length s) int_max_str_digits); [|lia].
    f_equal. cbn [Str.int_of_digits_from] in V.
    replace (10 * 0 + Str.digit_val c)%Z with (Str.digit_val c) in V by lia.
    rewrite V. reflexivity.
Qed.

End IntFacts.

(** X12: [_coerce_int] reads an integer back from its text: an [int]
    whose text has at most 4300 characters, or that text in a string,
    gives the integer itself; a blank string gives [None], and so do
    [None] and the booleans, whose texts are no literal; a sign and
    underscores between digits are read, a fraction is not. *)
Theorem coerce_int_round_trip :
  forall rt : runtime,
    (forall z, String.length (Str.of_Z z) <= 4300 ->
               _coerce_int rt (VInt z) = Some z /\
               _coerce_int rt (VStr (Str.of_Z z)) = Some z) /\
    (forall s, Str.strip s = "" -> _coerce_int rt (VStr s) = None) /\
    _coerce_int rt VNone = None /\
    (forall b, _coerce_int rt (VBool b) = None) /\
    _coerce_int rt (VStr " +1_000 ") = Some 1000%Z /\
    _coerce_int rt (VStr "007") = Some 7%Z /\
    _coerce_int rt (VStr "1.5") = None /\
    _coerce_int rt (VStr "1__0") = None /\
    _coerce_int rt (VStr "- 5") = None.
Proof.
  intros rt. split; [|split; [|split; [|split]]].
  - intros z Hz. destruct (IntFacts.int_of_text z Hz) as (Hs & Hne & Hv).
    assert (E : _coerce_int rt (VStr (Str.of_Z z)) = Some z).
    { unfold _coerce_int. cbn [py_str]. rewrite Hs.
      destruct (String.eqb_spec (Str.of_Z z) ""); [contradiction | exact Hv]. }
    split; exact E.
  - intros s Hs. unfold _coerce_int. cbn [py_str]. now rewrite Hs.
  - reflexivity.
  - intros []; reflexivity.
  - repeat split; reflexivity.
Qed.

(* ================================================================== *)
(** ** Rows that are the first or the last of their key *)

Module KeyFacts.

Lemma fold_append :
  forall (A B : Type) (g : A -> list B) (step : list B -> A -> list B),
    (forall acc r, step acc r = acc ++ g r) ->
    forall l acc, fold_left step l acc = acc ++ flat_map g l.
Proof.
  intros A B g step Hstep. induction l as [|r l IH]; intros acc; cbn [fold_left flat_map].
  - now rewrite app_nil_r.
  - now rewrite IH, Hstep, <- app_assoc.
Qed.

Section Keys.
Variable K : Type.
Variable key : dict -> option K.

Lemma last_unique :
  forall a1 (r1 : dict) b1 a2 r2 b2,
    a1 ++ r1 :: b1 = a2 ++ r2 :: b2 ->
    key r1 = key r2 ->
    (forall r', In r' b1 -> key r' <> key r1) ->
    (forall r', In r' b2 -> key r' <> key r2) ->
    r1 = r2.
Proof.
  induction a1 as [|x a1 IH]; intros r1 b1 [|y a2] r2 b2 E Hk H1 H2; cbn [app] in E.
  - now injection E.
  - injection E as -> ->. exfalso. apply (H1 r2); [|now symmetry].
    apply in_or_app. right. now left.
  - injection E as -> <-. exfalso. apply (H2 r1); [|exact Hk].
    apply in_or_app. right. now left.
  - injection E as _ E. exact (IH _ _ _ _ _ E Hk H1 H2).
Qed.

Lemma first_unique :
  forall a1 (r1 : dict) b1 a2 r2 b2,
    a1 ++ r1 :: b1 = a2 ++ r2 :: b2 ->
    key r1 = key r2 ->
    (forall r', In r' a1 -> key r' <> key r1) ->
    (forall r', In r' a2 -> key r' <> key r2) ->
    r1 = r2.
Proof.
  induction a1 as [|x a1 IH]; intros r1 b1 [|y a2] r2 b2 E Hk H1 H2; cbn [app] in E.
  - now injection E.
  - injection E as -> _. exfalso. apply (H2 y); [now left | exact Hk].
  - injection E as -> _. exfalso. apply (H1 r2); [now left | now symmetry].
  - injection E as -> E. apply (IH _ _ _ _ _ E Hk).
    + intros r' Hr'. apply H1. now right.
    + intros r' Hr'. apply H2. now right.
Qed.

Lemma is_last_with_unique :
  forall rows r1 r2,
    is_last_with key rows r1 -> is_last_with key rows r2 -> key r1 = key r2 -> r1 = r2.
Proof.
  intros rows r1 r2 (a1 & b1 & E1 & _ & H1) (a2 & b2 & E2 & _ & H2) Hk.
  rewrite E1 in E2. exact (last_unique _ _ _ _ _ _ E2 Hk H1 H2).
Qed.

Lemma is_first_with_unique :
  forall rows r1 r2,
    is_first_with key rows r1 -> is_first_with key rows r2 -> key r1 = key r2 -> r1 = r2.
Proof.
  intros rows r1 r2 (a1 & b1 & E1 & _ & H1) (a2 & b2 & E2 & _ & H2) Hk.
  rewrite E1 in E2. exact (first_unique _ _ _ _ _ _ E2 Hk H1 H2).
Qed.

(** Rows made from records, at most one for each record. *)
Variable f : dict -> list dict.
Hypothesis at_most_one : forall r, List.length (f r) <= 1.

Lemma flat_map_split :
  forall l a x b,
    flat_map f l = a ++ x :: b ->
    exists l1 r l2,
      l = l1 ++ r :: l2 /\ f r = [x] /\ flat_map f l1 = a /\ flat_map f l2 = b.
Proof.
  induction l as [|r l IH]; intros a x b E; cbn [flat_map] in E.
  - destruct a; discriminate E.
  - pose proof (at_most_one r) as Hr. destruct (f r) as [|y [|z t]] eqn:Ef.
    + cbn [app] in E. destruct (IH _ _ _ E) as (l1 & r0 & l2 & -> & Hx & Ha & Hb).
      exists (r :: l1), r0, l2. repeat split; try assumption.
      cbn [flat_map]. now rewrite Ef.
    + destruct a as [|y' a]; cbn [app] in E.
      * injection E as -> <-. exists [], r, l. repeat split. exact Ef.
      * injection E as -> E. destruct (IH _ _ _ E) as (l1 & r0 & l2 & -> & Hx & Ha & Hb).
        exists (r :: l1), r0, l2. repeat split; try assumption.
        cbn [flat_map]. now rewrite Ef, Ha.
    + cbn [List.length] in Hr. lia.
Qed.

Lemma in_contributed :
  forall r p, In p (f r) -> f r = [p].
Proof.
  intros r p H. pose proof (at_most_one r) as Hr.
  destruct (f r) as [|y [|z t]]; [destruct H | | cbn [List.length] in Hr; lia].
  destruct H as [<-|[]]. reflexivity.
Qed.

Lemma contributed_key_one :
  forall r p, f r = [p] -> contributed_key f key r = key p.
Proof. intros r p E. unfold contributed_key. now rewrite E. Qed.

Lemma other_keys :
  forall l r p,
    f r = [p] -> key p <> None ->
    ((forall r', In r' l -> contributed_key f key r' <> contributed_key f key r) <->
     (forall p', In p' (flat_map f l) -> key p' <> key p)).
Proof.
  intros l r p Er Hne. rewrite (contributed_key_one r p Er). split.
  - intros H p' Hp'. apply in_flat_map in Hp'. destruct Hp' as (r' & Hr' & Hin).
    apply in_contributed in Hin. rewrite <- (contributed_key_one r' p' Hin). now apply H.
  - intros H r' Hr' E. unfold contributed_key in E.
    destruct (f r') as [|p' [|z t]] eqn:Ef; try (apply Hne; now symmetry).
    apply (H p'); [|exact E]. apply in_flat_map. exists r'. split; [exact Hr'|].
    rewrite Ef. now left.
Qed.

Lemma last_flat_map :
  forall records p,
    is_last_with key (flat_map f records) p <->
    exists r, is_last_with (contributed_key f key) records r /\ f r = [p].
Proof.
  intros records p. split.
  - intros (a & b & E & Hne & Hb).
    destruct (flat_map_split _ _ _ _ E) as (l1 & r & l2 & -> & Er & _ & <-).
    exists r. split; [|exact Er]. exists l1, l2. split; [reflexivity|].
    split; [now rewrite (contributed_key_one r p Er)|].
    now apply (other_keys l2 r p Er Hne).
  - intros (r & (l1 & l2 & -> & Hne & H2) & Er).
    rewrite (contributed_key_one r p Er) in Hne.
    exists (flat_map f l1), (flat_map f l2). split; [|split; [exact Hne|]].
    + rewrite flat_map_app. cbn [flat_map]. now rewrite Er.
    + now apply (other_keys l2 r p Er Hne).
Qed.

Lemma first_flat_map :
  forall records p,
    is_first_with key (flat_map f records) p <->
    exists r, is_first_with (contributed_key f key) records r /\ f r = [p].
Proof.
  intros records p. split.
  - intros (a & b & E & Hne & Ha).
    destruct (flat_map_split _ _ _ _ E) as (l1 & r & l2 & -> & Er & <- & _).
    exists r. split; [|exact Er]. exists l1, l2. split; [reflexivity|].
    split; [now rewrite (contributed_key_one r p Er)|].
    now apply (other_keys l1 r p Er Hne).
  - intros (r & (l1 & l2 & -> & Hne & H1) & Er).
    rewrite (contributed_key_one r p Er) in Hne.
    exists (flat_map f l1), (flat_map f l2). split; [|split; [exact Hne|]].
    + rewrite flat_map_app. cbn [flat_map]. now rewrite Er.
    + now apply (other_keys l1 r p Er Hne).
Qed.

End Keys.

End KeyFacts.

(* ================================================================== *)
(** ** What a pull sends for the two flags *)

Module FlagFacts.

Section Flags.
Variable rt : runtime.

Lemma dedupe_jobs_members :
  forall rows p, In p (_dedupe_jobs rt rows) <-> is_last_with (job_key rt) rows p.
Proof.
  intros rows p. destruct (dedupe_jobs_last_wins rt rows) as [[_ Hkeys] Hlast]. split.
  - apply Hlast.
  - intros Hp. destruct Hp as (a & b & E & Hne & Hb).
    destruct (job_key rt p) as [k|] eqn:Ek; [|contradiction].
    assert (Hin : exists r, In r rows /\ job_key rt r = Some k).
    { exists p. split; [|exact Ek]. rewrite E. apply in_or_app. right. now left. }
    apply Hkeys in Hin. destruct Hin as (q & Hq & Ekq).
    replace p with q; [exact Hq|].
    apply (KeyFacts.is_last_with_unique _ (job_key rt) rows).
    + now apply Hlast.
    + exists a, b. split; [exact E|]. split; [congruence|]. now rewrite Ek.
    + congruence.
Qed.

Lemma dedupe_search_results_members :
  forall rows p, In p (_dedupe_search_results rt rows) <-> is_first_with (sr_key rt) rows p.
Proof.
  intros rows p. destruct (dedupe_search_results_first_wins rt rows) as [[_ Hkeys] Hfirst]. split.
  - apply Hfirst.
  - intros Hp. destruct Hp as (a & b & E & Hne & Ha).
    destruct (sr_key rt p) as [k|] eqn:Ek; [|contradiction].
    assert (Hin : exists r, In r rows /\ sr_key rt r = Some k).
    { exists p. split; [|exact Ek]. rewrite E. apply in_or_app. right. now left. }
    apply Hkeys in Hin. destruct Hin as (q & Hq & Ekq).
    replace p with q; [exact Hq|].
    apply (KeyFacts.is_first_with_unique _ (sr_key rt) rows).
    + now apply Hfirst.
    + exists a, b. split; [exact E|]. split; [congruence|]. now rewrite Ek.
    + congruence.
Qed.

Lemma saved_update_one : forall r, List.length (saved_update rt r) <= 1.
Proof.
  intros r. unfold saved_update. destruct (_coerce_bool rt (get r "saved")); [|cbn; lia].
  destruct (is_none (get r "job_id")); cbn; lia.
Qed.

Lemma applied_update_one : forall r, List.length (applied_update rt r) <= 1.
Proof.
  intros r. unfold applied_update. destruct (_coerce_bool rt (get r "is_applied")); [|cbn; lia].
  destruct (negb (truthy (get r "search_id")) || negb (truthy (get r "job_id"))); cbn; lia.
Qed.

Lemma jobs_updates_flat :
  forall records, jobs_updates rt records = flat_map (saved_update rt) records.
Proof.
  intros records. unfold jobs_updates.
  rewrite (KeyFacts.fold_append _ _ (saved_update rt) (saved_step rt)); [reflexivity|].
  intros acc r. unfold saved_step, saved_update.
  destruct (_coerce_bool rt (get r "saved")); [|now rewrite app_nil_r].
  destruct (is_none (get r "job_id")); [now rewrite app_nil_r | reflexivity].
Qed.

Lemma sr_updates_flat :
  forall records, sr_updates rt records = flat_map (applied_update rt) records.
Proof.
  intros records. unfold sr_updates.
  rewrite (KeyFacts.fold_append _ _ (applied_update rt) (applied_step rt)); [reflexivity|].
  intros acc r. unfold applied_step, applied_update.
  destruct (_coerce_bool rt (get r "is_applied")); [|now rewrite app_nil_r].
  destruct (negb (truthy (get r "search_id")) || negb (truthy (get r "job_id")));
    [now rewrite app_nil_r | reflexivity].
Qed.

Lemma saved_update_shape :
  forall r p, In p (saved_update rt r) ->
              exists k b, p = [("job_id", VStr k); ("saved", VBool b)].
Proof.
  intros r p. unfold saved_update. destruct (_coerce_bool rt (get r "saved")); [|intros []].
  destruct (is_none (get r "job_id")); [intros []|]. intros [<-|[]]. eauto.
Qed.

Lemma applied_update_shape :
  forall r p, In p (applied_update rt r) ->
              exists s k b, p = [("search_id", VStr s); ("job_id", VStr k); ("is_applied", VBool b)].
Proof.
  intros r p. unfold applied_update. destruct (_coerce_bool rt (get r "is_applied")); [|intros []].
  destruct (negb (truthy (get r "search_id")) || negb (truthy (get r "job_id"))); [intros []|].
  intros [<-|[]]. eauto.
Qed.

Lemma upsert_jobs_saved_same :
  forall rows,
    Forall (fun p => exists k b, p = [("job_id", VStr k); ("saved", VBool b)]) rows ->
    upsert_jobs_saved rt rows = rows.
Proof.
  intros rows H. induction H as [|p rows (k & b & ->) _ IH]; [reflexivity|].
  unfold upsert_jobs_saved in *. cbn [flat_map]. rewrite IH. reflexivity.
Qed.

Lemma upsert_is_applied_same :
  forall rows,
    Forall (fun p => exists s k b,
                p = [("search_id", VStr s); ("job_id", VStr k); ("is_applied", VBool b)] /\
                s <> "" /\ k <> "") rows ->
    upsert_search_results_is_applied rt rows = rows.
Proof.
  intros rows H. induction H as [|p rows (s & k & b & -> & Hs & Hk) _ IH]; [reflexivity|].
  unfold upsert_search_results_is_applied in *. cbn [flat_map]. rewrite IH.
  unfold get. cbn [PyDict.lookup String.eqb Ascii.eqb Bool.eqb].
  cbn [truthy is_none negb py_str].
  destruct (String.eqb_spec s ""); [contradiction|].
  destruct (String.eqb_spec k ""); [contradiction|]. reflexivity.
Qed.

End Flags.

End FlagFacts.

(** X13: The rows a pull upserts into [jobs] for the [saved] flag: a
    record of the tab counts when its [saved] cell reads as a boolean;
    for each job id the row of the last such record is sent and no
    other, so the last edit wins; every row sent has a non-empty id and
    a boolean flag, a record with an empty id cell sends nothing, and
    the filter of [upsert_jobs_saved] changes nothing after the
    deduplication. *)
Theorem pull_jobs_saved_last_wins :
  forall (rt : runtime) (records : list dict),
    pull_jobs_saved rt records = _dedupe_jobs rt (jobs_updates rt records) /\
    (forall p,
        In p (pull_jobs_saved rt records) <->
        exists r, is_last_with (contributed_key (saved_update rt) (job_key rt)) records r /\
                  saved_update rt r = [p]) /\
    (forall r,
        contributed_key (saved_update rt) (job_key rt) r
        = match _coerce_bool rt (get r "saved") with
          | Some _ =>
              if is_none (get r "job_id") || String.eqb (py_str rt (get r "job_id")) ""
              then None
              else Some (py_str rt (get r "job_id"))
          | None => None
          end) /\
    NoDup (map (fun p => get p "job_id") (pull_jobs_saved rt records)) /\
    Forall (fun p => exists k b, p = [("job_id", VStr k); ("saved", VBool b)] /\ k <> "")
           (pull_jobs_saved rt records).
Proof.
  intros rt records.
  assert (Hmem : forall p, In p (_dedupe_jobs rt (jobs_updates rt records)) <->
                   exists r, is_last_with (contributed_key (saved_update rt) (job_key rt)) records r /\
                             saved_update rt r = [p]).
  { intros p. rewrite FlagFacts.dedupe_jobs_members, FlagFacts.jobs_updates_flat.
    apply KeyFacts.last_flat_map. apply FlagFacts.saved_update_one. }
  assert (Hshape : Forall (fun p => exists k b, p = [("job_id", VStr k); ("saved", VBool b)] /\ k <> "")
                          (_dedupe_jobs rt (jobs_updates rt records))).
  { apply Forall_forall. intros p Hp. apply Hmem in Hp. destruct Hp as (r & (_ & _ & _ & Hne & _) & Er).
    unfold contributed_key in Hne. rewrite Er in Hne.
    destruct (FlagFacts.saved_update_shape rt r p) as (k & b & ->); [rewrite Er; now left|].
    exists k, b. split; [reflexivity|]. intros ->. now apply Hne. }
  assert (E : pull_jobs_saved rt records = _dedupe_jobs rt (jobs_updates rt records)).
  { unfold pull_jobs_saved. destruct (jobs_updates rt records) as [|u us] eqn:Eu; [reflexivity|].
    apply FlagFacts.upsert_jobs_saved_same.
    eapply Forall_impl; [|exact Hshape]. intros p (k & b & -> & _). eauto. }
  rewrite E. split; [reflexivity|]. split; [exact Hmem|]. split; [|split; [|exact Hshape]].
  - intros r. unfold contributed_key, saved_update.
    destruct (_coerce_bool rt (get r "saved")); [|reflexivity].
    destruct (is_none (get r "job_id")); [reflexivity|]. cbn [orb].
    unfold job_key, get. cbn [PyDict.lookup String.eqb Ascii.eqb Bool.eqb truthy py_str].
    now destruct (String.eqb _ "").
  - destruct (dedupe_jobs_last_wins rt (jobs_updates rt records)) as [[Hnd _] _].
    apply (NoDup_map_inv (fun v => if truthy v then Some (py_str rt v) else None)).
    rewrite map_map. exact Hnd.
Qed.

(** X14: The rows a pull upserts into [search_results] for the
    [is_applied] flag: a record counts when both ids are truthy and its
    cell reads as a boolean; for each pair of ids the row of the first
    such record is sent and no other, so here the first row of the tab
    wins, unlike for [saved]; every row sent has two non-empty ids and a
    boolean flag, and the filter of [upsert_search_results_is_applied]
    changes nothing after the deduplication. *)
Theorem pull_is_applied_first_wins :
  forall (rt : runtime) (records : list dict),
    pull_is_applied rt records = _dedupe_search_results rt (sr_updates rt records) /\
    (forall p,
        In p (pull_is_applied rt records) <->
        exists r, is_first_with (contributed_key (applied_update rt) (sr_key rt)) records r /\
                  applied_update rt r = [p]) /\
    NoDup (map (fun p => (get p "search_id", get p "job_id")) (pull_is_applied rt records)) /\
    Forall (fun p => exists s k b,
                p = [("search_id", VStr s); ("job_id", VStr k); ("is_applied", VBool b)] /\
                s <> "" /\ k <> "")
           (pull_is_applied rt records).
Proof.
  intros rt records.
  assert (Hmem : forall p, In p (_dedupe_search_results rt (sr_updates rt records)) <->
                   exists r, is_first_with (contributed_key (applied_update rt) (sr_key rt)) records r /\
                             applied_update rt r = [p]).
  { intros p. rewrite FlagFacts.dedupe_search_results_members, FlagFacts.sr_updates_flat.
    apply KeyFacts.first_flat_map. apply FlagFacts.applied_update_one. }
  assert (Hshape : Forall (fun p => exists s k b,
                             p = [("search_id", VStr s); ("job_id", VStr k); ("is_applied", VBool b)] /\
                             s <> "" /\ k <> "")
                          (_dedupe_search_results rt (sr_updates rt records))).
  { apply Forall_forall. intros p Hp. apply Hmem in Hp. destruct Hp as (r & (_ & _ & _ & Hne & _) & Er).
    unfold contributed_key in Hne. rewrite Er in Hne.
    destruct (FlagFacts.applied_update_shape rt r p) as (s & k & b & ->); [rewrite Er; now left|].
    exists s, k, b. split; [reflexivity|].
    unfold sr_key, get in Hne. cbn [PyDict.lookup String.eqb Ascii.eqb Bool.eqb truthy] in Hne.
    split; intros ->; apply Hne; cbn [String.eqb negb andb]; [reflexivity|].
    now rewrite andb_false_r. }
  assert (E : pull_is_applied rt records = _dedupe_search_results rt (sr_updates rt records)).
  { unfold pull_is_applied. destruct (sr_updates rt records) as [|u us] eqn:Eu; [reflexivity|].
    now apply FlagFacts.upsert_is_applied_same. }
  rewrite E. split; [reflexivity|]. split; [exact Hmem|]. split; [|exact Hshape].
  destruct (dedupe_search_results_first_wins rt (sr_updates rt records)) as [[Hnd _] _].
  apply (NoDup_map_inv (fun v => if truthy (fst v) && truthy (snd v)
                                 then Some (py_str rt (fst v), py_str rt (snd v)) else None)).
  rewrite map_map. exact Hnd.
Qed.

(* ================================================================== *)
(** ** What a pull builds and sends for the applications *)

Module AppFacts.

Section Apps.
Variable rt : runtime.

Lemma norm_status_normal :
  forall v s, norm_status rt v = Ok s -> status_normal rt s.
Proof.
  intros v s. unfold norm_status. destruct (py_or v (VStr "")); try discriminate.
  intros H. injection H as <-.
  destruct (String.eqb_spec (str_lower rt (Str.strip s0)) "") as [|Hne]; [now left|].
  right. eexists. split; [reflexivity|]. split; [exact Hne | apply lower_lower].
Qed.


Lemma apps_step_inv :
  forall st r st', apps_inv rt st -> apps_step rt st r = Ok st' -> apps_inv rt st'.
Proof.
  intros [new upd] r st' [Hn Hu] H. unfold apps_step in H. cbn [bind fst snd] in H.
  destruct (norm_status rt (get r "status")) as [s|] eqn:Es; [|discriminate H].
  apply norm_status_normal in Es.
  destruct (truthy (get r "application_id")) eqn:Ta.
  - injection H as <-. split; [exact Hn|]. cbn [snd]. apply Forall_app. split; [exact Hu|].
    constructor; [|constructor]. unfold built_update, app_update_row. eauto 12.
  - destruct (truthy (get r "job_id")) eqn:Tj.
    + injection H as <-. split; [|exact Hu]. cbn [fst]. apply Forall_app. split; [exact Hn|].
      constructor; [|constructor]. unfold built_new, app_new_row. eauto 12.
    + injection H as <-. now split.
Qed.

Lemma apps_loop_inv :
  forall records st, apps_inv rt st -> apps_inv rt (apps_loop rt st records).
Proof.
  induction records as [|r records IH]; intros st H; cbn [apps_loop]; [exact H|].
  destruct (apps_step rt st r) as [st'|] eqn:E; [|exact H].
  apply IH. exact (apps_step_inv st r st' H E).
Qed.


Lemma built_update_wf :
  forall u, built_update rt u ->
            update_wf u /\ truthy (get u "application_id") = true /\
            (get u "status" = VNone \/
             exists s, get u "status" = VStr s /\ s <> "" /\ new_status_of rt u = s).
Proof.
  intros u (a & fm & s & sa & cs & b & pu & -> & Ha & Hs).
  unfold update_wf, new_status_of, get, app_update_row.
  cbn [PyDict.lookup String.eqb Ascii.eqb Bool.eqb].
  split; [split; [eauto|]|split; [exact Ha|]].
  - destruct Hs as [->|(x & -> & _)]; eauto.
  - destruct Hs as [->|(x & -> & Hx & Hl)]; [now left|]. right. eauto.
Qed.

End Apps.

End AppFacts.

(** C5: in the pull path one entry of the status history is emitted for
    each row of the update set whose new status, lower-cased, is not
    empty and differs from the status stored before the pull,
    lower-cased; the entry carries the application id and the
    lower-cased new status, and a row with no status or an unchanged
    one emits nothing.  The update set is the one the loop over the
    Applications tab builds, whatever the tab holds.  The entries of an
    application are those of its rows, in order: one at most when the
    update set lists it once, one for each changed row when it lists it
    more often.  With draft stored, Submitted pulled gives one entry
    with submitted and draft pulled gives none. *)
Theorem status_history_transitions :
  forall (rt : runtime) (before_status : PyDict.t string),
    (forall records, Forall update_wf (snd (apps_loop rt ([], []) records))) /\
    (forall apps_update,
        Forall update_wf apps_update ->
        exists changed,
          status_changes rt before_status apps_update = Ok changed /\
          pull_status_history rt before_status apps_update
          = Ok (insert_status_history changed) /\
          (forall a s,
              In (a, s) changed <->
              exists u, In u apps_update /\ a = py_str rt (get u "application_id") /\
                        s = new_status_of rt u /\ s <> "" /\
                        s <> old_status_of rt before_status a) /\
          (forall a,
              entries_for a changed
              = map (fun u => (a, new_status_of rt u))
                    (filter (fun u => String.eqb (app_id_of rt u) a
                                      && is_transition rt before_status u)
                            apps_update)) /\
          ((forall u, In u apps_update -> py_str rt (get u "application_id") <> "") ->
           insert_status_history changed
           = map (fun e => [("application_id", VStr (fst e)); ("status", VStr (snd e))])
                 changed) /\
          (NoDup (map (fun u => py_str rt (get u "application_id")) apps_update) ->
           forall u, In u apps_update ->
             entries_for (py_str rt (get u "application_id")) changed
             = if negb (String.eqb (new_status_of rt u) "")
                  && negb (String.eqb (new_status_of rt u)
                             (old_status_of rt before_status
                                (py_str rt (get u "application_id"))))
               then [(py_str rt (get u "application_id"), new_status_of rt u)]
               else [])) /\
    pull_status_history rt [("7", "draft")]
      [[("application_id", VStr "7"); ("status", VStr "Submitted")]]
    = Ok [[("application_id", VStr "7"); ("status", VStr "submitted")]] /\
    pull_status_history rt [("7", "draft")]
      [[("application_id", VStr "7"); ("status", VStr "draft")]] = Ok [] /\
    pull_status_history rt [("7", "draft")]
      [[("application_id", VStr "7"); ("status", VNone)]] = Ok [].
Proof.
  intros rt before. split; [|split].
  - intros records.
    destruct (AppFacts.apps_loop_inv rt records ([], [])) as [_ Hu]; [split; constructor|].
    eapply Forall_impl; [|exact Hu]. intros u Hb. apply (AppFacts.built_update_wf rt u Hb).
  - intros apps_update Hwf.
    eexists. split; [apply status_changes_wf; exact Hwf|].
    assert (Hmem : forall a s,
              In (a, s) (flat_map (fun u => if is_transition rt before u
                                            then [(app_id_of rt u, new_status_of rt u)]
                                            else [])
                                  apps_update) <->
              exists u, In u apps_update /\ a = py_str rt (get u "application_id") /\
                        s = new_status_of rt u /\ s <> "" /\
                        s <> old_status_of rt before a).
    { intros a s. rewrite in_flat_map. split.
      + intros [u [Hu Hin]]. exists u. split; [exact Hu|].
        destruct (is_transition rt before u) eqn:Et; [|destruct Hin].
        destruct Hin as [Hin | []]. injection Hin as <- <-.
        unfold is_transition in Et. apply andb_prop in Et. destruct Et as [E1 E2].
        apply negb_true_iff in E1, E2. apply String.eqb_neq in E1, E2.
        repeat split; assumption.
      + intros [u (Hu & -> & -> & Hne & Hold)]. exists u. split; [exact Hu|].
        unfold is_transition, app_id_of.
        apply String.eqb_neq in Hne, Hold. rewrite Hne, Hold. simpl. now left. }
    split; [|split; [exact Hmem | split; [intros a; exact (entries_for_rows rt before a apps_update) | split]]].
    + unfold pull_status_history. destruct apps_update as [|u us]; [reflexivity|].
      rewrite status_changes_wf by exact Hwf.
      set (c := flat_map _ (u :: us)). unfold bind. now destruct c.
    + intros Hids. apply insert_status_history_keeps_all. intros [a s] He.
      apply Hmem in He. destruct He as (u & Hu & -> & -> & Hne & _).
      split; [now apply Hids | exact Hne].
    + intros Hnd u Hu.
      fold (app_id_of rt u). fold (is_transition rt before u).
      revert Hnd Hu. clear Hwf Hmem. induction apps_update as [|u0 us IH]; intros Hnd Hu.
      * destruct Hu.
      * simpl in Hnd. inversion Hnd as [|? ? Hnotin Hnd']; subst.
        simpl. unfold entries_for. rewrite filter_app.
        destruct Hu as [-> | Hu].
        -- fold (entries_for (app_id_of rt u)
                   (flat_map (fun u => if is_transition rt before u
                                       then [(app_id_of rt u, new_status_of rt u)]
                                       else []) us)).
           rewrite entries_for_other by exact Hnotin. rewrite app_nil_r.
           destruct (is_transition rt before u); simpl; [|reflexivity].
           now rewrite String.eqb_refl.
        -- replace (filter _ (if is_transition rt before u0 then _ else _))
             with (@nil (string * string)).
           ++ simpl. apply IH; assumption.
           ++ destruct (is_transition rt before u0); simpl; [|reflexivity].
              destruct (String.eqb (app_id_of rt u0) (app_id_of rt u)) eqn:E; [|reflexivity].
              apply String.eqb_eq in E. exfalso. apply Hnotin.
              unfold app_id_of in E. rewrite E.
              apply (in_map (fun u => py_str rt (get u "application_id"))). exact Hu.
  - unfold pull_status_history, status_changes, status_change, py_lower, item, get, py_or.
    cbn [PyDict.lookup String.eqb Ascii.eqb Bool.eqb truthy negb bind py_str].
    rewrite !(lower_ascii rt "Submitted" eq_refl), !(lower_ascii rt "draft" eq_refl),
      !(lower_ascii rt "" eq_refl).
    repeat split; reflexivity.
Qed.

Lemma status_history_transitions_witness :
  Forall update_wf
    [[("application_id", VStr "7"); ("status", VStr "Submitted")];
     [("application_id", VInt 8); ("status", VNone)]] /\
  exists changed,
    status_changes example_runtime [("7", "draft"); ("8", "draft")]
      [[("application_id", VStr "7"); ("status", VStr "Submitted")];
       [("application_id", VInt 8); ("status", VNone)]] = Ok changed /\
    changed = [("7", "submitted")].
Proof.
  assert (Hwf : Forall update_wf
    [[("application_id", VStr "7"); ("status", VStr "Submitted")];
     [("application_id", VInt 8); ("status", VNone)]]).
  { constructor; [split; [eexists; reflexivity | right; eexists; reflexivity]|].
    constructor; [split; [eexists; reflexivity | left; reflexivity]|].
    constructor. }
  split; [exact Hwf|].
  destruct (status_history_transitions example_runtime [("7", "draft"); ("8", "draft")])
    as [_ [Hgen _]].
  destruct (Hgen _ Hwf) as [changed [H1 _]].
  exists changed. split; [exact H1|].
  vm_compute in H1. now injection H1.
Defined.

(** C5, the statement of the design document: one entry for an
    application whose status changed.  The Applications tab lists
    application 8 on two rows, both with the status Sent, and draft is
    stored: the loop builds two updates, each is compared with the
    status captured before the updates, and the pull emits two entries
    for the one application. *)
Lemma status_history_repeats_for_repeated_rows :
  snd (apps_loop example_runtime ([], [])
         [[("application_id", VInt 8); ("status", VStr "Sent")];
          [("application_id", VInt 8); ("status", VStr "Sent")]])
  = [app_update_row (VInt 8) VNone (VStr "sent") VNone VNone VNone VNone;
     app_update_row (VInt 8) VNone (VStr "sent") VNone VNone VNone VNone] /\
  status_changes example_runtime [("8", "draft")]
    [app_update_row (VInt 8) VNone (VStr "sent") VNone VNone VNone VNone;
     app_update_row (VInt 8) VNone (VStr "sent") VNone VNone VNone VNone]
  = Ok [("8", "sent"); ("8", "sent")] /\
  pull_status_history example_runtime [("8", "draft")]
    [app_update_row (VInt 8) VNone (VStr "sent") VNone VNone VNone VNone;
     app_update_row (VInt 8) VNone (VStr "sent") VNone VNone VNone VNone]
  = Ok [[("application_id", VStr "8"); ("status", VStr "sent")];
        [("application_id", VStr "8"); ("status", VStr "sent")]] /\
  List.length (entries_for "8" [("8", "sent"); ("8", "sent")]) = 2.
Proof. repeat split; vm_compute; reflexivity. Qed.


Module SendFacts.

Section Send.
Variable rt : runtime.

Lemma update_applications_built :
  forall rows,
    Forall (built_update rt) rows ->
    update_applications rows
    = map (fun u => (get u "application_id",
                     map (fun k => (k, get u k)) application_columns)) rows.
Proof.
  intros rows H. unfold update_applications.
  rewrite (KeyFacts.fold_append _ _
             (fun u => if negb (truthy (get u "application_id")) then []
                       else match flat_map (fun k => match PyDict.lookup u k with
                                                     | Some v => [(k, v)]
                                                     | None => []
                                                     end) application_columns with
                            | [] => []
                            | fields => [(get u "application_id", fields)]
                            end)).
  - cbn [app]. induction H as [|u rows (a & fm & s & sa & cs & b & pu & -> & Ha & _) _ IH];
      [reflexivity|].
    cbn [flat_map map]. rewrite IH. unfold get at 1. unfold app_update_row.
    cbn [PyDict.lookup String.eqb Ascii.eqb Bool.eqb]. rewrite Ha. reflexivity.
  - intros acc r. destruct (negb (truthy (get r "application_id"))); [now rewrite app_nil_r|].
    destruct (flat_map _ application_columns); [now rewrite app_nil_r | reflexivity].
Qed.

Lemma insert_applications_built :
  forall rows,
    Forall (built_new rt) rows ->
    insert_applications rt rows
    = map (fun n => [("job_id", VStr (py_str rt (get n "job_id")));
                     ("final_message", get n "final_message");
                     ("status", py_or (get n "status") (VStr "draft"));
                     ("submitted_at", get n "submitted_at");
                     ("connects_spent", get n "connects_spent");
                     ("boosted", get n "boosted");
                     ("proposal_url", get n "proposal_url")]) rows.
Proof.
  intros rows H. unfold insert_applications.
  rewrite (KeyFacts.fold_append _ _
             (fun r => if negb (truthy (get r "job_id")) then []
                       else [[("job_id", VStr (py_str rt (get r "job_id")));
                              ("final_message", get r "final_message");
                              ("status", py_or (get r "status") (VStr "draft"));
                              ("submitted_at", get r "submitted_at");
                              ("connects_spent", get r "connects_spent");
                              ("boosted", get r "boosted");
                              ("proposal_url", get r "proposal_url")]])).
  - cbn [app]. induction H as [|n rows (j & fm & s & sa & cs & b & pu & -> & Hj & _) _ IH];
      [reflexivity|].
    cbn [flat_map map]. rewrite IH. unfold get at 1. unfold app_new_row.
    cbn [PyDict.lookup String.eqb Ascii.eqb Bool.eqb]. rewrite Hj. reflexivity.
  - intros acc r. destruct (negb (truthy (get r "job_id"))); [now rewrite app_nil_r | reflexivity].
Qed.

Lemma normal_or_draft :
  forall s, status_normal rt s -> truthy (py_or s (VStr "draft")) = true.
Proof.
  intros s [->|(x & -> & Hx & _)]; [reflexivity|]. unfold py_or. cbn [truthy].
  destruct (String.eqb_spec x ""); [contradiction | cbn [truthy negb]].
  now destruct (String.eqb_spec x "").
Qed.

End Send.

End SendFacts.

(** X16: What a pull sends for the applications it built.  For each
    update [update_applications] sends one request, in the order of the
    tab, filtered by the application id and writing all six columns with
    the values of the record: an empty status cell is written as a null
    status over the stored one.  For each new application
    [insert_applications] sends one row, whose status is never empty: an
    empty status cell becomes the status draft. *)
Theorem pull_applications_sends :
  forall (rt : runtime) (records : list dict),
    update_applications (snd (apps_loop rt ([], []) records))
    = map (fun u => (get u "application_id", map (fun k => (k, get u k)) application_columns))
          (snd (apps_loop rt ([], []) records)) /\
    (forall u, In u (snd (apps_loop rt ([], []) records)) ->
               get u "status" = VNone ->
               exists fields,
                 In (get u "application_id", fields)
                    (update_applications (snd (apps_loop rt ([], []) records))) /\
                 PyDict.lookup fields "status" = Some VNone) /\
    insert_applications rt (fst (apps_loop rt ([], []) records))
    = map (fun n => [("job_id", VStr (py_str rt (get n "job_id")));
                     ("final_message", get n "final_message");
                     ("status", py_or (get n "status") (VStr "draft"));
                     ("submitted_at", get n "submitted_at");
                     ("connects_spent", get n "connects_spent");
                     ("boosted", get n "boosted");
                     ("proposal_url", get n "proposal_url")])
          (fst (apps_loop rt ([], []) records)) /\
    Forall (fun p => truthy (get p "status") = true)
           (insert_applications rt (fst (apps_loop rt ([], []) records))).
Proof.
  intros rt records.
  destruct (AppFacts.apps_loop_inv rt records ([], [])) as [Hn Hu]; [split; constructor|].
  pose proof (SendFacts.update_applications_built rt _ Hu) as Eu.
  pose proof (SendFacts.insert_applications_built rt _ Hn) as En.
  split; [exact Eu|]. split; [|split; [exact En|]].
  - intros u Hin Hs. eexists. split.
    + rewrite Eu. apply in_map_iff. exists u. split; [reflexivity | exact Hin].
    + cbn [map application_columns PyDict.lookup String.eqb Ascii.eqb Bool.eqb].
      now rewrite Hs.
  - rewrite En. apply Forall_forall. intros p Hp. apply in_map_iff in Hp.
    destruct Hp as (n & <- & Hin).
    destruct (proj1 (Forall_forall _ _) Hn n Hin) as (j & fm & s & sa & cs & b & pu & -> & _ & Hs).
    unfold get, app_new_row. cbn [PyDict.lookup String.eqb Ascii.eqb Bool.eqb].
    now apply (SendFacts.normal_or_draft rt).
Qed.

(* ================================================================== *)
(** ** What a push mirrors *)

Module MirrorFacts.

Lemma existsb_flat_map :
  forall (A B : Type) (p : B -> bool) (f : A -> list B) l,
    existsb p (flat_map f l) = existsb (fun a => existsb p (f a)) l.
Proof.
  intros A B p f. induction l as [|a l IH]; [reflexivity|].
  cbn [flat_map existsb]. now rewrite existsb_app, IH.
Qed.

Lemma existsb_same :
  forall (A : Type) (f g : A -> bool) l,
    (forall a, f a = g a) -> existsb f l = existsb g l.
Proof.
  intros A f g l H. induction l as [|a l IH]; [reflexivity|].
  cbn [existsb]. now rewrite H, IH.
Qed.

Lemma filter_all :
  forall (A : Type) (l : list A), filter (fun _ => true) l = l.
Proof. induction l as [|a l IH]; [reflexivity|]. cbn [filter]. now rewrite IH. Qed.

Section Mirror.
Variable rt : runtime.

Lemma job_ids_to_hide_rows :
  forall apps,
    Forall application_row apps ->
    job_ids_to_hide rt apps
    = Ok (flat_map (fun a => if is_terminal rt a then [py_str rt (get a "job_id")] else []) apps).
Proof.
  intros apps H. induction H as [|a apps [[j Hj] Hs] _ IH]; [reflexivity|].
  cbn [job_ids_to_hide flat_map]. rewrite IH.
  assert (E : py_lower rt (py_or (get a "status") (VStr "")) = Ok (new_status_of rt a)).
  { unfold new_status_of. destruct Hs as [->|(s & ->)].
    - unfold py_or, py_lower. cbn [truthy]. now rewrite lower_empty.
    - unfold py_or. cbn [truthy]. destruct (String.eqb_spec s "") as [->|]; reflexivity. }
  rewrite E. cbn [bind]. unfold is_terminal.
  destruct (existsb (String.eqb (new_status_of rt a)) TERMINAL_APPLICATION_STATUSES).
  - unfold item. rewrite Hj. cbn [bind]. unfold get. now rewrite Hj.
  - reflexivity.
Qed.

Lemma sr_rows_flat :
  forall raw,
    sr_rows rt raw
    = flat_map (fun r => if truthy (get r "search_id") && truthy (get r "job_id")
                         then [PyDict.set r "search_job_key"
                                 (VStr (py_str rt (get r "search_id") ++ "::"
                                        ++ py_str rt (get r "job_id")))]
                         else []) raw.
Proof.
  intros raw. unfold sr_rows.
  rewrite (KeyFacts.fold_append _ _
             (fun r => if truthy (get r "search_id") && truthy (get r "job_id")
                       then [PyDict.set r "search_job_key"
                               (VStr (py_str rt (get r "search_id") ++ "::"
                                      ++ py_str rt (get r "job_id")))]
                       else [])
             (sr_rows_step rt)); [reflexivity|].
  intros acc r. unfold sr_rows_step.
  destruct (truthy (get r "search_id") && truthy (get r "job_id"));
    [reflexivity | now rewrite app_nil_r].
Qed.

End Mirror.

End MirrorFacts.

(** X17: The jobs a push hides: with [hide_terminal] set, a job row
    is mirrored exactly when no application with the text of its job id
    has a terminal status, whatever the case of the status; the rows
    that stay keep their order; without the flag every job row is
    mirrored. *)
Theorem visible_jobs_hides_terminal :
  forall (rt : runtime) (jobs_rows apps_rows : list dict),
    Forall application_row apps_rows ->
    visible_jobs rt true jobs_rows apps_rows
    = Ok (filter (fun j =>
                    negb (existsb (fun a => is_terminal rt a
                                            && String.eqb (py_str rt (get j "job_id"))
                                                          (py_str rt (get a "job_id")))
                                  apps_rows))
                 jobs_rows) /\
    visible_jobs rt false jobs_rows apps_rows = Ok jobs_rows.
Proof.
  intros rt jobs apps H. split; [|reflexivity].
  unfold visible_jobs. cbn [andb].
  destruct apps as [|a apps]; cbn [nonempty].
  - cbn [existsb negb]. now rewrite MirrorFacts.filter_all.
  - rewrite (MirrorFacts.job_ids_to_hide_rows rt _ H). cbn [bind]. f_equal.
    apply filter_ext. intros j. f_equal. rewrite MirrorFacts.existsb_flat_map.
    apply MirrorFacts.existsb_same. intros a0. cbv beta.
    destruct (is_terminal rt a0); cbn [existsb andb]; [now rewrite orb_false_r | reflexivity].
Qed.

Lemma visible_jobs_hides_terminal_witness :
  Forall application_row
    [[("application_id", VInt 1); ("job_id", VStr "a"); ("status", VStr "Rejected")];
     [("application_id", VInt 2); ("job_id", VStr "b"); ("status", VNone)]] /\
  visible_jobs example_runtime true
    [[("job_id", VStr "a")]; [("job_id", VStr "b")]; [("job_id", VStr "c")]]
    [[("application_id", VInt 1); ("job_id", VStr "a"); ("status", VStr "Rejected")];
     [("application_id", VInt 2); ("job_id", VStr "b"); ("status", VNone)]]
  = Ok [[("job_id", VStr "b")]; [("job_id", VStr "c")]].
Proof.
  assert (H : Forall application_row
    [[("application_id", VInt 1); ("job_id", VStr "a"); ("status", VStr "Rejected")];
     [("application_id", VInt 2); ("job_id", VStr "b"); ("status", VNone)]]).
  { constructor; [split; [eexists; reflexivity | right; eexists; reflexivity]|].
    constructor; [split; [eexists; reflexivity | left; reflexivity]|]. constructor. }
  split; [exact H|].
  rewrite (proj1 (visible_jobs_hides_terminal example_runtime
                    [[("job_id", VStr "a")]; [("job_id", VStr "b")]; [("job_id", VStr "c")]]
                    _ H)).
  reflexivity.
Defined.

(** X18: The search results a push mirrors: every row keeps its
    fields and gains the key made of its two ids, which is never empty,
    so [upsert_rows] skips none of them; the rows without one of the ids
    are not mirrored. *)
Theorem sr_rows_are_keyed :
  forall (rt : runtime) (sr_rows_raw : list dict),
    sr_rows rt sr_rows_raw
    = map (fun r => PyDict.set r "search_job_key"
                      (VStr (py_str rt (get r "search_id") ++ "::"
                             ++ py_str rt (get r "job_id"))))
          (filter (fun r => truthy (get r "search_id") && truthy (get r "job_id")) sr_rows_raw) /\
    keyed "search_job_key" (sr_rows rt sr_rows_raw) = sr_rows rt sr_rows_raw /\
    (forall r', In r' (sr_rows rt sr_rows_raw) ->
       exists r, In r sr_rows_raw /\
                 get r' "search_job_key"
                 = VStr (py_str rt (get r "search_id") ++ "::" ++ py_str rt (get r "job_id")) /\
                 forall k, k <> "search_job_key" -> PyDict.lookup r' k = PyDict.lookup r k).
Proof.
  intros rt raw.
  assert (E : sr_rows rt raw
              = map (fun r => PyDict.set r "search_job_key"
                                (VStr (py_str rt (get r "search_id") ++ "::"
                                       ++ py_str rt (get r "job_id"))))
                    (filter (fun r => truthy (get r "search_id") && truthy (get r "job_id")) raw)).
  { rewrite MirrorFacts.sr_rows_flat. induction raw as [|r raw IH]; [reflexivity|].
    cbn [flat_map filter]. rewrite IH.
    now destruct (truthy (get r "search_id") && truthy (get r "job_id")). }
  assert (Hkey : forall r v, get (PyDict.set r "search_job_key" v) "search_job_key" = v).
  { intros r v. unfold get. now rewrite lookup_set_same. }
  split; [exact E|]. split.
  - rewrite E. clear E. unfold keyed.
    induction (filter (fun r => truthy (get r "search_id") && truthy (get r "job_id")) raw)
      as [|r l IH]; [reflexivity|].
    cbn [map filter]. rewrite Hkey, IH. cbn [truthy].
    destruct (py_str rt (get r "search_id")); reflexivity.
  - intros r' Hr'. rewrite E in Hr'. apply in_map_iff in Hr'. destruct Hr' as (r & <- & Hr).
    apply filter_In in Hr. exists r. split; [apply Hr|]. split; [apply Hkey|].
    intros k Hk. apply lookup_set_other. congruence.
Qed.

(* ================================================================== *)
(** ** Deduplicating what is already deduplicated *)

Module DistinctFacts.

Lemma set_fresh :
  forall (V : Type) (d : PyDict.t V) k v,
    ~ In k (PyDict.keys d) -> PyDict.set d k v = d ++ [(k, v)].
Proof.
  intros V. induction d as [|[k' v'] d IH]; intros k v H; [reflexivity|].
  cbn [PyDict.set app]. cbn [PyDict.keys map fst] in H.
  destruct (String.eqb_spec k' k) as [->|Hne].
  - exfalso. apply H. now left.
  - rewrite IH; [reflexivity|]. intros Hin. apply H. now right.
Qed.

Section Distinct.
Variable rt : runtime.

Lemma fold_dedupe_distinct :
  forall rows acc,
    NoDup (map (job_key rt) rows) ->
    (forall r, In r rows -> job_key rt r <> None) ->
    (forall r k, In r rows -> job_key rt r = Some k -> ~ In k (PyDict.keys acc)) ->
    PyDict.values (fold_left (dedupe_jobs_step rt) rows acc) = PyDict.values acc ++ rows.
Proof.
  induction rows as [|r rows IH]; intros acc Hnd Hsome Hfresh; cbn [fold_left].
  - now rewrite app_nil_r.
  - rewrite dedupe_jobs_step_key.
    destruct (job_key rt r) as [k|] eqn:Ek; [|exfalso; apply (Hsome r); [now left | exact Ek]].
    rewrite set_fresh by (apply (Hfresh r k); [now left | exact Ek]).
    cbn [map] in Hnd. rewrite Ek in Hnd. inversion Hnd as [|x l Hnot Hnd']; subst.
    rewrite IH.
    + unfold PyDict.values. rewrite map_app. cbn [map snd]. now rewrite <- app_assoc.
    + exact Hnd'.
    + intros r' Hr'. apply Hsome. now right.
    + intros r' k' Hr' Ek'. unfold PyDict.keys. rewrite map_app. cbn [map fst].
      intros Hin. apply in_app_or in Hin. destruct Hin as [Hin|[<-|[]]].
      * exact (Hfresh r' k' (or_intror Hr') Ek' Hin).
      * apply Hnot. rewrite <- Ek'. now apply in_map.
Qed.

Lemma dedupe_jobs_distinct :
  forall rows,
    NoDup (map (job_key rt) rows) ->
    (forall r, In r rows -> job_key rt r <> None) ->
    _dedupe_jobs rt rows = rows.
Proof.
  intros rows Hnd Hsome. unfold _dedupe_jobs.
  rewrite fold_dedupe_distinct; [reflexivity | exact Hnd | exact Hsome |].
  intros r k _ _ [].
Qed.

End Distinct.

Section First.
Variable K : Type.
Variable key : dict -> option K.
Variable eqb : K -> K -> bool.
Hypothesis eqb_eq : forall a b, eqb a b = true <-> a = b.

Lemma fold_first_distinct :
  forall rows seen kept,
    NoDup (map key rows) ->
    (forall r, In r rows -> key r <> None) ->
    (forall r k, In r rows -> key r = Some k -> ~ In k seen) ->
    snd (fold_left (first_step key eqb) rows (seen, kept)) = kept ++ rows.
Proof.
  induction rows as [|r rows IH]; intros seen kept Hnd Hsome Hfresh; cbn [fold_left].
  - cbn [snd]. now rewrite app_nil_r.
  - unfold first_step at 2.
    destruct (key r) as [k|] eqn:Ek; [|exfalso; apply (Hsome r); [now left | exact Ek]].
    cbn [fst snd].
    destruct (existsb (eqb k) seen) eqn:Ex.
    { exfalso. apply (existsb_eqb_in eqb eqb_eq) in Ex.
      exact (Hfresh r k (or_introl eq_refl) Ek Ex). }
    cbn [map] in Hnd. rewrite Ek in Hnd. inversion Hnd as [|x l Hnot Hnd']; subst.
    rewrite IH.
    + now rewrite <- app_assoc.
    + exact Hnd'.
    + intros r' Hr'. apply Hsome. now right.
    + intros r' k' Hr' Ek' Hin. apply in_app_or in Hin. destruct Hin as [Hin|[<-|[]]].
      * exact (Hfresh r' k' (or_intror Hr') Ek' Hin).
      * apply Hnot. rewrite <- Ek'. now apply in_map.
Qed.

End First.

Lemma dedupe_search_results_distinct :
  forall rt rows,
    NoDup (map (sr_key rt) rows) ->
    (forall r, In r rows -> sr_key rt r <> None) ->
    _dedupe_search_results rt rows = rows.
Proof.
  intros rt rows Hnd Hsome. unfold _dedupe_search_results.
  replace (fold_left (dedupe_sr_step rt) rows ([], []))
    with (fold_left (first_step (sr_key rt) pair_eqb) rows ([], [])).
  - rewrite (fold_first_distinct _ (sr_key rt) pair_eqb pair_eqb_eq);
      [reflexivity | exact Hnd | exact Hsome |].
    intros r k _ _ [].
  - generalize (@nil (string * string), @nil dict).
    induction rows as [|r rows IH]; intros st; [reflexivity|].
    cbn [fold_left]. rewrite dedupe_sr_step_first. apply IH.
    + cbn [map] in Hnd. now inversion Hnd.
    + intros r' Hr'. apply Hsome. now right.
Qed.

Lemma unique_by_job_id_distinct :
  forall rows,
    Forall flat_job rows ->
    NoDup (map flat_key rows) ->
    (forall r, In r rows -> flat_key r <> None) ->
    unique_by_job_id rows = Ok rows.
Proof.
  intros rows Hflat Hnd Hsome. unfold unique_by_job_id.
  pose proof (unique_fold_first rows [] [] Hflat) as E. cbn [map] in E.
  rewrite E. cbn [bind snd].
  rewrite (fold_first_distinct _ flat_key String.eqb String.eqb_eq);
    [reflexivity | exact Hnd | exact Hsome |].
  intros r k _ _ [].
Qed.

End DistinctFacts.

(** X19: Each of the three deduplications gives a list it leaves
    unchanged: deduplicating a second time is the identity, for
    [_dedupe_jobs], for [_dedupe_search_results] and for the loop of
    [process_json_file]. *)
Theorem dedupe_twice_same :
  forall (rt : runtime) (rows : list dict),
    _dedupe_jobs rt (_dedupe_jobs rt rows) = _dedupe_jobs rt rows /\
    _dedupe_search_results rt (_dedupe_search_results rt rows)
    = _dedupe_search_results rt rows /\
    (forall out, Forall flat_job rows -> unique_by_job_id rows = Ok out ->
                 unique_by_job_id out = Ok out).
Proof.
  intros rt rows. split; [|split].
  - destruct (dedupe_jobs_last_wins rt rows) as [[Hnd _] Hlast].
    apply DistinctFacts.dedupe_jobs_distinct; [exact Hnd|].
    intros r Hr. destruct (Hlast r Hr) as (_ & _ & _ & Hne & _). exact Hne.
  - destruct (dedupe_search_results_first_wins rt rows) as [[Hnd _] Hfirst].
    apply DistinctFacts.dedupe_search_results_distinct; [exact Hnd|].
    intros r Hr. destruct (Hfirst r Hr) as (_ & _ & _ & Hne & _). exact Hne.
  - intros out Hflat E.
    destruct (unique_by_job_id_first_wins rows Hflat) as (out' & E' & [Hnd _] & Hfirst).
    rewrite E in E'. injection E' as <-.
    apply DistinctFacts.unique_by_job_id_distinct.
    + apply Forall_forall. intros r Hr. destruct (Hfirst r Hr) as (pre & post & -> & _ & _).
      apply (proj1 (Forall_forall _ _) Hflat). apply in_or_app. right. now left.
    + exact Hnd.
    + intros r Hr. destruct (Hfirst r Hr) as (_ & _ & _ & Hne & _). exact Hne.
Qed.

(** X20: [process_file] deduplicates what [process_json_file]
    returned before it upserts: for the rows of one file both
    deduplications change nothing, since the job ids of the job rows are
    distinct and every search result row has the search id of the file
    and the job id of its job row. *)
Theorem process_file_dedupes_nothing :
  forall (rt : runtime) (path name : string) (data : value)
         (jobs srs : list dict) (req : dict),
    process_json_file rt path name data = Ok (jobs, srs, req) ->
    _dedupe_jobs rt jobs = jobs /\
    (get req "search_id" <> VStr "" -> _dedupe_search_results rt srs = srs).
Proof.
  intros rt path name data jobs srs req H.
  destruct (BatchFileFacts.process_json_file_parts rt _ _ _ _ _ _ H)
    as (sid & Hstr & Hnd & -> & Hreq & _).
  assert (Hkey : forall j, In j jobs -> exists s, get j "job_id" = VStr s /\ s <> "" /\
                                                 flat_key j = Some s /\ job_key rt j = Some s).
  { intros j Hj. destruct (proj1 (Forall_forall _ _) Hstr j Hj) as (s & E & Hs).
    exists s. unfold flat_key, job_key. rewrite E. cbn [truthy py_str].
    destruct (String.eqb_spec s ""); [contradiction|]. auto. }
  split.
  - apply DistinctFacts.dedupe_jobs_distinct.
    + replace (map (job_key rt) jobs) with (map flat_key jobs); [exact Hnd|].
      apply map_ext_in. intros j Hj. destruct (Hkey j Hj) as (s & _ & _ & -> & ->). reflexivity.
    + intros j Hj. destruct (Hkey j Hj) as (s & _ & _ & _ & ->). discriminate.
  - intros Hsid. rewrite Hreq in Hsid.
    assert (Hs : truthy (VStr sid) = true).
    { cbn [truthy]. destruct (String.eqb_spec sid ""); [subst; contradiction | reflexivity]. }
    assert (Hsr : forall j, In j jobs ->
                    exists s, flat_key j = Some s /\
                              sr_key rt (search_result_row sid j) = Some (sid, s)).
    { intros j Hj. destruct (Hkey j Hj) as (s & E & Hne & Ef & _). exists s. split; [exact Ef|].
      unfold sr_key, search_result_row, get at 1 2 3 4.
      cbn [PyDict.lookup String.eqb Ascii.eqb Bool.eqb]. rewrite Hs, E. cbn [truthy py_str andb].
      now destruct (String.eqb_spec s ""). }
    apply DistinctFacts.dedupe_search_results_distinct.
    + rewrite map_map.
      replace (map (fun j => sr_key rt (search_result_row sid j)) jobs)
        with (map (fun j => option_map (pair sid) (flat_key j)) jobs).
      * rewrite <- (map_map flat_key (option_map (pair sid))).
        apply Injective_map_NoDup; [|exact Hnd].
        intros [a|] [b|] E; try discriminate E; [now injection E as -> | reflexivity].
      * apply map_ext_in. intros j Hj. destruct (Hsr j Hj) as (s & -> & ->). reflexivity.
    + intros r Hr. apply in_map_iff in Hr. destruct Hr as (j & <- & Hj).
      destruct (Hsr j Hj) as (s & _ & ->). discriminate.
Qed.

Lemma process_file_dedupes_nothing_witness :
  exists jobs srs req,
    process_json_file example_runtime "/data/20250810112529289-data ai engineer-page3.json"
      "20250810112529289-data ai engineer-page3.json"
      (VList [VDict (payload "first"); VDict (payload "second")])
    = Ok (jobs, srs, req) /\
    _dedupe_jobs example_runtime jobs = jobs /\
    _dedupe_search_results example_runtime srs = srs.
Proof.
  destruct (process_json_file example_runtime
              "/data/20250810112529289-data ai engineer-page3.json"
              "20250810112529289-data ai engineer-page3.json"
              (VList [VDict (payload "first"); VDict (payload "second")]))
    as [[[jobs srs] req]|e] eqn:E; [|vm_compute in E; discriminate E].
  exists jobs, srs, req. split; [reflexivity|].
  destruct (process_file_dedupes_nothing _ _ _ _ _ _ _ E) as [Hj Hs].
  split; [exact Hj|]. apply Hs.
  vm_compute in E. injection E as _ _ <-. discriminate.
Defined.

(* ================================================================== *)
(** ** The jobs that are summarised *)

Module SelectFacts.

Lemma select_firstn :
  forall h jobs count limit,
    Ai.select h jobs count limit
    = firstn (Z.to_nat (limit - count)) (filter (eligible h) jobs).
Proof.
  intros h. induction jobs as [|job jobs IH]; intros count limit; cbn [Ai.select filter].
  - now rewrite firstn_nil.
  - destruct (Z.leb_spec limit count) as [Hle|Hlt].
    + replace (Z.to_nat (limit - count)) with 0 by lia. reflexivity.
    + unfold eligible at 1.
      destruct (truthy (get (Ai.record_at h job) "description_summary")
                || negb (truthy (get (Ai.record_at h job) "description"))); cbn [negb].
      * apply IH.
      * rewrite IH. replace (Z.to_nat (limit - count)) with (S (Z.to_nat (limit - (count + 1))))
          by lia.
        reflexivity.
Qed.

Lemma in_firstn :
  forall (A : Type) n (l : list A) x, In x (firstn n l) -> In x l.
Proof.
  intros A n l x H. rewrite <- (firstn_skipn n l). apply in_or_app. now left.
Qed.

End SelectFacts.

(** X21: The jobs [summarize_jobs] makes a call for are the first
    [limit] jobs of the list that have a description and no summary, in
    the order of the list; with a limit of zero or less no record is
    touched.  A record that received a summary is not taken again by a
    later run, so a summary is paid for once. *)
Theorem summarize_jobs_selects_first :
  forall (h : Ai.heap) (jobs : list nat) (limit : Z),
    Ai.select h jobs 0 limit = firstn (Z.to_nat limit) (filter (eligible h) jobs) /\
    List.length (Ai.select h jobs 0 limit) <= Z.to_nat limit /\
    (forall j, In j (Ai.select h jobs 0 limit) ->
               truthy (get (Ai.record_at h j) "description") = true /\
               truthy (get (Ai.record_at h j) "description_summary") = false) /\
    (forall api_key model created schedule,
        (limit <= 0)%Z ->
        Ai.summarize_jobs api_key model limit created schedule h jobs = h) /\
    (forall model j created jobs' limit',
        j < List.length h -> call_text created <> "" ->
        ~ In j (Ai.select (Ai.run model h j created) jobs' 0 limit')).
Proof.
  intros h jobs limit.
  assert (E : forall h' jobs' limit',
             Ai.select h' jobs' 0 limit' = firstn (Z.to_nat limit') (filter (eligible h') jobs')).
  { intros h' jobs' limit'. rewrite SelectFacts.select_firstn. f_equal. f_equal. lia. }
  assert (Hel : forall h' jobs' limit' j, In j (Ai.select h' jobs' 0 limit') -> eligible h' j = true).
  { intros h' jobs' limit' j Hj. rewrite E in Hj. apply SelectFacts.in_firstn in Hj.
    apply filter_In in Hj. apply Hj. }
  split; [apply E|]. split; [|split; [|split]].
  - rewrite E. rewrite length_firstn. lia.
  - intros j Hj. apply Hel in Hj. unfold eligible in Hj.
    apply negb_true_iff in Hj. apply orb_false_iff in Hj. destruct Hj as [Hs Hd].
    apply negb_false_iff in Hd. now split.
  - intros api_key model created schedule Hl. unfold Ai.summarize_jobs.
    destruct (String.eqb api_key ""); [reflexivity|].
    rewrite E. replace (Z.to_nat limit) with 0 by lia. cbn [firstn].
    induction schedule as [|i schedule IH]; [reflexivity|].
    cbn [fold_left]. unfold Ai.resolve at 2. now destruct i.
  - intros model j created jobs' limit' Hj Ht Hin. apply Hel in Hin.
    rewrite AiFacts.run_summarized in Hin. unfold eligible in Hin.
    rewrite AiFacts.record_at_update_same in Hin by exact Hj.
    unfold summarized in Hin.
    destruct (String.eqb_spec (call_text created) ""); [contradiction|].
    destruct (AiFacts.add_summary_fields model (call_text created) (call_tokens created)
                (Ai.record_at h j)) as [Hs _].
    rewrite Hs in Hin. cbn [truthy] in Hin.
    destruct (String.eqb_spec (call_text created) ""); [contradiction | discriminate Hin].
Qed.

(* ================================================================== *)
(** ** The fields Airtable receives *)

Module AirtableFacts.

Lemma lookup_fields :
  forall (f : string -> value) keys k,
    PyDict.lookup (map (fun k' => (k', f k')) keys) k
    = if existsb (String.eqb k) keys then Some (f k) else None.
Proof.
  intros f. induction keys as [|k' keys IH]; intros k; [reflexivity|].
  cbn [map PyDict.lookup existsb]. rewrite (String.eqb_sym k k').
  destruct (String.eqb_spec k' k) as [->|]; [reflexivity | apply IH].
Qed.

Lemma lookup_filter :
  forall (p : value -> bool) (d : dict) k,
    NoDup (PyDict.keys d) ->
    PyDict.lookup (filter (fun kv => p (snd kv)) d) k
    = match PyDict.lookup d k with
      | Some v => if p v then Some v else None
      | None => None
      end.
Proof.
  intros p. induction d as [|[k' v] d IH]; intros k Hnd; [reflexivity|].
  cbn [PyDict.keys map fst] in Hnd. inversion Hnd as [|x l Hnot Hnd']; subst.
  cbn [filter snd PyDict.lookup].
  destruct (String.eqb_spec k' k) as [->|Hne].
  - destruct (p v) eqn:Ep.
    + cbn [PyDict.lookup]. now rewrite String.eqb_refl.
    + rewrite (IH k Hnd'). rewrite (lookup_not_in_keys d k Hnot). reflexivity.
  - destruct (p v); [|now apply IH].
    cbn [PyDict.lookup]. destruct (String.eqb_spec k' k); [contradiction | now apply IH].
Qed.

Lemma keys_filter :
  forall (p : value -> bool) (f : string -> value) keys,
    PyDict.keys (filter (fun kv => p (snd kv)) (map (fun k => (k, f k)) keys))
    = filter (fun k => p (f k)) keys.
Proof.
  intros p f. induction keys as [|k keys IH]; [reflexivity|].
  cbn [map filter snd]. destruct (p (f k)); cbn [PyDict.keys map fst]; [f_equal|]; exact IH.
Qed.

Section Airtable.
Variable rt : runtime.

Lemma normalize_job_row_fields :
  forall row,
    _normalize_job_row rt row
    = filter (fun kv => negb (is_none (snd kv)))
             (map (fun k => (k, airtable_value rt row k)) airtable_fields).
Proof. reflexivity. Qed.

End Airtable.

End AirtableFacts.

(** X22: What [_normalize_job_row] sends to Airtable: only the
    twenty-eight fields of the literal, in its order, and none with the
    value [None]; a field that is sent holds what the row holds, except
    that a list under [skills] is joined with commas and a [dict] under
    [relevance_encoded] is written as JSON.  What the row holds under
    any other key, the summary of the description among them, is not
    sent. *)
Theorem normalize_job_row_sends :
  forall (rt : runtime) (row : dict),
    (forall k,
        PyDict.lookup (_normalize_job_row rt row) k
        = if existsb (String.eqb k) airtable_fields
          then (if is_none (airtable_value rt row k) then None
                else Some (airtable_value rt row k))
          else None) /\
    PyDict.keys (_normalize_job_row rt row)
    = filter (fun k => negb (is_none (airtable_value rt row k))) airtable_fields /\
    (forall k v, PyDict.lookup (_normalize_job_row rt row) k = Some v -> v <> VNone) /\
    PyDict.lookup (_normalize_job_row rt row) "description_summary" = None /\
    (forall l, get row "skills" = VList l ->
               get (_normalize_job_row rt row) "skills"
               = VStr (Str.join ", " (map (py_str rt) l))).
Proof.
  intros rt row.
  assert (Hl : forall k,
             PyDict.lookup (_normalize_job_row rt row) k
             = if existsb (String.eqb k) airtable_fields
               then (if is_none (airtable_value rt row k) then None
                     else Some (airtable_value rt row k))
               else None).
  { intros k. rewrite AirtableFacts.normalize_job_row_fields.
    rewrite (AirtableFacts.lookup_filter (fun v => negb (is_none v))).
    - rewrite AirtableFacts.lookup_fields.
      destruct (existsb (String.eqb k) airtable_fields); [|reflexivity].
      now destruct (is_none (airtable_value rt row k)).
    - unfold PyDict.keys. rewrite map_map. cbn [fst]. rewrite map_id.
      unfold airtable_fields.
      repeat (constructor; [cbn [In]; intros H; repeat (destruct H as [H|H]; [discriminate H|]);
                            exact H|]).
      constructor. }
  split; [exact Hl|]. split; [|split; [|split]].
  - rewrite AirtableFacts.normalize_job_row_fields.
    apply (AirtableFacts.keys_filter (fun v => negb (is_none v))).
  - intros k v H. rewrite Hl in H.
    destruct (existsb (String.eqb k) airtable_fields); [|discriminate H].
    destruct (is_none (airtable_value rt row k)) eqn:En; [discriminate H|].
    injection H as <-. intros E. rewrite E in En. discriminate En.
  - rewrite Hl. reflexivity.
  - intros l E. unfold get at 1. rewrite Hl. cbn [existsb String.eqb Ascii.eqb Bool.eqb orb].
    unfold airtable_value. cbn [String.eqb Ascii.eqb Bool.eqb]. rewrite E. reflexivity.
Qed.

(** X23: [batch_upsert_jobs] sends every row once and in order: with
    a positive batch size the calls, put end to end, are the normalised
    rows, each wrapped under [fields], and every call holds between one
    and [batch_size] of them; without rows it makes no call, whatever
    the batch size; with rows, a size of zero raises ValueError and a
    negative size sends nothing. *)
Theorem batch_upsert_jobs_sends_all :
  forall (rt : runtime) (rows : list dict),
    (forall bz, (0 < bz)%Z ->
       exists calls,
         batch_upsert_jobs rt rows bz = Ok calls /\
         List.concat calls
         = map (fun r => [("fields", VDict (_normalize_job_row rt r))]) rows /\
         Forall (chunk_within (Z.to_nat bz)) calls) /\
    (forall bz, batch_upsert_jobs rt [] bz = Ok []) /\
    (rows <> [] -> batch_upsert_jobs rt rows 0 = Raise ValueError) /\
    (forall bz, (bz < 0)%Z -> batch_upsert_jobs rt rows bz = Ok []).
Proof.
  intros rt rows. split; [|split; [|split]].
  - intros bz Hb. unfold batch_upsert_jobs.
    destruct (BatchFacts.batches_chunks _ (map (_normalize_job_row rt) rows) bz Hb)
      as (chunks & E & Hc & Hs).
    destruct (map (_normalize_job_row rt) rows) as [|f fs] eqn:Em.
    + exists []. split; [reflexivity|]. split; [|constructor].
      destruct rows; [reflexivity | discriminate Em].
    + rewrite E. cbn [bind]. eexists. split; [reflexivity|]. split.
      * rewrite <- concat_map.
        apply (f_equal (map (fun f0 : dict => [("fields", VDict f0)]))) in Hc.
        etransitivity; [exact Hc|]. rewrite <- Em, map_map. reflexivity.
      * apply Forall_forall. intros c Hin. apply in_map_iff in Hin.
        destruct Hin as (c' & <- & Hin'). unfold chunk_within. rewrite length_map.
        exact (proj1 (Forall_forall _ _) Hs c' Hin').
  - reflexivity.
  - intros Hne. unfold batch_upsert_jobs. destruct rows as [|r rows]; [contradiction|].
    reflexivity.
  - intros bz Hb. unfold batch_upsert_jobs.
    destruct (map (_normalize_job_row rt) rows); [reflexivity|].
    unfold batches. destruct (Z.eqb_spec bz 0); [lia|]. destruct (Z.ltb_spec bz 0); [|lia].
    reflexivity.
Qed.

(* ================================================================== *)
(** ** The jobs found in a page *)

Module NuxtFacts.

Lemma first_list_dicts :
  forall cands, Forall (fun v => is_dict v = true) (first_list cands).
Proof.
  induction cands as [|c cands IH]; [constructor|].
  destruct c; cbn [first_list]; try exact IH.
  apply Forall_forall. intros v Hv. apply filter_In in Hv. apply Hv.
Qed.

Lemma first_list_none :
  forall cands, Forall (fun v => is_list v = false) cands -> first_list cands = [].
Proof.
  intros cands H. induction H as [|c cands Hc _ IH]; [reflexivity|].
  destruct c; cbn [first_list]; try exact IH. discriminate Hc.
Qed.

Lemma first_list_skip :
  forall pre rest,
    Forall (fun v => is_list v = false) pre -> first_list (pre ++ rest) = first_list rest.
Proof.
  intros pre rest H. induction H as [|c pre Hc _ IH]; [reflexivity|].
  destruct c; cbn [app first_list]; try exact IH. discriminate Hc.
Qed.

End NuxtFacts.

(** X24: [_extract_jobs_from_nuxt_object] returns [dict]s only; the
    list under [state.jobsSearch.jobs] is the one it reads whenever it
    is a list, even an empty one, whatever else the page holds; when
    that is no list, the list under [state.feedBestMatch.jobs] is read;
    and without a state the first top-level list that looks like jobs
    is read, or nothing. *)
Theorem extract_jobs_reads_first_list :
  forall nuxt_obj : dict,
    Forall (fun v => is_dict v = true) (_extract_jobs_from_nuxt_object nuxt_obj) /\
    (forall state search l,
        get nuxt_obj "state" = VDict state -> state <> [] ->
        get state "jobsSearch" = VDict search -> search <> [] ->
        get search "jobs" = VList l ->
        _extract_jobs_from_nuxt_object nuxt_obj = filter is_dict l) /\
    (forall state feed l,
        get nuxt_obj "state" = VDict state -> state <> [] ->
        truthy (get state "jobsSearch") = false ->
        get state "feedBestMatch" = VDict feed -> feed <> [] ->
        get feed "jobs" = VList l ->
        _extract_jobs_from_nuxt_object nuxt_obj = filter is_dict l) /\
    (truthy (get nuxt_obj "state") = false ->
     Forall (fun kv => looks_like_jobs (snd kv) = false) nuxt_obj ->
     _extract_jobs_from_nuxt_object nuxt_obj = []).
Proof.
  intros nuxt. split; [apply NuxtFacts.first_list_dicts|]. split; [|split].
  - intros state search l Es Hs Ej Hj El.
    unfold _extract_jobs_from_nuxt_object, candidates, py_or.
    rewrite Es. destruct state as [|kv state]; [contradiction|]. cbn [truthy].
    unfold jobs_of_part at 1, py_or. rewrite Ej.
    destruct search as [|kv' search]; [contradiction|]. cbn [truthy].
    rewrite El. reflexivity.
  - intros state feed l Es Hs Tj Ef Hf El.
    unfold _extract_jobs_from_nuxt_object, candidates, py_or.
    rewrite Es. destruct state as [|kv state]; [contradiction|]. cbn [truthy].
    unfold jobs_of_part, py_or. rewrite Tj, Ef.
    destruct feed as [|kv' feed]; [contradiction|]. cbn [truthy].
    rewrite El. reflexivity.
  - intros Ts Hscan. unfold _extract_jobs_from_nuxt_object, candidates, py_or. rewrite Ts.
    cbn [jobs_of_part]. unfold jobs_of_part, get. cbn [PyDict.lookup py_or truthy app].
    apply NuxtFacts.first_list_none.
    apply Forall_forall. intros v Hv. destruct Hv as [<-|[<-|Hv]]; try reflexivity.
    apply in_flat_map in Hv. destruct Hv as (kv & Hkv & Hin).
    rewrite (proj1 (Forall_forall _ _) Hscan kv Hkv) in Hin. destruct Hin.
Qed.

(* ================================================================== *)
(** ** The notes of a pull *)

Module NoteFacts.

Section Notes.
Variable rt : runtime.

Lemma notes_fold :
  forall records st,
    fold_left notes_step records st
    = (fst st ++ flat_map new_note records, snd st ++ flat_map changed_note records).
Proof.
  induction records as [|r records IH]; intros [new upd]; cbn [fold_left flat_map fst snd].
  - now rewrite !app_nil_r.
  - rewrite IH. unfold notes_step, new_note, changed_note. cbn [fst snd].
    destruct (truthy (get r "note_id")); cbn [negb andb app fst snd].
    + now rewrite <- app_assoc.
    + destruct (truthy (get r "job_id") && truthy (get r "note_text")); cbn [app fst snd].
      * now rewrite <- app_assoc.
      * reflexivity.
Qed.

Lemma update_job_notes_changed :
  forall records,
    update_job_notes (flat_map changed_note records)
    = map updated_note (filter (fun r => truthy (get r "note_id")) records).
Proof.
  intros records. unfold update_job_notes.
  rewrite (KeyFacts.fold_append _ _
             (fun r => if negb (truthy (get r "note_id")) then []
                       else match flat_map (fun k => match PyDict.lookup r k with
                                                     | Some v => [(k, v)]
                                                     | None => []
                                                     end)
                                           ["note_text"; "author"; "application_id"] with
                            | [] => []
                            | fields => [(get r "note_id", fields)]
                            end)).
  - cbn [app].
    match goal with
    | |- flat_map ?g _ = _ => set (G := g)
    end.
    induction records as [|r records IH]; [reflexivity|].
    change (flat_map changed_note (r :: records))
      with (changed_note r ++ flat_map changed_note records).
    rewrite flat_map_app, IH. cbn [filter]. unfold changed_note.
    destruct (truthy (get r "note_id")) eqn:T; [|reflexivity].
    subst G. cbn [flat_map app map]. unfold get at 1.
    cbn [PyDict.lookup String.eqb Ascii.eqb Bool.eqb]. rewrite T. reflexivity.
  - intros acc r. destruct (negb (truthy (get r "note_id"))); [now rewrite app_nil_r|].
    destruct (flat_map _ _); [now rewrite app_nil_r | reflexivity].
Qed.

Lemma insert_job_notes_new :
  forall records,
    insert_job_notes rt (flat_map new_note records)
    = map (inserted_note rt)
          (filter (fun r => negb (truthy (get r "note_id")) && truthy (get r "job_id")
                            && truthy (get r "note_text")) records).
Proof.
  intros records. unfold insert_job_notes.
  rewrite (KeyFacts.fold_append _ _
             (fun r => if negb (truthy (get r "job_id")) || negb (truthy (get r "note_text"))
                       then [] else [inserted_note rt r])).
  - cbn [app].
    match goal with
    | |- flat_map ?g _ = _ => set (G := g)
    end.
    induction records as [|r records IH]; [reflexivity|].
    change (flat_map new_note (r :: records)) with (new_note r ++ flat_map new_note records).
    rewrite flat_map_app, IH. cbn [filter]. unfold new_note.
    destruct (negb (truthy (get r "note_id")) && truthy (get r "job_id")
              && truthy (get r "note_text")) eqn:T; [|reflexivity].
    apply andb_prop in T. destruct T as [T Tt]. apply andb_prop in T. destruct T as [_ Tj].
    subst G. cbn [flat_map app map]. unfold inserted_note, get in Tj, Tt |- *.
    cbn [PyDict.lookup String.eqb Ascii.eqb Bool.eqb]. rewrite Tj, Tt. reflexivity.
  - intros acc r.
    destruct (negb (truthy (get r "job_id")) || negb (truthy (get r "note_text")));
      [now rewrite app_nil_r | reflexivity].
Qed.

End Notes.

End NoteFacts.

(** X25: What a pull sends for the notes: for each record of the tab
    that has a note id, one update of that note, in the order of the
    tab, writing the text, the author and the application id as the
    record has them, an emptied cell included; for each record without
    a note id that has a job id and a text, one inserted note, whose
    author is never empty (it falls back to user) and whose application
    id is [None] when the cell is empty; the other records send
    nothing. *)
Theorem pull_notes_sends :
  forall (rt : runtime) (records : list dict),
    update_job_notes (snd (notes_loop records))
    = map updated_note (filter (fun r => truthy (get r "note_id")) records) /\
    insert_job_notes rt (fst (notes_loop records))
    = map (inserted_note rt)
          (filter (fun r => negb (truthy (get r "note_id")) && truthy (get r "job_id")
                            && truthy (get r "note_text")) records) /\
    Forall (fun p => truthy (get p "author") = true /\
                     truthy (get p "note_text") = true /\
                     (get p "application_id" = VNone \/
                      truthy (get p "application_id") = true))
           (insert_job_notes rt (fst (notes_loop records))).
Proof.
  intros rt records. unfold notes_loop. rewrite NoteFacts.notes_fold. cbn [fst snd app].
  rewrite NoteFacts.update_job_notes_changed, NoteFacts.insert_job_notes_new.
  split; [reflexivity|]. split; [reflexivity|].
  apply Forall_forall. intros p Hp. apply in_map_iff in Hp. destruct Hp as (r & <- & Hr).
  apply filter_In in Hr. destruct Hr as [_ T].
  apply andb_prop in T. destruct T as [_ Tt].
  unfold inserted_note, get at 1 2 3 5.
  cbn [PyDict.lookup String.eqb Ascii.eqb Bool.eqb]. split; [|split; [exact Tt|]].
  - unfold py_or. destruct (truthy (get r "author")) eqn:Ta; [exact Ta | reflexivity].
  - unfold py_or. destruct (truthy (get r "application_id")) eqn:Ta; [right; exact Ta | now left].
Qed.

(* ================================================================== *)
(** ** [_strip_html] *)

Module StripFacts.

Lemma find_gt_app :
  forall p q r, find_gt p = Some r -> find_gt (p ++ q) = Some (r ++ q)%string.
Proof.
  induction p as [|a p IH]; intros q r H; [discriminate|]. cbn [find_gt append] in *.
  destruct (Ascii.eqb a ">"%char); [now injection H as <-|].
  destruct (Ascii.eqb a Str.newline); [discriminate | now apply IH].
Qed.

Lemma tag_free_prefix :
  forall p q, tag_free (p ++ q) = true -> tag_free p = true.
Proof.
  induction p as [|a p IH]; intros q H; [reflexivity|]. cbn [tag_free append] in *.
  apply andb_prop in H. destruct H as [Ha Hp]. rewrite (IH q Hp), andb_true_r.
  destruct (Ascii.eqb a "<"%char); [|reflexivity]. cbn [andb] in *.
  destruct (find_gt p) as [r|] eqn:E; [|reflexivity].
  now rewrite (find_gt_app p q r E) in Ha.
Qed.

Lemma tag_free_suffix :
  forall p q, tag_free (p ++ q) = true -> tag_free q = true.
Proof.
  induction p as [|a p IH]; intros q H; [exact H|]. cbn [tag_free append] in H.
  apply andb_prop in H. destruct H as [_ Hp]. exact (IH q Hp).
Qed.

(** What [lstrip] leaves is the end of the text. *)
Lemma lstrip_suffix_within :
  forall n s, String.length s <= n -> exists p, s = (p ++ Str.lstrip s)%string.
Proof.
  induction n as [|n IH]; intros s Hn.
  - destruct s; [now exists "" | cbn in Hn; lia].
  - destruct s as [|a s1]; [now exists ""|]. cbn [String.length] in Hn. cbn [Str.lstrip].
    destruct (Str.is_space a).
    { destruct (IH s1 ltac:(lia)) as [p Hp]. exists (String a p). cbn [append]. now rewrite <- Hp. }
    destruct s1 as [|b s2]; [now exists ""|]. cbn [String.length] in Hn.
    destruct (Str.is_space2 a b).
    { destruct (IH s2 ltac:(lia)) as [p Hp]. exists (String a (String b p)).
      cbn [append]. now rewrite <- Hp. }
    destruct s2 as [|c s3]; [now exists ""|]. cbn [String.length] in Hn.
    destruct (Str.is_space3 a b c); [|now exists ""].
    destruct (IH s3 ltac:(lia)) as [p Hp]. exists (String a (String b (String c p))).
    cbn [append]. now rewrite <- Hp.
Qed.

Lemma lstrip_suffix : forall s, exists p, s = (p ++ Str.lstrip s)%string.
Proof. intros s. exact (lstrip_suffix_within (String.length s) s (le_n _)). Qed.

Lemma tag_free_lstrip :
  forall s, tag_free s = true -> tag_free (Str.lstrip s) = true.
Proof.
  intros s H. destruct (lstrip_suffix s) as [p E]. rewrite E in H.
  exact (tag_free_suffix _ _ H).
Qed.

(** What [rstrip] leaves is the start of the text. *)
Lemma rstrip_prefix : forall s, exists q, s = (Str.rstrip s ++ q)%string.
Proof.
  induction s as [|a s [q IH]]; [now exists ""|]. cbn [Str.rstrip].
  destruct (Str.lstrip (String a s)).
  - now exists (String a s).
  - exists q. cbn [append]. now rewrite <- IH.
Qed.

Lemma tag_free_strip :
  forall s, tag_free s = true -> tag_free (Str.strip s) = true.
Proof.
  intros s H. unfold Str.strip. apply tag_free_lstrip in H.
  destruct (rstrip_prefix (Str.lstrip s)) as [q E]. rewrite E in H.
  exact (tag_free_prefix _ _ H).
Qed.

Lemma rstrip_length : forall s, String.length (Str.rstrip s) <= String.length s.
Proof.
  intros s. destruct (rstrip_prefix s) as [q E]. rewrite E at 2.
  rewrite ReFacts.length_append. lia.
Qed.

Lemma lstrip_length : forall s, String.length (Str.lstrip s) <= String.length s.
Proof.
  intros s. destruct (lstrip_suffix s) as [p E]. rewrite E at 2.
  rewrite ReFacts.length_append. lia.
Qed.

(** One step of the substitution of the tags by a blank. *)
Lemma sub_blank_step :
  forall fuel a s,
    Re.sub_from (S fuel) html_tag_re " " (String a s)
    = if Ascii.eqb a "<"%char
      then match find_gt s with
           | Some rest => String " "%char (Re.sub_from fuel html_tag_re " " rest)
           | None => String a (Re.sub_from fuel html_tag_re " " s)
           end
      else String a (Re.sub_from fuel html_tag_re " " s).
Proof.
  intros fuel a s. cbn [Re.sub_from]. rewrite TagFacts.match_tag.
  destruct (Ascii.eqb a "<"%char); [|reflexivity].
  destruct (find_gt s); reflexivity.
Qed.

Lemma find_gt_sub_blank_none :
  forall fuel s, find_gt s = None -> find_gt (Re.sub_from fuel html_tag_re " " s) = None.
Proof.
  induction fuel as [|fuel IH]; intros s H; [exact H|].
  destruct s as [|a s]; [reflexivity|]. rewrite sub_blank_step.
  cbn [find_gt] in H.
  destruct (Ascii.eqb a ">"%char) eqn:Egt; [discriminate|].
  destruct (Ascii.eqb a Str.newline) eqn:Enl.
  - destruct (Ascii.eqb a "<"%char) eqn:Elt.
    + apply Ascii.eqb_eq in Elt. subst a. discriminate Enl.
    + cbn [find_gt]. now rewrite Egt, Enl.
  - rewrite H. destruct (Ascii.eqb a "<"%char); cbn [find_gt]; rewrite Egt, Enl; now apply IH.
Qed.

Lemma sub_blank_tag_free :
  forall fuel s,
    String.length s < fuel -> tag_free (Re.sub_from fuel html_tag_re " " s) = true.
Proof.
  induction fuel as [|fuel IH]; intros s Hf; [lia|].
  destruct s as [|a s]; [reflexivity|]. rewrite sub_blank_step. cbn [String.length] in Hf.
  destruct (Ascii.eqb a "<"%char) eqn:Elt.
  - destruct (find_gt s) as [rest|] eqn:Eg.
    + cbn [tag_free Ascii.eqb Bool.eqb andb negb]. apply IH.
      apply TagFacts.find_gt_shorter in Eg. lia.
    + cbn [tag_free]. rewrite (find_gt_sub_blank_none fuel s Eg), andb_false_r. cbn [negb andb].
      apply IH. lia.
  - cbn [tag_free]. rewrite Elt. cbn [andb negb]. apply IH. lia.
Qed.

Lemma sub_blank_length :
  forall fuel s, String.length (Re.sub_from fuel html_tag_re " " s) <= String.length s.
Proof.
  induction fuel as [|fuel IH]; intros s; [cbn; lia|].
  destruct s as [|a s]; [cbn; lia|]. rewrite sub_blank_step.
  destruct (Ascii.eqb a "<"%char).
  - destruct (find_gt s) as [rest|] eqn:Eg.
    + apply TagFacts.find_gt_shorter in Eg. specialize (IH rest). cbn [String.length]. lia.
    + cbn [String.length]. specialize (IH s). lia.
  - cbn [String.length]. specialize (IH s). lia.
Qed.

End StripFacts.

(** X26: The module-level [_strip_html] puts a blank for every tag
    and strips the result: the text it returns holds no tag and is not
    longer than the input; [None] stays [None], and a value that is
    neither raises TypeError. *)
Theorem strip_html_blanks_tags :
  (forall s, exists t,
      _strip_html (VStr s) = Ok (VStr t) /\ tag_free t = true /\
      String.length t <= String.length s) /\
  _strip_html VNone = Ok VNone /\
  (forall v, is_str v = false -> is_none v = false -> _strip_html v = Raise TypeError) /\
  _strip_html (VStr " <p>Fix the <b>crawler</b></p> ") = Ok (VStr "Fix the  crawler").
Proof.
  split; [|split; [|split]].
  - intros s. eexists. split; [reflexivity|]. split.
    + apply StripFacts.tag_free_strip. apply StripFacts.sub_blank_tag_free. lia.
    + unfold Str.strip.
      pose proof (StripFacts.rstrip_length (Str.lstrip (Re.sub html_tag_re " " s))).
      pose proof (StripFacts.lstrip_length (Re.sub html_tag_re " " s)).
      pose proof (StripFacts.sub_blank_length (S (String.length s)) s).
      unfold Re.sub in *. lia.
  - reflexivity.
  - intros v Hs Hn. destruct v; try reflexivity; discriminate.
  - reflexivity.
Qed.

(* ================================================================== *)
(** ** The timestamp of a batch *)

Module TimestampFacts.
Import Re.

Lemma in_z_range :
  forall lo n z, (lo <= z < lo + Z.of_nat n)%Z -> In z (z_range lo n).
Proof.
  intros lo n z H. unfold z_range. apply in_map_iff.
  exists (Z.to_nat (z - lo)). split; [lia|]. apply in_seq. lia.
Qed.

Lemma two_digits_checked : forallb (pads_to 2) (z_range 0 60) = true.
Proof. vm_compute. reflexivity. Qed.

Lemma four_digits_checked : forallb (pads_to 4) (z_range 0 (100 * 100)) = true.
Proof. vm_compute. reflexivity. Qed.

Lemma pads_to_spec :
  forall w z,
    pads_to w z = true ->
    String.length (Str.zero_pad w z) = w /\
    Str.all_chars Str.is_digit (Str.zero_pad w z) = true /\
    Str.int_of_digits (Str.lstrip (Str.zero_pad w z)) = z.
Proof.
  intros w z H. unfold pads_to in H.
  apply andb_prop in H. destruct H as [H H3]. apply andb_prop in H. destruct H as [H1 H2].
  apply Nat.eqb_eq in H1. apply Z.eqb_eq in H3. auto.
Qed.

Lemma two_digits :
  forall z, (0 <= z <= 59)%Z ->
    String.length (Str.zero_pad 2 z) = 2 /\
    Str.all_chars Str.is_digit (Str.zero_pad 2 z) = true /\
    Str.int_of_digits (Str.lstrip (Str.zero_pad 2 z)) = z.
Proof.
  intros z H. apply pads_to_spec.
  apply (proj1 (forallb_forall _ _) two_digits_checked). apply in_z_range. lia.
Qed.

Lemma four_digits :
  forall z, (0 <= z <= 9999)%Z ->
    String.length (Str.zero_pad 4 z) = 4 /\
    Str.all_chars Str.is_digit (Str.zero_pad 4 z) = true /\
    Str.int_of_digits (Str.lstrip (Str.zero_pad 4 z)) = z.
Proof.
  intros z H. apply pads_to_spec.
  apply (proj1 (forallb_forall _ _) four_digits_checked). apply in_z_range. lia.
Qed.

Lemma consumed_two :
  forall a b s, Str.consumed (String a (String b s)) s = String a (String b "").
Proof. intros a b s. apply (ReFacts.consumed_app (String a (String b "")) s). Qed.

Lemma consumed_four :
  forall a b c d s,
    Str.consumed (String a (String b (String c (String d s)))) s
    = String a (String b (String c (String d ""))).
Proof.
  intros a b c d s. apply (ReFacts.consumed_app (String a (String b (String c (String d "")))) s).
Qed.

Section Fields.
Variable T : Type.

(** The year reads its four digits. *)
Lemma run_year :
  forall y s g (k : string -> groupdict -> option T),
    String.length y = 4 -> Str.all_chars Str.is_digit y = true ->
    run Datetime.re_Y (y ++ s) g k = k s (("Y", y) :: g).
Proof.
  intros y s g k Hl Hd.
  destruct y as [|a [|b [|c [|d [|e y]]]]]; try discriminate Hl. clear Hl.
  cbn [Str.all_chars] in Hd.
  repeat (apply andb_prop in Hd; let H := fresh "D" in destruct Hd as [H Hd]).
  unfold Datetime.re_Y, Datetime.d. cbn [seq run cls_match append].
  rewrite D, D0, D1, D2. now rewrite consumed_four.
Qed.

Ltac by_value z n :=
  let Hin := fresh "Hin" in
  assert (Hin : In z (z_range 0 n)) by (apply in_z_range; lia);
  vm_compute in Hin;
  repeat (destruct Hin as [<-|Hin]; [try (exfalso; lia)|]);
  try contradiction.

Ltac eval_classes :=
  repeat match goal with
         | |- context [cls_match ?c ?a] =>
             let v := eval vm_compute in (cls_match c a) in
             change (cls_match c a) with v; cbv iota
         end.

Ltac read_two Hk :=
  match goal with
  | |- context [Str.zero_pad 2 ?z] =>
      let v := eval vm_compute in (Str.zero_pad 2 z) in
      change (Str.zero_pad 2 z) with v in Hk |- *
  end;
  cbn [alt run append]; eval_classes; rewrite ?consumed_two; rewrite Hk; reflexivity.

Lemma run_month :
  forall z s g (k : string -> groupdict -> option T) x,
    (1 <= z <= 12)%Z ->
    k s (("m", Str.zero_pad 2 z) :: g) = Some x ->
    run Datetime.re_m (Str.zero_pad 2 z ++ s) g k = Some x.
Proof.
  intros z s g k x Hz Hk. unfold Datetime.re_m, Datetime.c, Datetime.rg, Datetime.d.
  by_value z 13; read_two Hk.
Qed.

Lemma run_day :
  forall z s g (k : string -> groupdict -> option T) x,
    (1 <= z <= 31)%Z ->
    k s (("d", Str.zero_pad 2 z) :: g) = Some x ->
    run Datetime.re_d (Str.zero_pad 2 z ++ s) g k = Some x.
Proof.
  intros z s g k x Hz Hk. unfold Datetime.re_d, Datetime.c, Datetime.rg, Datetime.d.
  by_value z 32; read_two Hk.
Qed.

Lemma run_hour :
  forall z s g (k : string -> groupdict -> option T) x,
    (0 <= z <= 23)%Z ->
    k s (("H", Str.zero_pad 2 z) :: g) = Some x ->
    run Datetime.re_H (Str.zero_pad 2 z ++ s) g k = Some x.
Proof.
  intros z s g k x Hz Hk. unfold Datetime.re_H, Datetime.c, Datetime.rg, Datetime.d.
  by_value z 24; read_two Hk.
Qed.

Lemma run_minute :
  forall z s g (k : string -> groupdict -> option T) x,
    (0 <= z <= 59)%Z ->
    k s (("M", Str.zero_pad 2 z) :: g) = Some x ->
    run Datetime.re_M (Str.zero_pad 2 z ++ s) g k = Some x.
Proof.
  intros z s g k x Hz Hk. unfold Datetime.re_M, Datetime.c, Datetime.rg, Datetime.d.
  by_value z 60; read_two Hk.
Qed.

Lemma run_second :
  forall z s g (k : string -> groupdict -> option T) x,
    (0 <= z <= 59)%Z ->
    k s (("S", Str.zero_pad 2 z) :: g) = Some x ->
    run Datetime.re_S (Str.zero_pad 2 z ++ s) g k = Some x.
Proof.
  intros z s g k x Hz Hk. unfold Datetime.re_S, Datetime.c, Datetime.rg, Datetime.d.
  by_value z 60; read_two Hk.
Qed.

(** The fraction reads all its digits. *)
Lemma run_fraction :
  forall f g (k : string -> groupdict -> option T) x,
    Str.all_chars Str.is_digit f = true ->
    1 <= String.length f <= 6 ->
    k "" (("f", f) :: g) = Some x ->
    run Datetime.re_f f g k = Some x.
Proof.
  intros f g k x Hd Hl Hk. unfold Datetime.re_f. cbn [run].
  rewrite <- (ReFacts.append_nil_r f) at 1.
  apply ReFacts.greedy_complete.
  - exact Hd.
  - lia.
  - lia.
  - exact I.
  - cbv beta.
    replace (Str.consumed f "") with f; [exact Hk|].
    symmetry. rewrite <- (ReFacts.append_nil_r f) at 1. apply ReFacts.consumed_app.
Qed.

End Fields.

Lemma digit_val_range :
  forall c, Str.is_digit c = true -> (0 <= Str.digit_val c <= 9)%Z.
Proof.
  intros c H. unfold Str.is_digit in H. apply andb_prop in H. destruct H as [H1 H2].
  apply Nat.leb_le in H1. apply Nat.leb_le in H2. unfold Str.digit_val. lia.
Qed.

Lemma int_of_digits_bounds :
  forall s acc,
    Str.all_chars Str.is_digit s = true -> (0 <= acc)%Z ->
    (0 <= Str.int_of_digits_from acc s
     <= (acc + 1) * 10 ^ Z.of_nat (String.length s) - 1)%Z.
Proof.
  induction s as [|c s IH]; intros acc Hd Hacc; cbn [Str.int_of_digits_from String.length].
  - cbn. lia.
  - cbn [Str.all_chars] in Hd. apply andb_prop in Hd. destruct Hd as [Hc Hs].
    pose proof (digit_val_range c Hc) as Hv.
    specialize (IH (10 * acc + Str.digit_val c)%Z Hs ltac:(lia)).
    rewrite Nat2Z.inj_succ, Z.pow_succ_r by lia.
    assert (0 < 10 ^ Z.of_nat (String.length s))%Z by (apply Z.pow_pos_nonneg; lia).
    nia.
Qed.

Lemma repeat_zero_digits :
  forall n, Str.all_chars Str.is_digit (Str.repeat_char "0"%char n) = true /\
            String.length (Str.repeat_char "0"%char n) = n.
Proof.
  induction n as [|n [IH1 IH2]]; [now split|]. cbn [Str.repeat_char Str.all_chars String.length].
  rewrite IH1, IH2. now split.
Qed.

Lemma fraction_micros_range :
  forall f,
    Str.all_chars Str.is_digit f = true -> String.length f <= 6 ->
    (0 <= fraction_micros f <= 999999)%Z.
Proof.
  intros f Hd Hl. unfold fraction_micros, Str.int_of_digits.
  destruct (repeat_zero_digits (6 - String.length f)) as [Hz Hn].
  pose proof (int_of_digits_bounds
                (f ++ Str.repeat_char "0"%char (6 - String.length f)) 0) as H.
  rewrite ReFacts.all_chars_app, Hd, Hz, ReFacts.length_append, Hn in H.
  specialize (H eq_refl ltac:(lia)).
  replace (String.length f + (6 - String.length f)) with 6 in H by lia.
  change (10 ^ Z.of_nat 6)%Z with 1000000%Z in H. lia.
Qed.

Lemma days_in_month_max : forall y m, (Datetime.days_in_month y m <= 31)%Z.
Proof.
  intros y m. unfold Datetime.days_in_month.
  destruct (m =? 2)%Z; [destruct (Datetime.is_leap y); lia|].
  destruct ((m =? 4) || (m =? 6) || (m =? 9) || (m =? 11))%Z; lia.
Qed.

(** [strptime] on the text of a moment gives that moment. *)
Lemma strptime_timestamp :
  forall year month day hour minute second fraction,
    (1 <= year <= 9999)%Z -> (1 <= month <= 12)%Z ->
    (1 <= day <= Datetime.days_in_month year month)%Z ->
    (0 <= hour <= 23)%Z -> (0 <= minute <= 59)%Z -> (0 <= second <= 59)%Z ->
    Str.all_chars Str.is_digit fraction = true -> 1 <= String.length fraction <= 6 ->
    Datetime.strptime (timestamp_text year month day hour minute second fraction)
    = Ok (Datetime.mk_datetime year month day hour minute second (fraction_micros fraction)).
Proof.
  intros Y M D h m s f HY HM HD Hh Hm Hs Hf Hl.
  pose proof (days_in_month_max Y M) as Hmax.
  destruct (four_digits Y ltac:(lia)) as (LY & DY & VY).
  destruct (two_digits M ltac:(lia)) as (_ & _ & VM).
  destruct (two_digits D ltac:(lia)) as (_ & _ & VD).
  destruct (two_digits h ltac:(lia)) as (_ & _ & Vh).
  destruct (two_digits m ltac:(lia)) as (_ & _ & Vm).
  destruct (two_digits s ltac:(lia)) as (_ & _ & Vs).
  assert (Hrun : match_prefix Datetime.format_regex (timestamp_text Y M D h m s f)
                 = Some ([("f", f); ("S", Str.zero_pad 2 s); ("M", Str.zero_pad 2 m);
                          ("H", Str.zero_pad 2 h); ("d", Str.zero_pad 2 D);
                          ("m", Str.zero_pad 2 M); ("Y", Str.zero_pad 4 Y)], "")).
  { unfold match_prefix, Datetime.format_regex, timestamp_text. cbn [seq run].
    rewrite (run_year _ _ _ _ _ LY DY).
    apply run_month; [lia|]. apply run_day; [lia|]. apply run_hour; [lia|].
    apply run_minute; [lia|]. apply run_second; [lia|].
    apply run_fraction; [exact Hf | lia | reflexivity]. }
  unfold Datetime.strptime. rewrite Hrun.
  unfold Datetime.group_int, Datetime.group_fraction.
  cbn [gd_get String.eqb Ascii.eqb Bool.eqb].
  rewrite VY, VM, VD, Vh, Vm, Vs. fold (fraction_micros f).
  pose proof (fraction_micros_range f Hf ltac:(lia)) as Hfr.
  assert (Hv : Datetime.valid (Datetime.mk_datetime Y M D h m s (fraction_micros f)) = true).
  { unfold Datetime.valid.
    cbn [Datetime.year Datetime.month Datetime.day Datetime.hour Datetime.minute
         Datetime.second Datetime.microsecond].
    repeat (apply andb_true_intro; split); apply Z.leb_le; lia. }
  now rewrite Hv.
Qed.

Lemma timestamp_text_digits :
  forall year month day hour minute second fraction,
    (1 <= year <= 9999)%Z -> (1 <= month <= 12)%Z -> (1 <= day <= 31)%Z ->
    (0 <= hour <= 23)%Z -> (0 <= minute <= 59)%Z -> (0 <= second <= 59)%Z ->
    Str.all_chars Str.is_digit fraction = true ->
    Str.all_chars Str.is_digit (timestamp_text year month day hour minute second fraction)
    = true /\
    String.length (timestamp_text year month day hour minute second fraction)
    = 14 + String.length fraction.
Proof.
  intros Y M D h m s f HY HM HD Hh Hm Hs Hf.
  destruct (four_digits Y ltac:(lia)) as (LY & DY & _).
  destruct (two_digits M ltac:(lia)) as (LM & DM & _).
  destruct (two_digits D ltac:(lia)) as (LD & DD & _).
  destruct (two_digits h ltac:(lia)) as (Lh & Dh & _).
  destruct (two_digits m ltac:(lia)) as (Lm & Dm & _).
  destruct (two_digits s ltac:(lia)) as (Ls & Ds & _).
  unfold timestamp_text. split.
  - rewrite !ReFacts.all_chars_app, DY, DM, DD, Dh, Dm, Ds, Hf. reflexivity.
  - rewrite !ReFacts.length_append, LY, LM, LD, Lh, Lm, Ls. lia.
Qed.

End TimestampFacts.

(** X27: A batch file named after a real moment gets that moment back:
    when the search id of the name is the text of a date and time with
    one to three digits of fraction, [parse_filename_metadata] returns
    without raising, [query_timestamp] is the ISO text of exactly that
    moment in UTC, and the query and the page (of at most 4300 digits,
    the most [int] reads) are those of the name;
    [strptime] reads such a text, with up to six digits of fraction,
    field by field. *)
Theorem parse_filename_metadata_recovers_timestamp :
  forall (year month day hour minute second : Z) (fraction q p : string),
    (1 <= year <= 9999)%Z -> (1 <= month <= 12)%Z ->
    (1 <= day <= Datetime.days_in_month year month)%Z ->
    (0 <= hour <= 23)%Z -> (0 <= minute <= 59)%Z -> (0 <= second <= 59)%Z ->
    digits fraction -> 1 <= String.length fraction <= 6 ->
    Datetime.strptime (timestamp_text year month day hour minute second fraction)
    = Ok (Datetime.mk_datetime year month day hour minute second (fraction_micros fraction)) /\
    (String.length fraction <= 3 -> no_newline q ->
     (Str.isdigit p = true -> String.length p <= int_max_str_digits ->
      Filename.parse_filename_metadata
        (timestamp_text year month day hour minute second fraction
         ++ "-" ++ q ++ "-page" ++ p ++ ".json")%string
      = Ok {| Filename.search_id :=
                (timestamp_text year month day hour minute second fraction
                 ++ "-" ++ q ++ "-page" ++ Str.of_Z (Str.int_of_digits p))%string;
              Filename.query_timestamp :=
                Some (Datetime.isoformat
                        (Datetime.mk_datetime year month day hour minute second
                           (fraction_micros fraction)));
              Filename.query := Some q;
              Filename.page := Some (Str.int_of_digits p) |}) /\
     Filename.parse_filename_metadata
       (timestamp_text year month day hour minute second fraction
        ++ "-" ++ q ++ "-page" ++ ".json")%string
     = Ok {| Filename.search_id :=
               (timestamp_text year month day hour minute second fraction
                ++ "-" ++ q ++ "-page")%string;
             Filename.query_timestamp :=
               Some (Datetime.isoformat
                       (Datetime.mk_datetime year month day hour minute second
                          (fraction_micros fraction)));
             Filename.query := Some q;
             Filename.page := None |}).
Proof.
  intros Y M D h m s f q p HY HM HD Hh Hm Hs Hf Hl.
  pose proof (TimestampFacts.strptime_timestamp Y M D h m s f HY HM HD Hh Hm Hs Hf Hl) as E.
  split; [exact E|]. intros Hl3 Hq.
  pose proof (TimestampFacts.days_in_month_max Y M) as Hmax.
  destruct (TimestampFacts.timestamp_text_digits Y M D h m s f HY HM ltac:(lia) Hh Hm Hs Hf)
    as [Hd Hlen].
  split.
  - intros Hp Hpl. apply parse_strict_name; try assumption. lia.
  - apply (parse_relaxed_name _ q ".json"); try assumption; [lia | now left].
Qed.

Lemma parse_filename_metadata_recovers_timestamp_witness :
  (1 <= 2024 <= 9999)%Z /\ (1 <= 2 <= 12)%Z /\
  (1 <= 29 <= Datetime.days_in_month 2024 2)%Z /\
  (0 <= 23 <= 23)%Z /\ (0 <= 59 <= 59)%Z /\ (0 <= 7 <= 59)%Z /\
  digits "045" /\ 1 <= String.length "045" <= 6 /\
  Filename.parse_filename_metadata "20240229235907045-rust dev-page12.json"
  = Ok {| Filename.search_id := "20240229235907045-rust dev-page12";
          Filename.query_timestamp := Some "2024-02-29T23:59:07.045000+00:00";
          Filename.query := Some "rust dev";
          Filename.page := Some 12%Z |}.
Proof.
  assert (H1 : (1 <= 2024 <= 9999)%Z) by lia.
  assert (H2 : (1 <= 2 <= 12)%Z) by lia.
  assert (H3 : (1 <= 29 <= Datetime.days_in_month 2024 2)%Z) by (vm_compute; split; discriminate).
  assert (H4 : (0 <= 23 <= 23)%Z) by lia.
  assert (H5 : (0 <= 59 <= 59)%Z) by lia.
  assert (H6 : (0 <= 7 <= 59)%Z) by lia.
  assert (H7 : digits "045") by reflexivity.
  assert (H8 : 1 <= String.length "045" <= 6) by (cbn; lia).
  repeat (split; [assumption|]).
  destruct (parse_filename_metadata_recovers_timestamp 2024 2 29 23 59 7 "045" "rust dev" "12"
              H1 H2 H3 H4 H5 H6 H7 H8) as [_ Hparse].
  destruct (Hparse ltac:(cbn; lia) eq_refl) as [Hstrict _].
  apply (Hstrict eq_refl). unfold int_max_str_digits. cbn [String.length]. lia.
Defined.
